(** * Rule engine of facebook-mcp-server.js: metrics analysis, change
      detection and the approval workflow.

    The development embeds the JavaScript functions [analyzeMetrics],
    [detectSignificantChanges], [createApprovalRequest], [saveState] and the
    [process_approval] tool handler of [src/facebook-mcp-server.js] and
    states the properties of the specification about them.  It then embeds
    [formatWhatsAppMessage], the tool handlers [analyze_campaign],
    [get_account_overview] and [monitor_budget_pace], and the selection loop
    of [pause_poor_performers], with further properties of all of these.

    JavaScript numbers are IEEE 754 binary64 values: they are modelled by
    Rocq's primitive [float]s, whose operations are the same binary64
    operations (round to nearest, ties to even).  Their specification
    [Prim2SF] into [spec_float] gives the exact value [m * 2^e] of a finite
    number, which decimal parsing and printing need. *)

From Stdlib Require Import ZArith List String Ascii Bool Lia Floats DecimalString.
From Stdlib Require Import DecimalN DecimalPos.
From stdpp Require Import base gmap strings.
Import ListNotations.

Set Warnings "-inexact-float,-register-all".

Open Scope string_scope.
Open Scope Z_scope.

(** ** JavaScript numbers *)

Module JS.

Abbreviation number := float.

Definition NaN : number := PrimFloat.nan.
Definition Infinity : number := PrimFloat.infinity.
Definition NegInfinity : number := PrimFloat.neg_infinity.

(** [a < b] and [a > b] on numbers: false as soon as one side is NaN. *)
Definition lt (a b : number) : bool := PrimFloat.ltb a b.
Definition gt (a b : number) : bool := PrimFloat.ltb b a.

Definition isNaN (x : number) : bool := negb (PrimFloat.eqb x x).

(** [+0], [-0] and NaN are the falsy numbers. *)
Definition number_truthy (x : number) : bool :=
  match Prim2SF x with
  | S754_zero _ | S754_nan => false
  | _ => true
  end.

(** *** Decimal text to number

    [dec_to_SF neg M E] is the binary64 value nearest to [M * 10^E] (ties to
    even), with the sign [neg].  A non-negative [E] gives an integer, rounded
    by [binary_round]; a negative one gives the quotient [M / 10^(-E)], whose
    integer part and remainder position [SFdiv_core_binary] computes for the
    final rounding.  The two first tests only cut the computation short: from
    [10^309] on every value overflows to an infinity, and a value below
    [2^(-1075)] rounds to zero ([10^E <= 2^(3E)] for [E < 0]). *)
Definition dec_to_SF (neg : bool) (M E : Z) : spec_float :=
  match M with
  | Zpos m =>
      if 309 <=? E then S754_infinity neg
      else if Z.log2 M + 1 + 3 * E <? -1075 then S754_zero neg
      else if 0 <=? E then
        match M * 10 ^ E with
        | Zpos p => binary_round prec emax neg p 0
        | _ => S754_zero neg
        end
      else
        let '(mz, ez, lz) :=
          SFdiv_core_binary prec emax M 0 (10 ^ (- E)) 0 in
        binary_round_aux prec emax neg mz ez lz
  | _ => S754_zero neg
  end.

Definition dec_to_number (neg : bool) (M E : Z) : number :=
  SF2Prim (dec_to_SF neg M E).

Definition is_digit (c : ascii) : bool :=
  let n := Z.of_nat (nat_of_ascii c) in (48 <=? n) && (n <=? 57).

Definition digit_val (c : ascii) : Z := Z.of_nat (nat_of_ascii c) - 48.

(** Reads the longest run of decimal digits at the head of [s]: the value of
    [acc] followed by these digits, how many were read, and the rest. *)
Fixpoint read_digits (s : string) (acc : Z) (cnt : Z) : Z * Z * string :=
  match s with
  | String c r =>
      if is_digit c then read_digits r (10 * acc + digit_val c) (cnt + 1)
      else (acc, cnt, s)
  | EmptyString => (acc, cnt, s)
  end.

(** [strip p s]: the rest of [s] after the prefix [p], if [p] is a prefix. *)
Fixpoint strip (p s : string) : option string :=
  match p, s with
  | EmptyString, _ => Some s
  | String a p', String b s' => if Ascii.eqb a b then strip p' s' else None
  | String _ _, EmptyString => None
  end.

(** White space and line terminators of ECMAScript, in UTF-8: TAB, LF, VT,
    FF, CR, SP, U+00A0, U+1680, U+2000..U+200A, U+2028, U+2029, U+202F,
    U+205F, U+3000 and U+FEFF. *)
Definition ws_len (s : string) : nat :=
  match List.map (fun c => Z.of_nat (nat_of_ascii c)) (list_ascii_of_string s) with
  | 9 :: _ | 10 :: _ | 11 :: _ | 12 :: _ | 13 :: _ | 32 :: _ => 1%nat
  | 194 :: 160 :: _ => 2%nat
  | 225 :: 154 :: 128 :: _ => 3%nat
  | 226 :: 128 :: b :: _ =>
      if ((128 <=? b) && (b <=? 138)) || (b =? 168) || (b =? 169) || (b =? 175)
      then 3%nat else 0%nat
  | 226 :: 129 :: 159 :: _ => 3%nat
  | 227 :: 128 :: 128 :: _ => 3%nat
  | 239 :: 187 :: 191 :: _ => 3%nat
  | _ => 0%nat
  end.

Fixpoint drop_string (n : nat) (s : string) : string :=
  match n, s with
  | S n', String _ r => drop_string n' r
  | _, _ => s
  end.

Fixpoint trim_start_fuel (fuel : nat) (s : string) : string :=
  match fuel with
  | O => s
  | S f =>
      match ws_len s with
      | O => s
      | n => trim_start_fuel f (drop_string n s)
      end
  end.

Definition trim_start (s : string) : string :=
  trim_start_fuel (String.length s) s.

(** The optional exponent part [e] / [E], sign, digits: it counts only when
    at least one digit follows. *)
Definition read_exponent (s : string) : Z :=
  match s with
  | String c r =>
      if Ascii.eqb c "e" || Ascii.eqb c "E" then
        let '(neg, r') :=
          match r with
          | String "+" r1 => (false, r1)
          | String "-" r1 => (true, r1)
          | _ => (false, r)
          end in
        let '(v, cnt, _) := read_digits r' 0 0 in
        if cnt =? 0 then 0 else if neg then - v else v
      else 0
  | EmptyString => 0
  end.

(** [parseFloat] on a string: leading white space is skipped, then the
    longest prefix that is a decimal literal is converted; NaN when there is
    none.  What follows the literal is ignored. *)
Definition parseFloat_string (s : string) : number :=
  let s1 := trim_start s in
  let '(neg, s2) :=
    match s1 with
    | String "+" r => (false, r)
    | String "-" r => (true, r)
    | _ => (false, s1)
    end in
  match strip "Infinity" s2 with
  | Some _ => if neg then NegInfinity else Infinity
  | None =>
      let '(ip, ni, r1) := read_digits s2 0 0 in
      let '(M, nf, r2) :=
        match r1 with
        | String "." r => read_digits r ip 0
        | _ => (ip, 0, r1)
        end in
      if (ni =? 0) && (nf =? 0) then NaN
      else dec_to_number neg M (read_exponent r2 - nf)
  end.

(** *** Number to decimal text

    A positive rational is a pair (numerator, denominator); the exact value
    of the finite number with mantissa [m] and exponent [e] is [m * 2^e]. *)
Definition exact (m : positive) (e : Z) : Z * Z :=
  if 0 <=? e then (Zpos m * 2 ^ e, 1) else (Zpos m, 2 ^ (- e)).

Definition scale10 (v : Z * Z) (j : Z) : Z * Z :=
  let '(a, b) := v in
  if 0 <=? j then (a * 10 ^ j, b) else (a, b * 10 ^ (- j)).

(** [v < 10^j] *)
Definition lt_pow10 (v : Z * Z) (j : Z) : bool :=
  let '(a, b) := scale10 v (- j) in a <? b.

(** The [n] with [10^(n-1) <= v < 10^n], searched upwards: a positive
    binary64 value lies between [10^(-324)] and [10^309]. *)
Fixpoint find_exponent (fuel : nat) (v : Z * Z) (n : Z) : Z :=
  match fuel with
  | O => n
  | S f => if lt_pow10 v n then n else find_exponent f v (n + 1)
  end.

Definition dec_exponent (v : Z * Z) : Z := find_exponent 640 v (-324).

Definition string_of_Z (n : Z) : string :=
  NilZero.string_of_uint (N.to_uint (Z.to_N n)).

Fixpoint zeros (n : nat) : string :=
  match n with
  | O => ""
  | S n' => String "0" (zeros n')
  end.

(** The digits of Number::toString: the least [k] such that a decimal
    [s * 10^(n-k)] with [k] digits converts back to [x], and among two such
    decimals the one closer to [x] (the even one on a tie).  The only
    candidates are the two multiples of [10^(n-k)] around [x]; with 17
    digits one of them always converts back. *)
Fixpoint shortest (fuel : nat) (x : number) (v : Z * Z) (n k : Z) : Z * Z :=
  let '(a, b) := scale10 v (k - n) in
  let s0 := a / b in
  let r := a mod b in
  let back s := PrimFloat.Leibniz.eqb (dec_to_number false s (n - k)) x in
  let ok0 := back s0 in
  let ok1 := negb (r =? 0) && back (s0 + 1) in
  match fuel with
  | O => (s0, k)
  | S f =>
      if ok0 && ok1 then
        match 2 * r ?= b with
        | Lt => (s0, k)
        | Gt => (s0 + 1, k)
        | Eq => (if Z.even s0 then s0 else s0 + 1, k)
        end
      else if ok0 then (s0, k)
      else if ok1 then (s0 + 1, k)
      else shortest f x v n (k + 1)
  end.

Definition format_digits (D : string) (n : Z) : string :=
  let k := Z.of_nat (String.length D) in
  if (k <=? n) && (n <=? 21) then D ++ zeros (Z.to_nat (n - k))
  else if (0 <? n) && (n <=? 21) then
    String.substring 0 (Z.to_nat n) D ++ "." ++
    String.substring (Z.to_nat n) (Z.to_nat (k - n)) D
  else if (-6 <? n) && (n <=? 0) then "0." ++ zeros (Z.to_nat (- n)) ++ D
  else
    let e := n - 1 in
    let tail := "e" ++ (if 0 <=? e then "+" else "-") ++ string_of_Z (Z.abs e) in
    if k =? 1 then D ++ tail
    else String.substring 0 1 D ++ "." ++
         String.substring 1 (Z.to_nat (k - 1)) D ++ tail.

(** Number::toString of the positive finite number [m * 2^e].  The upper
    candidate can be [10^k], that is the single digit 1 one place higher. *)
Definition positive_toString (m : positive) (e : Z) : string :=
  let v := exact m e in
  let n := dec_exponent v in
  let '(s, k) := shortest 17 (SF2Prim (S754_finite false m e)) v n 1 in
  if s =? 10 ^ k then format_digits "1" (n + 1)
  else format_digits (string_of_Z s) n.

Definition Number_toString (x : number) : string :=
  match Prim2SF x with
  | S754_nan => "NaN"
  | S754_zero _ => "0"
  | S754_infinity true => "-Infinity"
  | S754_infinity false => "Infinity"
  | S754_finite sg m e => (if sg then "-" else "") ++ positive_toString m e
  end.

(** *** Number.prototype.toFixed

    [fixed_digits n f]: the decimal digits of the integer [n] with a point
    before the last [f] of them, padded with zeros on the left to at least
    [f + 1] digits. *)
Definition fixed_digits (n : Z) (f : nat) : string :=
  let m := string_of_Z n in
  match f with
  | O => m
  | _ =>
      let m' := zeros (S f - String.length m) ++ m in
      let k := String.length m' in
      String.substring 0 (k - f) m' ++ "." ++ String.substring (k - f) f m'
  end.

(** [x.toFixed(f)]: a number that is not finite, or of magnitude [10^21] or
    more, is printed by [Number_toString]; otherwise the integer [n] nearest
    to [|x| * 10^f] (the larger one on a tie) is printed with [f] decimals,
    after a minus sign when [x < 0]. *)
Definition toFixed (x : number) (f : nat) : string :=
  match Prim2SF x with
  | S754_finite sg m e =>
      let v := exact m e in
      if lt_pow10 v 21 then
        let '(a, b) := scale10 v (Z.of_nat f) in
        (if sg then "-" else "") ++ fixed_digits ((2 * a + b) / (2 * b)) f
      else Number_toString x
  | S754_zero _ => fixed_digits 0 f
  | _ => Number_toString x
  end.

(** *** Math.abs and Math.min *)
Definition Math_abs (x : number) : number := PrimFloat.abs x.

(** NaN if an argument is NaN; [-0] counts as less than [+0]. *)
Definition Math_min (a b : number) : number :=
  if isNaN a || isNaN b then NaN
  else if lt a b then a
  else if lt b a then b
  else match Prim2SF a with
       | S754_zero true => a
       | _ => b
       end.

(** ** JavaScript values

    The values the analysed objects hold: insights of the Ads API are
    objects whose fields are strings, numbers, or arrays of objects.  An
    object is the list of its own properties, read from the head:
    [(k, v) :: o] is [o] with the property [k] set to [v]. *)
Inductive value :=
| VUndefined
| VNull
| VBool (b : bool)
| VNum (n : number)
| VStr (s : string)
| VArr (items : list value)
| VObj (props : list (string * value)).

Definition object := list (string * value).

(** [o.k]: the property, or undefined. *)
Fixpoint get (o : object) (k : string) : value :=
  match o with
  | [] => VUndefined
  | (k', v) :: r => if String.eqb k' k then v else get r k
  end.

(** ToBoolean *)
Definition truthy (v : value) : bool :=
  match v with
  | VUndefined | VNull => false
  | VBool b => b
  | VNum n => number_truthy n
  | VStr s => negb (String.eqb s "")
  | VArr _ | VObj _ => true
  end.

(** [a || b] *)
Definition or_else (a b : value) : value := if truthy a then a else b.

(** ToString; an array joins its elements with commas, undefined and null
    elements giving the empty string. *)
Fixpoint ToString (v : value) : string :=
  match v with
  | VUndefined => "undefined"
  | VNull => "null"
  | VBool true => "true"
  | VBool false => "false"
  | VNum n => Number_toString n
  | VStr s => s
  | VArr items =>
      (fix join (l : list value) : string :=
         match l with
         | [] => ""
         | x :: r =>
             let sx := match x with
                       | VUndefined | VNull => ""
                       | _ => ToString x
                       end in
             match r with
             | [] => sx
             | _ => sx ++ "," ++ join r
             end
         end) items
  | VObj _ => "[object Object]"
  end.

(** The global [parseFloat]: its argument is first converted to a string. *)
Definition parseFloat (v : value) : number := parseFloat_string (ToString v).

(** [v[0]] for a value [v] that is neither undefined nor null; for a string
    it is its first character (here its first byte). *)
Definition index0 (v : value) : value :=
  match v with
  | VArr (x :: _) => x
  | VStr (String c _) => VStr (String c "")
  | VObj props => get props "0"
  | _ => VUndefined
  end.

(** [v?.value] *)
Definition opt_value (v : value) : value :=
  match v with
  | VObj props => get props "value"
  | _ => VUndefined
  end.

End JS.

Import JS.

(** ** Constants of the server *)

Module THRESHOLDS.
Module ctr.
Definition good : number := 1.5%float.
Definition average : number := 0.8%float.
Definition critical : number := 0.5%float.
End ctr.
Module cpm.
Definition good : number := 30%float.
Definition average : number := 50%float.
Definition critical : number := 75%float.
End cpm.
Module frequency.
Definition optimal : number := 3%float.
Definition warning : number := 5%float.
Definition critical : number := 7%float.
End frequency.
Module spend.
Definition minForAnalysis : number := 10%float.
Definition dailyLimit : number := 500%float.
End spend.
Module roas.
Definition good : number := 3%float.
Definition average : number := 2%float.
Definition poor : number := 1.5%float.
End roas.
End THRESHOLDS.

Inductive priority := CRITICAL | URGENT | WARNING | INFO | SUCCESS.

Definition NOTIFICATION_PRIORITY (p : priority) : string :=
  match p with
  | CRITICAL => "critical"
  | URGENT => "urgent"
  | WARNING => "warning"
  | INFO => "info"
  | SUCCESS => "success"
  end.

(** ** analyzeMetrics *)

Inductive analysis_status :=
  optimal | excellent | needs_improvement | poor | critical.

Definition status_text (s : analysis_status) : string :=
  match s with
  | optimal => "optimal"
  | excellent => "excellent"
  | needs_improvement => "needs_improvement"
  | poor => "poor"
  | critical => "critical"
  end.

(** A notification candidate; [requiresApproval] and [suggestedValue] are
    absent from some of them. *)
Record notification := {
  n_priority : priority;
  n_message : string;
  requiresApproval : option bool;
  suggestedAction : string;
  suggestedValue : option number
}.

Record analysis := {
  issues : list string;
  recommendations : list string;
  notifications : list notification;
  score : Z;
  status : analysis_status
}.

Definition push_issue (x : string) (a : analysis) : analysis :=
  {| issues := issues a ++ [x]; recommendations := recommendations a;
     notifications := notifications a; score := score a; status := status a |}.

Definition push_recommendation (x : string) (a : analysis) : analysis :=
  {| issues := issues a; recommendations := recommendations a ++ [x];
     notifications := notifications a; score := score a; status := status a |}.

Definition push_notification (x : notification) (a : analysis) : analysis :=
  {| issues := issues a; recommendations := recommendations a;
     notifications := notifications a ++ [x]; score := score a;
     status := status a |}.

Definition penalty (p : Z) (a : analysis) : analysis :=
  {| issues := issues a; recommendations := recommendations a;
     notifications := notifications a; score := score a - p;
     status := status a |}.

Definition set_status (s : analysis_status) (a : analysis) : analysis :=
  {| issues := issues a; recommendations := recommendations a;
     notifications := notifications a; score := score a; status := s |}.

Definition initial_analysis : analysis :=
  {| issues := []; recommendations := []; notifications := [];
     score := 100; status := optimal |}.

Definition nl : string := String (ascii_of_nat 10) "".

(** [parseFloat(metrics.k || 0)]: the number a step compares. *)
Definition field_number (metrics : object) (k : string) : number :=
  parseFloat (or_else (get metrics k) (VNum 0)).

(** The recommendation of the branch [ctr > THRESHOLDS.ctr.good]. *)
Definition scale_up_recommendation (ctr : number) : string :=
  "🎯 Excellent CTR (" ++ toFixed ctr 2 ++ "%) - Scale this winner".

(** The CTR step (source lines 122-153).  Only its first two branches
    assign a status. *)
Definition ctr_step (metrics context : object) (a : analysis) : analysis :=
  let ctr := field_number metrics "ctr" in
  if lt ctr THRESHOLDS.ctr.critical then
    let a := push_issue ("Critical CTR: " ++ toFixed ctr 2 ++ "%") a in
    let a := push_recommendation
               "🚨 Immediate action needed: Pause and revise creative" a in
    let a := penalty 40 a in
    let a := set_status critical a in
    if gt (field_number metrics "spend") 50 then
      push_notification
        {| n_priority := CRITICAL;
           n_message := "Critical performance alert: CTR " ++ toFixed ctr 2
                        ++ "% with $" ++ ToString (get metrics "spend")
                        ++ " spent";
           requiresApproval := Some true;
           suggestedAction := "PAUSE_CAMPAIGN";
           suggestedValue := None |} a
    else a
  else if lt ctr THRESHOLDS.ctr.average then
    let a := push_issue ("Low CTR: " ++ toFixed ctr 2 ++ "%") a in
    let a := push_recommendation "Test new ad creative with stronger hooks" a in
    let a := penalty 25 a in
    set_status needs_improvement a
  else if gt ctr THRESHOLDS.ctr.good then
    let a := push_recommendation (scale_up_recommendation ctr) a in
    let budget := get context "campaignBudget" in
    if truthy budget && lt (parseFloat budget) 100 then
      push_notification
        {| n_priority := SUCCESS;
           n_message := "High performer alert: " ++ toFixed ctr 2
                        ++ "% CTR - Ready to scale";
           requiresApproval := None;
           suggestedAction := "INCREASE_BUDGET";
           suggestedValue := Some (Math_min (parseFloat budget * 2) 200) |} a
    else a
  else a.

(** The CPM step (lines 156-170). *)
Definition cpm_step (metrics : object) (a : analysis) : analysis :=
  let cpm := field_number metrics "cpm" in
  if gt cpm THRESHOLDS.cpm.critical then
    let a := push_issue ("Critical CPM: $" ++ toFixed cpm 2 ++ " AUD") a in
    let a := push_recommendation
               "🚨 CPMs too high - Pause and revise targeting" a in
    let a := penalty 30 a in
    push_notification
      {| n_priority := URGENT;
         n_message := "High CPM alert: $" ++ toFixed cpm 2 ++ " AUD";
         requiresApproval := None;
         suggestedAction := "REVIEW_TARGETING";
         suggestedValue := None |} a
  else if gt cpm THRESHOLDS.cpm.average then
    let a := push_issue ("High CPM: $" ++ toFixed cpm 2 ++ " AUD") a in
    let a := push_recommendation "Broaden targeting or test new audiences" a in
    penalty 20 a
  else a.

(** The frequency step (lines 173-188). *)
Definition frequency_step (metrics : object) (a : analysis) : analysis :=
  let frequency := field_number metrics "frequency" in
  if gt frequency THRESHOLDS.frequency.critical then
    let a := push_issue ("Critical frequency: " ++ toFixed frequency 2) a in
    let a := push_recommendation
               "🚨 Severe ad fatigue - Refresh creative immediately" a in
    let a := penalty 30 a in
    push_notification
      {| n_priority := URGENT;
         n_message := "Ad fatigue alert: Frequency " ++ toFixed frequency 2;
         requiresApproval := Some true;
         suggestedAction := "REFRESH_CREATIVE";
         suggestedValue := None |} a
  else if gt frequency THRESHOLDS.frequency.warning then
    let a := push_issue ("High frequency: " ++ toFixed frequency 2) a in
    let a := push_recommendation
               "Audience fatigue emerging - Plan creative refresh" a in
    penalty 15 a
  else a.

(** [parseFloat(metrics.purchase_roas[0]?.value || 0)] *)
Definition roas_number (purchase_roas : value) : number :=
  parseFloat (or_else (opt_value (index0 purchase_roas)) (VNum 0)).

(** The ROAS step (lines 191-200), taken only when [purchase_roas] is
    truthy. *)
Definition roas_step (metrics : object) (a : analysis) : analysis :=
  let purchase_roas := get metrics "purchase_roas" in
  if truthy purchase_roas then
    let roas := roas_number purchase_roas in
    if lt roas THRESHOLDS.roas.poor then
      let a := push_issue ("Poor ROAS: " ++ toFixed roas 2 ++ "x") a in
      let a := push_recommendation "Review product-market fit and pricing" a in
      penalty 20 a
    else if gt roas THRESHOLDS.roas.good then
      push_recommendation
        ("💰 Strong ROAS (" ++ toFixed roas 2 ++ "x) - Increase investment") a
    else a
  else a.

(** "Set final status" (lines 203-206). *)
Definition final_status (a : analysis) : analysis :=
  if score a <? 40 then set_status critical a
  else if score a <? 60 then set_status poor a
  else if score a <? 80 then set_status needs_improvement a
  else if score a >=? 95 then set_status excellent a
  else a.

(** The default value [{}] of the parameter [context]; [None] is an omitted
    argument. *)
Definition context_or_empty (context : option object) : object :=
  match context with
  | Some c => c
  | None => []
  end.

(** [analyzeMetrics(metrics, context = {})] *)
Definition analyzeMetrics (metrics : object) (context : option object) : analysis :=
  let context := context_or_empty context in
  let a := ctr_step metrics context initial_analysis in
  let a := cpm_step metrics a in
  let a := frequency_step metrics a in
  let a := roas_step metrics a in
  final_status a.

(** ** detectSignificantChanges

    [currentMetrics] is built by the caller from four [parseFloat] results;
    the stored state is that object (the field [current], spread in the
    source) with the time of the check and, after an update, the two
    previous values.  [campaignState] is a map from campaign ids to stored
    states; the property names every JavaScript object inherits are not
    campaign ids.  Times are milliseconds since the epoch (the text form of
    [toISOString] is not modelled). *)

Record metrics := {
  ctr : number;
  cpm : number;
  spend : number;
  frequency : number
}.

Record campaign_state := {
  current : metrics;
  lastChecked : Z;
  previousCtr : option number;
  previousCpm : option number
}.

Inductive change_type := CTR_CRASH | CPM_SPIKE | PERFORMANCE_BOOST.

Record change := {
  c_type : change_type;
  c_priority : priority;
  c_message : string;
  recommendation : string
}.

Definition ctrChange (previous current : metrics) : number :=
  ((ctr current - ctr previous) / ctr previous * 100)%float.

Definition cpmChange (previous current : metrics) : number :=
  ((cpm current - cpm previous) / cpm previous * 100)%float.

Definition ctr_crash (previous current : metrics) : list change :=
  let change := ctrChange previous current in
  if lt change (-30) && lt (ctr current) THRESHOLDS.ctr.average then
    [{| c_type := CTR_CRASH;
        c_priority := CRITICAL;
        c_message := "🚨 CTR crashed " ++ toFixed (Math_abs change) 0
                     ++ "% from " ++ Number_toString (ctr previous)
                     ++ "% to " ++ Number_toString (ctr current) ++ "%";
        recommendation := "Pause campaign and review creative immediately" |}]
  else [].

Definition cpm_spike (previous current : metrics) : list change :=
  let change := cpmChange previous current in
  if gt change 50 && gt (cpm current) THRESHOLDS.cpm.average then
    [{| c_type := CPM_SPIKE;
        c_priority := URGENT;
        c_message := "⚠️ CPM increased " ++ toFixed change 0 ++ "% to $"
                     ++ Number_toString (cpm current);
        recommendation := "Review audience targeting and competition" |}]
  else [].

Definition performance_boost (previous current : metrics) : list change :=
  let change := ctrChange previous current in
  if gt change 50 && gt (ctr current) THRESHOLDS.ctr.good then
    [{| c_type := PERFORMANCE_BOOST;
        c_priority := SUCCESS;
        c_message := "🚀 CTR improved " ++ toFixed change 0 ++ "% to "
                     ++ Number_toString (ctr current) ++ "%";
        recommendation := "Consider increasing budget to scale" |}]
  else [].

(** The events of one comparison, in the order they are pushed. *)
Definition changes_of (previous current : metrics) : list change :=
  ctr_crash previous current ++ cpm_spike previous current
  ++ performance_boost previous current.

(** [detectSignificantChanges(campaignId, currentMetrics)] at time [now]:
    the result ([None] is null) and the new [campaignState]. *)
Definition detectSignificantChanges (now : Z) (campaignId : string)
    (currentMetrics : metrics) (campaignState : gmap string campaign_state)
  : option (list change) * gmap string campaign_state :=
  match campaignState !! campaignId with
  | None =>
      (None,
       <[campaignId := {| current := currentMetrics; lastChecked := now;
                          previousCtr := None; previousCpm := None |}]>
         campaignState)
  | Some previous =>
      let changes := changes_of (current previous) currentMetrics in
      (match changes with [] => None | _ => Some changes end,
       <[campaignId := {| current := currentMetrics; lastChecked := now;
                          previousCtr := Some (ctr (current previous));
                          previousCpm := Some (cpm (current previous)) |}]>
         campaignState)
  end.

(** ** Tool calls

    An awaited call either returns or throws (a rejected promise); an error
    is represented by its message. *)
Inductive outcome (A : Type) :=
| Returned (a : A)
| Thrown (message : string).
Arguments Returned {A} a.
Arguments Thrown {A} message.

(** [try { body } catch (error) { return handler(error) } finally { final }]
    where [final] returns nothing: an exception of the body is turned into
    the handler's value, and an exception of the finally block replaces
    whatever the try and catch blocks completed with. *)
Definition try_catch_finally {A : Type} (body : outcome A)
    (handler : string -> A) (final : outcome unit) : outcome A :=
  match final with
  | Thrown e => Thrown e
  | Returned _ =>
      match body with
      | Returned a => Returned a
      | Thrown e => Returned (handler e)
      end
  end.

(** The state file: what reading and parsing it gives ([None] when either
    fails), and whether writing it fails, with which message. *)
Record fs := {
  readFile : option (gmap string campaign_state);
  writeFile : gmap string campaign_state -> option string
}.

(** [loadState]: the content of the file, or [{}] on any failure. *)
Definition loadState (disk : fs) : gmap string campaign_state :=
  match readFile disk with
  | Some m => m
  | None => ∅
  end.

(** [saveState]: [await fs.writeFile(...)], with no handler around it. *)
Definition saveState (disk : fs) (campaignState : gmap string campaign_state)
  : outcome unit :=
  match writeFile disk campaignState with
  | None => Returned tt
  | Some e => Thrown e
  end.

(** ** Approvals *)

Module Approvals.

Inductive approval_status := pending | approved | rejected | expired.

Definition approval_status_text (s : approval_status) : string :=
  match s with
  | pending => "pending"
  | approved => "approved"
  | rejected => "rejected"
  | expired => "expired"
  end.

(** The data of a PAUSE_CAMPAIGNS approval: the campaigns to pause and the
    estimated savings, a formatted amount. *)
Record campaign_ref := { id : string; name : string }.

Record approval_data := {
  campaigns : list campaign_ref;
  estimatedSavings : string
}.

Record approval := {
  action : string;
  data : approval_data;
  createdAt : Z;
  expiresAt : Z;
  status : approval_status;
  processedAt : option Z
}.

Record approval_request := {
  approvalId : string;
  request_expiresAt : Z;
  request_action : string;
  summary : approval_data
}.

(** [createApprovalRequest(action, data)] when the clock reads [now] (one
    reading stands for the three of the source). *)
Definition createApprovalRequest (now : Z) (action : string)
    (data : approval_data) (pendingApprovals : gmap string approval)
  : approval_request * gmap string approval :=
  let approvalId := "APR" ++ string_of_Z now in
  let expiresAt := now + 2 * 60 * 60 * 1000 in
  ({| approvalId := approvalId; request_expiresAt := expiresAt;
      request_action := action; summary := data |},
   <[approvalId := {| action := action; data := data; createdAt := now;
                      expiresAt := expiresAt; status := pending;
                      processedAt := None |}]> pendingApprovals).

(** The payloads of [process_approval], before [JSON.stringify]. *)
Record error_payload := {
  error : string;
  error_approvalId : option string;
  error_status : option approval_status;
  expiredAt : option Z;
  tool : option string
}.

Record pause_result := {
  campaignId : string;
  campaignName : string;
  result_status : string;
  success : bool;
  result_error : option string
}.

Record pause_summary := {
  totalRequested : nat;
  successfullyPaused : nat;
  failed : nat;
  summary_estimatedSavings : string
}.

Record whatsapp_notification := {
  w_type : string;
  w_priority : priority;
  w_message : string
}.

Record response := {
  response_approvalId : string;
  response_action : string;
  response_processedAt : Z;
  results : list pause_result;
  response_summary : option pause_summary;
  whatsappNotification : option whatsapp_notification
}.

Inductive payload :=
| Error (e : error_payload)
| Response (r : response).

Definition upper (c : ascii) : ascii :=
  let n := nat_of_ascii c in
  if ((97 <=? n) && (n <=? 122))%nat then ascii_of_nat (n - 32) else c.

(** [toUpperCase], on the letters a-z; the comparisons below are with
    "APPROVE" and "REJECT", which no other letter maps into. *)
Fixpoint toUpperCase (s : string) : string :=
  match s with
  | EmptyString => EmptyString
  | String c r => String (upper c) (toUpperCase r)
  end.

Definition set_approval_status (s : approval_status) (a : approval) : approval :=
  {| action := action a; data := data a; createdAt := createdAt a;
     expiresAt := expiresAt a; status := s; processedAt := processedAt a |}.

Definition set_processedAt (t : Z) (a : approval) : approval :=
  {| action := action a; data := data a; createdAt := createdAt a;
     expiresAt := expiresAt a; status := status a; processedAt := Some t |}.

Definition approval_status_eqb (a b : approval_status) : bool :=
  match a, b with
  | pending, pending | approved, approved
  | rejected, rejected | expired, expired => true
  | _, _ => false
  end.

(** The loop of the PAUSE_CAMPAIGNS case: [update id] is the outcome of
    [new Campaign(id).update({status: 'PAUSED'})] ([None]: done). *)
Definition pause_campaigns (update : string -> option string)
    (l : list campaign_ref) : list pause_result :=
  List.map (fun campaign =>
    match update (id campaign) with
    | None =>
        {| campaignId := id campaign; campaignName := name campaign;
           result_status := "PAUSED"; success := true;
           result_error := None |}
    | Some message =>
        {| campaignId := id campaign; campaignName := name campaign;
           result_status := "FAILED"; success := false;
           result_error := Some message |}
    end) l.

Definition string_of_nat (n : nat) : string := string_of_Z (Z.of_nat n).

(** The try block of the handler (source lines 976-1078): the completion of
    the block and the approvals map after it.  [None] is an undefined
    argument, and [now] the reading of the clock during the call.  The
    approval is an object of the map, changed in place: the new map holds
    the changed approval. *)
Definition process_approval_try (update : string -> option string) (now : Z)
    (approvalId action : option string) (pendingApprovals : gmap string approval)
  : outcome payload * gmap string approval :=
  let act := option_map toUpperCase action in
  match approvalId, act with
  | Some approvalId, Some act =>
      if String.eqb approvalId "" || String.eqb act "" then
        (Thrown "Approval ID and action are required", pendingApprovals)
      else
        match pendingApprovals !! approvalId with
        | None =>
            (Returned (Error
               {| error := "Approval not found or expired";
                  error_approvalId := Some approvalId; error_status := None;
                  expiredAt := None; tool := None |}), pendingApprovals)
        | Some approval =>
            if negb (approval_status_eqb (status approval) pending) then
              (Returned (Error
                 {| error := "Approval already processed";
                    error_approvalId := Some approvalId;
                    error_status := Some (status approval);
                    expiredAt := None; tool := None |}), pendingApprovals)
            else if now >? expiresAt approval then
              (Returned (Error
                 {| error := "Approval expired";
                    error_approvalId := Some approvalId; error_status := None;
                    expiredAt := Some (expiresAt approval); tool := None |}),
               <[approvalId := set_approval_status expired approval]>
                 pendingApprovals)
            else if String.eqb act "APPROVE" then
              let response :=
                if String.eqb (Approvals.action approval) "PAUSE_CAMPAIGNS" then
                  let results :=
                    pause_campaigns update (campaigns (data approval)) in
                  let summary :=
                    {| totalRequested := length (campaigns (data approval));
                       successfullyPaused := length (List.filter success results);
                       failed :=
                         length (List.filter (fun r => negb (success r)) results);
                       summary_estimatedSavings :=
                         estimatedSavings (data approval) |} in
                  {| response_approvalId := approvalId; response_action := act;
                     response_processedAt := now; results := results;
                     response_summary := Some summary;
                     whatsappNotification := Some
                       {| w_type := "action_completed"; w_priority := INFO;
                          w_message :=
                            "✅ *Campaigns Paused*" ++ nl ++ nl
                            ++ "Successfully paused "
                            ++ string_of_nat (successfullyPaused summary)
                            ++ " of " ++ string_of_nat (totalRequested summary)
                            ++ " campaigns." ++ nl ++ nl
                            ++ "Estimated savings: "
                            ++ summary_estimatedSavings summary ++ "/day" |} |}
                else
                  {| response_approvalId := approvalId; response_action := act;
                     response_processedAt := now; results := [];
                     response_summary := None; whatsappNotification := None |} in
              (Returned (Response response),
               <[approvalId :=
                   set_processedAt now (set_approval_status approved approval)]>
                 pendingApprovals)
            else if String.eqb act "REJECT" then
              (Returned (Response
                 {| response_approvalId := approvalId; response_action := act;
                    response_processedAt := now; results := [];
                    response_summary := None;
                    whatsappNotification := Some
                      {| w_type := "action_cancelled"; w_priority := INFO;
                         w_message :=
                           "❌ *Action Cancelled*" ++ nl ++ nl ++ "Approval "
                           ++ approvalId
                           ++ " has been rejected. No changes were made." |} |}),
               <[approvalId :=
                   set_processedAt now (set_approval_status rejected approval)]>
                 pendingApprovals)
            else
              (Returned (Response
                 {| response_approvalId := approvalId; response_action := act;
                    response_processedAt := now; results := [];
                    response_summary := None; whatsappNotification := None |}),
               pendingApprovals)
        end
  | _, _ => (Thrown "Approval ID and action are required", pendingApprovals)
  end.

(** The catch block: the error as a payload (its [stack] is left out). *)
Definition tool_error (tool_name message : string) : payload :=
  Error {| error := message; error_approvalId := None; error_status := None;
           expiredAt := None; tool := Some tool_name |}.

(** The state of the server: the two module-level variables. *)
Record server := {
  campaignState : gmap string campaign_state;
  pendingApprovals : gmap string approval
}.

(** The [process_approval] tool handler (lines 974-1093): [loadState], the
    try block, the catch block, and [saveState] in the finally block. *)
Definition process_approval (disk : fs) (update : string -> option string)
    (now : Z) (approvalId action : option string) (s : server)
  : outcome payload * server :=
  let campaignState := loadState disk in
  let '(completion, approvals) :=
    process_approval_try update now approvalId action (pendingApprovals s) in
  (try_catch_finally completion (tool_error "process_approval")
     (saveState disk campaignState),
   {| campaignState := campaignState; pendingApprovals := approvals |}).

End Approvals.

(** The HTTP wrapper [POST /tool/:name] (lines 1117-1135) around a
    registered tool: the status and the JSON body of the answer. *)
Inductive http_body (A : Type) :=
| Result (payload : A)
| ErrorMessage (error : string).
Arguments Result {A} payload.
Arguments ErrorMessage {A} error.

Definition http_tool {A : Type} (execution : outcome A) : Z * http_body A :=
  match execution with
  | Returned result => (200, Result result)
  | Thrown message => (500, ErrorMessage message)
  end.

(** ** formatWhatsAppMessage

    [data] is the object the callers build: [priority] is a member of
    NOTIFICATION_PRIORITY or absent; the other scalar fields are read into
    the text by ToString, undefined when a caller leaves them out;
    [topIssues] and [recommendations] are arrays or absent ([None]);
    [metrics] is an object or absent. *)

Module WhatsApp.

Record data := {
  priority : option priority;
  period : value;
  spend : value;
  ctr : value;
  cpm : value;
  topIssues : option (list value);
  recommendations : option (list value);
  message : value;
  approvalId : value;
  expiresAt : value;
  campaignName : value;
  issue : value;
  metrics : option object;
  recommendation : value
}.

(** The object with no field. *)
Definition no_data : data :=
  {| priority := None; period := VUndefined; spend := VUndefined;
     ctr := VUndefined; cpm := VUndefined; topIssues := None;
     recommendations := None; message := VUndefined;
     approvalId := VUndefined; expiresAt := VUndefined;
     campaignName := VUndefined; issue := VUndefined; metrics := None;
     recommendation := VUndefined |}.

(** The table [emoji], which is read at the text of a priority or at
    "undefined". *)
Definition emoji (key : string) : value :=
  if String.eqb key "critical" then VStr "🚨"
  else if String.eqb key "urgent" then VStr "⚠️"
  else if String.eqb key "warning" then VStr "⚡"
  else if String.eqb key "info" then VStr "ℹ️"
  else if String.eqb key "success" then VStr "🎉"
  else VUndefined.

(** The property key [data.priority] is converted to. *)
Definition priority_key (d : data) : string :=
  match priority d with
  | Some p => NOTIFICATION_PRIORITY p
  | None => "undefined"
  end.

Definition header (d : data) : string :=
  ToString (or_else (emoji (priority_key d)) (VStr "📊"))
  ++ " *Facebook Ads Alert*" ++ nl ++ nl.

(** [list.forEach(x => { message += `• ${x}\n` })] *)
Definition bullets (l : list value) : string :=
  String.concat "" (List.map (fun x => "• " ++ ToString x ++ nl) l).

(** A section of the summary: nothing for an absent or empty list. *)
Definition section (heading : string) (l : option (list value)) : string :=
  match l with
  | Some (x :: r) => heading ++ bullets (x :: r)
  | _ => ""
  end.

(** [formatWhatsAppMessage(data, type)]; reading a field of an absent
    [data.metrics] throws the TypeError, worded as V8 does. *)
Definition formatWhatsAppMessage (d : data) (type : string) : outcome string :=
  if String.eqb type "performance_summary" then
    Returned
      (header d
       ++ "*Account Performance Summary*" ++ nl
       ++ "Period: " ++ ToString (period d) ++ nl
       ++ "Spend: " ++ ToString (spend d) ++ nl
       ++ "Overall CTR: " ++ ToString (ctr d) ++ nl
       ++ "Overall CPM: " ++ ToString (cpm d) ++ nl ++ nl
       ++ section ("*Issues Requiring Attention:*" ++ nl) (topIssues d)
       ++ section (nl ++ "*Recommendations:*" ++ nl) (recommendations d))
  else if String.eqb type "approval_request" then
    Returned
      (header d
       ++ "*Action Required*" ++ nl ++ nl
       ++ ToString (message d) ++ nl ++ nl
       ++ "*Approval ID:* " ++ ToString (approvalId d) ++ nl
       ++ "*Expires:* " ++ ToString (expiresAt d) ++ nl ++ nl
       ++ "Reply with:" ++ nl
       ++ "• APPROVE " ++ ToString (approvalId d) ++ " - Execute action" ++ nl
       ++ "• REJECT " ++ ToString (approvalId d) ++ " - Cancel action" ++ nl
       ++ "• INFO " ++ ToString (approvalId d) ++ " - Get more details")
  else if String.eqb type "campaign_alert" then
    match metrics d with
    | None =>
        Thrown "Cannot read properties of undefined (reading 'ctr')"
    | Some m =>
        Returned
          (header d
           ++ "*Campaign Alert*" ++ nl
           ++ "Campaign: " ++ ToString (campaignName d) ++ nl
           ++ "Issue: " ++ ToString (issue d) ++ nl
           ++ "Current Performance:" ++ nl
           ++ "• CTR: " ++ ToString (get m "ctr") ++ nl
           ++ "• CPM: " ++ ToString (get m "cpm") ++ nl
           ++ "• Spend: " ++ ToString (get m "spend") ++ nl ++ nl
           ++ "Recommendation: " ++ ToString (recommendation d))
    end
  else Returned (header d).

End WhatsApp.

(** ** The analyze_campaign tool (source lines 436-549)

    The calls to the Ads API are given by their outcomes: [read] for
    [campaign.read], [getInsights] and [getAdSets] for the two lists. *)

Module AnalyzeCampaign.

Record campaign_summary := {
  id : string;
  name : value;
  c_status : value;
  objective : value;
  dailyBudget : string
}.

Record metrics_summary := {
  m_spend : string;
  impressions : value;
  clicks : value;
  m_ctr : string;
  m_cpm : string;
  m_frequency : value;
  reach : value;
  roas : string
}.

Record adsets_summary := { count : nat; active : nat }.

Record alert := {
  alert_type : string;
  alert_priority : priority;
  alert_message : string
}.

Record report := {
  campaign : campaign_summary;
  r_metrics : metrics_summary;
  r_analysis : analysis;
  changes : option (list change);
  adSets : adsets_summary;
  whatsappNotification : option alert
}.

Inductive payload :=
| Error (error tool : string)
| Report (r : report).

(** [v === s] for a string [s] *)
Definition is_string (v : value) (s : string) : bool :=
  match v with
  | VStr s' => String.eqb s' s
  | _ => false
  end.

Definition is_critical (p : priority) : bool :=
  match p with
  | CRITICAL => true
  | _ => false
  end.

(** [changes.reduce((prev, current) =>
      prev.priority === CRITICAL ? prev : current)] on a list that is not
    empty, given by its head and tail. *)
Definition mostUrgentChange (first : change) (rest : list change) : change :=
  List.fold_left
    (fun prev current => if is_critical (c_priority prev) then prev else current)
    rest first.

(** [analysis.recommendations.unshift(x)] *)
Definition unshift_recommendation (x : string) (a : analysis) : analysis :=
  {| issues := issues a; recommendations := x :: recommendations a;
     notifications := notifications a; score := score a; status := status a |}.

(** [insights[0] || {}] *)
Definition first_insights (insights : list object) : object :=
  match insights with
  | m :: _ => m
  | [] => []
  end.

(** The argument of [detectSignificantChanges] (lines 466-471). *)
Definition parsed_metrics (insight : object) : metrics :=
  {| ctr := field_number insight "ctr";
     cpm := field_number insight "cpm";
     spend := field_number insight "spend";
     frequency := field_number insight "frequency" |}.

(** The analysis of the report (lines 473-480): [analyzeMetrics] with the
    campaign as context, and the advice to pause put first for an active
    campaign with a score below 60. *)
Definition campaign_analysis (campaignData metrics : object) : analysis :=
  let analysis :=
    analyzeMetrics metrics
      (Some [("campaignBudget", get campaignData "daily_budget");
             ("campaignName", get campaignData "name")]) in
  if is_string (get campaignData "status") "ACTIVE" && (score analysis <? 60)
  then unshift_recommendation
         "⚠️ Consider pausing for immediate optimization" analysis
  else analysis.

(** The notification of the report (lines 507-526): none without events,
    otherwise the campaign alert for the event [mostUrgentChange]. *)
Definition campaign_alert (campaignData metrics : object)
    (changes : option (list change)) : outcome (option alert) :=
  match changes with
  | Some (first :: rest) =>
      let mostUrgent := mostUrgentChange first rest in
      match WhatsApp.formatWhatsAppMessage
              {| WhatsApp.priority := Some (c_priority mostUrgent);
                 WhatsApp.period := VUndefined;
                 WhatsApp.spend := VUndefined;
                 WhatsApp.ctr := VUndefined;
                 WhatsApp.cpm := VUndefined;
                 WhatsApp.topIssues := None;
                 WhatsApp.recommendations := None;
                 WhatsApp.message := VUndefined;
                 WhatsApp.approvalId := VUndefined;
                 WhatsApp.expiresAt := VUndefined;
                 WhatsApp.campaignName := get campaignData "name";
                 WhatsApp.issue := VStr (c_message mostUrgent);
                 WhatsApp.metrics := Some
                   [("ctr", get metrics "ctr");
                    ("cpm", VStr ("$" ++ ToString (get metrics "cpm")));
                    ("spend", VStr ("$" ++ ToString (get metrics "spend")))];
                 WhatsApp.recommendation :=
                   VStr (recommendation mostUrgent) |}
              "campaign_alert" with
      | Returned text =>
          Returned (Some {| alert_type := "campaign_alert";
                            alert_priority := c_priority mostUrgent;
                            alert_message := text |})
      | Thrown e => Thrown e
      end
  | _ => Returned None
  end.

(** The try block, from the campaign state loaded from the file: its
    completion and the campaign state after it. *)
Definition analyze_campaign_try (disk : fs) (now : Z)
    (read : outcome object) (getInsights getAdSets : outcome (list object))
    (campaignId : option string) (campaignState : gmap string campaign_state)
  : outcome payload * gmap string campaign_state :=
  match campaignId with
  | None => (Thrown "Campaign ID is required", campaignState)
  | Some campaignId =>
  if String.eqb campaignId "" then
    (Thrown "Campaign ID is required", campaignState)
  else
  match read with
  | Thrown e => (Thrown e, campaignState)
  | Returned campaignData =>
  match getInsights with
  | Thrown e => (Thrown e, campaignState)
  | Returned insights =>
  match getAdSets with
  | Thrown e => (Thrown e, campaignState)
  | Returned adSets =>
      let metrics := first_insights insights in
      let '(changes, campaignState) :=
        detectSignificantChanges now campaignId (parsed_metrics metrics)
          campaignState in
      let analysis := campaign_analysis campaignData metrics in
      let notification := campaign_alert campaignData metrics changes in
      match notification with
      | Thrown e => (Thrown e, campaignState)
      | Returned notification =>
          let response :=
            {| campaign :=
                 {| id := campaignId;
                    name := get campaignData "name";
                    c_status := get campaignData "status";
                    objective := get campaignData "objective";
                    dailyBudget :=
                      if truthy (get campaignData "daily_budget")
                      then "$" ++ ToString (get campaignData "daily_budget")
                      else "N/A" |};
               r_metrics :=
                 {| m_spend := "$" ++ ToString (get metrics "spend");
                    impressions := get metrics "impressions";
                    clicks := get metrics "clicks";
                    m_ctr := ToString (get metrics "ctr") ++ "%";
                    m_cpm := "$" ++ ToString (get metrics "cpm");
                    m_frequency := get metrics "frequency";
                    reach := get metrics "reach";
                    roas :=
                      if truthy (get metrics "purchase_roas")
                      then ToString
                             (opt_value (index0 (get metrics "purchase_roas")))
                           ++ "x"
                      else "N/A" |};
               r_analysis := analysis;
               changes := changes;
               adSets :=
                 {| count := List.length adSets;
                    active :=
                      List.length
                        (List.filter
                           (fun a => is_string (get a "status") "ACTIVE")
                           adSets) |};
               whatsappNotification := notification |} in
          match saveState disk campaignState with
          | Thrown e => (Thrown e, campaignState)
          | Returned _ => (Returned (Report response), campaignState)
          end
      end
  end end end end.

(** The handler: [loadState], the try block, the catch block and
    [saveState] in the finally block.  The approvals are not touched. *)
Definition analyze_campaign (disk : fs) (now : Z)
    (read : outcome object) (getInsights getAdSets : outcome (list object))
    (campaignId : option string) (s : Approvals.server)
  : outcome payload * Approvals.server :=
  let '(completion, campaignState) :=
    analyze_campaign_try disk now read getInsights getAdSets campaignId
      (loadState disk) in
  (try_catch_finally completion (fun e => Error e "analyze_campaign")
     (saveState disk campaignState),
   {| Approvals.campaignState := campaignState;
      Approvals.pendingApprovals := Approvals.pendingApprovals s |}).

End AnalyzeCampaign.

(** ** Campaigns of the SDK

    A [Campaign] object as the handlers that list campaigns use it: its data
    fields, and what the call of its [getInsights] method gives (a handler
    calls it at most once for a campaign). *)

Module SDK.

Record Campaign := {
  fields : object;
  getInsights : outcome (list object)
}.

End SDK.

(** ** The monitor_budget_pace tool (source lines 830-962) *)

Module BudgetPace.

(** The time of day of a [Date] object, in local time. *)
Record Date := {
  getHours : number;
  getMinutes : number;
  getSeconds : number;
  getMilliseconds : number
}.

(** The object [d] after [d.setHours(h, m, s, ms)], for values in range on a
    day on which this local time exists. *)
Definition setHours (h m s ms : number) (d : Date) : Date :=
  {| getHours := h; getMinutes := m; getSeconds := s;
     getMilliseconds := ms |}.

Inductive pace_status := OVERSPENDING | UNDERSPENDING.

Definition pace_status_text (s : pace_status) : string :=
  match s with
  | OVERSPENDING => "OVERSPENDING"
  | UNDERSPENDING => "UNDERSPENDING"
  end.

Definition is_overspending (s : pace_status) : bool :=
  match s with
  | OVERSPENDING => true
  | UNDERSPENDING => false
  end.

Record budget_alert := {
  campaignName : value;
  campaignId : value;
  status : pace_status;
  dailyBudget : string;
  todaySpend : string;
  expectedSpend : string;
  pacePercentage : string;
  recommendation : string
}.

(** [insights[0]?.spend] *)
Definition first_spend (insights : list object) : value :=
  match insights with
  | row :: _ => get row "spend"
  | [] => VUndefined
  end.

(** [`${pace > 0 ? '+' : ''}${pace.toFixed(1)}%`] *)
Definition signed_percentage (pace : number) : string :=
  (if gt pace 0 then "+" else "") ++ toFixed pace 1 ++ "%".

(** The body of the loop for a campaign with a daily budget (lines
    870-891): the alert it pushes, if any.  [now] is the Date object at
    this point of the handler. *)
Definition pace_alert (alertThreshold : number) (now : Date)
    (campaign : object) (insights : list object) : list budget_alert :=
  let todaySpend := parseFloat (or_else (first_spend insights) (VNum 0)) in
  let dailyBudget := parseFloat (get campaign "daily_budget") in
  let hoursElapsed := (getHours now + getMinutes now / 60)%float in
  let dayProgress := (hoursElapsed / 24)%float in
  let expectedSpend := (dailyBudget * dayProgress)%float in
  let pacePercentage := ((todaySpend / expectedSpend - 1) * 100)%float in
  if gt (Math_abs pacePercentage) alertThreshold then
    let status := if gt pacePercentage 0 then OVERSPENDING
                  else UNDERSPENDING in
    [{| campaignName := get campaign "name";
        campaignId := get campaign "id";
        status := status;
        dailyBudget := toFixed dailyBudget 2;
        todaySpend := toFixed todaySpend 2;
        expectedSpend := toFixed expectedSpend 2;
        pacePercentage := signed_percentage pacePercentage;
        recommendation :=
          if is_overspending status
          then "Review targeting and competition. Consider reducing bids."
          else "Check ad delivery. Consider increasing bids or broadening audience."
     |}]
  else [].

(** The loop over the campaigns (lines 858-892), from the alerts pushed so
    far: a campaign without daily budget is skipped before its insights are
    requested. *)
Fixpoint alerts_loop (alertThreshold : number) (now : Date)
    (campaigns : list SDK.Campaign) (budgetAlerts : list budget_alert)
  : outcome (list budget_alert) :=
  match campaigns with
  | [] => Returned budgetAlerts
  | campaign :: rest =>
      if negb (truthy (get (SDK.fields campaign) "daily_budget")) then
        alerts_loop alertThreshold now rest budgetAlerts
      else
        match SDK.getInsights campaign with
        | Thrown e => Thrown e
        | Returned insights =>
            alerts_loop alertThreshold now rest
              (budgetAlerts
               ++ pace_alert alertThreshold now (SDK.fields campaign) insights)
        end
  end.

Record account_pace := {
  totalDailyBudget : string;
  todaySpendSoFar : string;
  expectedSpendByNow : string;
  pacing : string;
  projectedDayEndSpend : string
}.

Record alert_summary := { overspending : nat; underspending : nat }.

Record budget_notification := {
  type : string;
  priority : priority;
  message : string
}.

Record response := {
  account : account_pace;
  campaignsAnalyzed : nat;
  alertsFound : nat;
  alerts : list budget_alert;
  summary : alert_summary;
  whatsappNotification : option budget_notification
}.

Inductive payload :=
| Error (error tool : string)
| Response (r : response).

(** One entry of the list in the message (line 936). *)
Definition alert_lines (a : budget_alert) : string :=
  "• " ++ ToString (campaignName a) ++ nl
  ++ "  " ++ pace_status_text (status a) ++ " by " ++ pacePercentage a ++ nl
  ++ "  Budget: " ++ dailyBudget a ++ " | Spent: " ++ todaySpend a.

(** The notification (lines 924-940). *)
Definition budget_notification_of (account : account_pace)
    (budgetAlerts : list budget_alert) : option budget_notification :=
  match budgetAlerts with
  | [] => None
  | _ =>
      Some
        {| type := "budget_alert";
           priority :=
             if existsb
                  (fun a => is_overspending (status a)
                            && gt (parseFloat_string (pacePercentage a)) 50)
                  budgetAlerts
             then URGENT else WARNING;
           message :=
             "💰 *Budget Pacing Alert*" ++ nl ++ nl
             ++ "Account pacing: " ++ pacing account ++ nl
             ++ "Projected day-end: " ++ projectedDayEndSpend account
             ++ nl ++ nl
             ++ "*Campaigns needing attention:*" ++ nl
             ++ String.concat (nl ++ nl)
                  (List.map alert_lines (firstn 5 budgetAlerts))
             ++ (if (5 <? List.length budgetAlerts)%nat
                 then nl ++ nl ++ "...and "
                      ++ Approvals.string_of_nat (List.length budgetAlerts - 5)
                      ++ " more"
                 else "") |}
  end.

(** The try block.  [clock] is the Date that [new Date()] gives at line 856;
    [read], [getCampaigns] and [getInsights] are the outcomes of the calls
    on the account. *)
Definition monitor_budget_pace_try (clock : Date) (read : outcome object)
    (getCampaigns : outcome (list SDK.Campaign))
    (getInsights : outcome (list object)) (alertThreshold : number)
  : outcome payload :=
  match read with
  | Thrown e => Thrown e
  | Returned accountInfo =>
  match getCampaigns with
  | Thrown e => Thrown e
  | Returned campaigns =>
  (* [now.setHours(0, 0, 0, 0)] changes the object [now] itself *)
  let now := setHours 0 0 0 0 clock in
  match alerts_loop alertThreshold now campaigns [] with
  | Thrown e => Thrown e
  | Returned budgetAlerts =>
  let totalDailyBudget :=
    List.fold_left
      (fun sum c => (sum + field_number (SDK.fields c) "daily_budget")%float)
      campaigns 0%float in
  match getInsights with
  | Thrown e => Thrown e
  | Returned totalTodaySpend =>
      let accountTodaySpend :=
        parseFloat (or_else (first_spend totalTodaySpend) (VNum 0)) in
      let accountExpectedSpend :=
        (totalDailyBudget * (getHours now / 24))%float in
      let accountPace :=
        ((accountTodaySpend / accountExpectedSpend - 1) * 100)%float in
      let account :=
        {| totalDailyBudget := toFixed totalDailyBudget 2;
           todaySpendSoFar := toFixed accountTodaySpend 2;
           expectedSpendByNow := toFixed accountExpectedSpend 2;
           pacing := signed_percentage accountPace;
           projectedDayEndSpend :=
             toFixed (accountTodaySpend / (getHours now / 24))%float 2 |} in
      Returned
        (Response
           {| account := account;
              campaignsAnalyzed := List.length campaigns;
              alertsFound := List.length budgetAlerts;
              alerts := budgetAlerts;
              summary :=
                {| overspending :=
                     List.length
                       (List.filter (fun a => is_overspending (status a))
                          budgetAlerts);
                   underspending :=
                     List.length
                       (List.filter
                          (fun a => negb (is_overspending (status a)))
                          budgetAlerts) |};
              whatsappNotification :=
                budget_notification_of account budgetAlerts |})
  end end end end.

(** The handler: [loadState], the try block, the catch block and
    [saveState] in the finally block. *)
Definition monitor_budget_pace (disk : fs) (clock : Date)
    (read : outcome object) (getCampaigns : outcome (list SDK.Campaign))
    (getInsights : outcome (list object)) (alertThreshold : number)
    (s : Approvals.server) : outcome payload * Approvals.server :=
  let campaignState := loadState disk in
  (try_catch_finally
     (monitor_budget_pace_try clock read getCampaigns getInsights
        alertThreshold)
     (fun e => Error e "monitor_budget_pace")
     (saveState disk campaignState),
   {| Approvals.campaignState := campaignState;
      Approvals.pendingApprovals := Approvals.pendingApprovals s |}).

End BudgetPace.

(** ** The get_account_overview tool (source lines 311-434) *)

Module AccountOverview.

Record issue_entry := {
  i_name : value;
  i_status : analysis_status;
  i_issues : list string
}.

Record account_summary := {
  account_name : value;
  account_status : string;
  currency : value;
  balance : value
}.

Record performance_summary := {
  p_spend : string;
  impressions : value;
  clicks : value;
  p_ctr : string;
  p_cpm : string;
  roas : string
}.

Record campaign_entry := {
  c_name : value;
  objective : value;
  dailyBudget : string
}.

Record active_campaigns := {
  count : nat;
  withIssues : nat;
  campaigns : list campaign_entry
}.

Record overview_notification := {
  type : string;
  priority : priority;
  message : string
}.

Record overview := {
  account : account_summary;
  period : value;
  performance : performance_summary;
  o_analysis : analysis;
  activeCampaigns : active_campaigns;
  campaignsWithIssues : list issue_entry;
  whatsappNotification : option overview_notification
}.

Inductive payload :=
| Error (error tool : string)
| Overview (r : overview).

(** [v === 1] *)
Definition is_one (v : value) : bool :=
  match v with
  | VNum x => PrimFloat.eqb x 1
  | _ => false
  end.

(** The body of the loop (lines 352-362): the entry it pushes, if any, for
    a campaign with the insights [campaignInsights]. *)
Definition campaign_issue (campaign : object)
    (campaignInsights : list object) : list issue_entry :=
  match campaignInsights with
  | metrics :: _ =>
      let analysis := analyzeMetrics metrics None in
      match status analysis with
      | critical | poor =>
          [{| i_name := get campaign "name";
              i_status := status analysis;
              i_issues := issues analysis |}]
      | _ => []
      end
  | [] => []
  end.

(** The loop (lines 347-363) over the campaigns it is given, from the
    entries pushed so far. *)
Fixpoint issues_loop (campaigns : list SDK.Campaign)
    (campaignsWithIssues : list issue_entry) : outcome (list issue_entry) :=
  match campaigns with
  | [] => Returned campaignsWithIssues
  | campaign :: rest =>
      match SDK.getInsights campaign with
      | Thrown e => Thrown e
      | Returned campaignInsights =>
          issues_loop rest
            (campaignsWithIssues
             ++ campaign_issue (SDK.fields campaign) campaignInsights)
      end
  end.

(** [`${c.name}: ${c.issues.join(', ')}`] *)
Definition issue_line (c : issue_entry) : value :=
  VStr (ToString (i_name c) ++ ": " ++ String.concat ", " (i_issues c)).

(** The notification (lines 397-412). *)
Definition overview_notification_of (sendNotification dateRange : value)
    (performance : performance_summary) (analysis : analysis)
    (campaignsWithIssues : list issue_entry)
  : outcome (option overview_notification) :=
  if truthy sendNotification || (0 <? List.length campaignsWithIssues)%nat
  then
    let priority :=
      if (3 <? List.length campaignsWithIssues)%nat then URGENT else INFO in
    match WhatsApp.formatWhatsAppMessage
            {| WhatsApp.priority := Some priority;
               WhatsApp.period := or_else dateRange (VStr "last_7d");
               WhatsApp.spend := VStr (p_spend performance);
               WhatsApp.ctr := VStr (p_ctr performance);
               WhatsApp.cpm := VStr (p_cpm performance);
               WhatsApp.topIssues :=
                 Some (List.map issue_line (firstn 3 campaignsWithIssues));
               WhatsApp.recommendations :=
                 Some (List.map VStr (firstn 3 (recommendations analysis)));
               WhatsApp.message := VUndefined;
               WhatsApp.approvalId := VUndefined;
               WhatsApp.expiresAt := VUndefined;
               WhatsApp.campaignName := VUndefined;
               WhatsApp.issue := VUndefined;
               WhatsApp.metrics := None;
               WhatsApp.recommendation := VUndefined |}
            "performance_summary" with
    | Returned text =>
        Returned (Some {| type := "performance_summary";
                          priority := priority;
                          message := text |})
    | Thrown e => Thrown e
    end
  else Returned None.

(** The try block; [read], [getInsights] and [getCampaigns] are the
    outcomes of the calls on the account. *)
Definition get_account_overview_try (read : outcome object)
    (getInsights : outcome (list object))
    (getCampaigns : outcome (list SDK.Campaign))
    (dateRange sendNotification : value) : outcome payload :=
  match read with
  | Thrown e => Thrown e
  | Returned accountInfo =>
  match getInsights with
  | Thrown e => Thrown e
  | Returned insights =>
  match getCampaigns with
  | Thrown e => Thrown e
  | Returned campaigns =>
  match issues_loop (firstn 10 campaigns) [] with
  | Thrown e => Thrown e
  | Returned campaignsWithIssues =>
      let performance := AnalyzeCampaign.first_insights insights in
      let analysis := analyzeMetrics performance None in
      let reported :=
        {| p_spend := "$" ++ ToString (get performance "spend") ++ " "
                      ++ ToString (get accountInfo "currency");
           impressions := get performance "impressions";
           clicks := get performance "clicks";
           p_ctr := ToString (get performance "ctr") ++ "%";
           p_cpm := "$" ++ ToString (get performance "cpm") ++ " "
                    ++ ToString (get accountInfo "currency");
           roas :=
             if truthy (get performance "purchase_roas")
             then ToString
                    (opt_value (index0 (get performance "purchase_roas")))
                  ++ "x"
             else "N/A" |} in
      match overview_notification_of sendNotification dateRange reported
              analysis campaignsWithIssues with
      | Thrown e => Thrown e
      | Returned notification =>
          Returned
            (Overview
               {| account :=
                    {| account_name := get accountInfo "name";
                       account_status :=
                         if is_one (get accountInfo "account_status")
                         then "Active" else "Inactive";
                       currency := get accountInfo "currency";
                       balance := get accountInfo "balance" |};
                  period := or_else dateRange (VStr "last_7d");
                  performance := reported;
                  o_analysis := analysis;
                  activeCampaigns :=
                    {| count := List.length campaigns;
                       withIssues := List.length campaignsWithIssues;
                       campaigns :=
                         List.map
                           (fun c =>
                              {| c_name := get (SDK.fields c) "name";
                                 objective := get (SDK.fields c) "objective";
                                 dailyBudget :=
                                   if truthy (get (SDK.fields c) "daily_budget")
                                   then "$" ++ ToString
                                                 (get (SDK.fields c)
                                                    "daily_budget")
                                   else "N/A" |})
                           (firstn 10 campaigns) |};
                  campaignsWithIssues := campaignsWithIssues;
                  whatsappNotification := notification |})
      end
  end end end end.

(** The handler: [loadState], the try block, the catch block and
    [saveState] in the finally block. *)
Definition get_account_overview (disk : fs) (read : outcome object)
    (getInsights : outcome (list object))
    (getCampaigns : outcome (list SDK.Campaign))
    (dateRange sendNotification : value) (s : Approvals.server)
  : outcome payload * Approvals.server :=
  let campaignState := loadState disk in
  (try_catch_finally
     (get_account_overview_try read getInsights getCampaigns dateRange
        sendNotification)
     (fun e => Error e "get_account_overview")
     (saveState disk campaignState),
   {| Approvals.campaignState := campaignState;
      Approvals.pendingApprovals := Approvals.pendingApprovals s |}).

End AccountOverview.

(** ** The candidates of pause_poor_performers (source lines 706-747)

    The loop that selects the campaigns to pause and adds up their daily
    budgets, and the two totals of the response. *)

Module PausePoorPerformers.

Record candidate := {
  id : value;
  name : value;
  ctr : number;
  ctrFormatted : string;
  spend : number;
  spendFormatted : string;
  dailyBudget : number;
  impressions : value;
  clicks : value;
  cpm : string;
  reason : string;
  estimatedDailySavings : number
}.

(** The body of the loop (lines 713-733) for a campaign with the insights
    [insights]: the candidate it pushes, if any. *)
Definition candidate_of (ctrThreshold minSpend : number) (campaign : object)
    (insights : list object) : list candidate :=
  let metrics := AnalyzeCampaign.first_insights insights in
  let spend := field_number metrics "spend" in
  let ctr := field_number metrics "ctr" in
  let dailyBudget := field_number campaign "daily_budget" in
  if gt spend minSpend && lt ctr ctrThreshold then
    [{| id := get campaign "id";
        name := get campaign "name";
        ctr := ctr;
        ctrFormatted := toFixed ctr 2 ++ "%";
        spend := spend;
        spendFormatted := toFixed spend 2;
        dailyBudget := dailyBudget;
        impressions := get metrics "impressions";
        clicks := get metrics "clicks";
        cpm := toFixed (field_number metrics "cpm") 2;
        reason := "CTR " ++ toFixed ctr 2 ++ "% is below threshold of "
                  ++ Number_toString ctrThreshold ++ "%";
        estimatedDailySavings := dailyBudget |}]
  else [].

(** [totalDailySavings += dailyBudget] for the candidates pushed. *)
Definition add_savings (total : number) (pushed : list candidate) : number :=
  List.fold_left (fun sum c => (sum + dailyBudget c)%float) pushed total.

(** The loop (lines 708-734), from the candidates pushed and the savings
    added so far. *)
Fixpoint candidates_loop (ctrThreshold minSpend : number)
    (campaigns : list SDK.Campaign) (candidatesForPause : list candidate)
    (totalDailySavings : number) : outcome (list candidate * number) :=
  match campaigns with
  | [] => Returned (candidatesForPause, totalDailySavings)
  | campaign :: rest =>
      match SDK.getInsights campaign with
      | Thrown e => Thrown e
      | Returned insights =>
          let pushed :=
            candidate_of ctrThreshold minSpend (SDK.fields campaign)
              insights in
          candidates_loop ctrThreshold minSpend rest
            (candidatesForPause ++ pushed)
            (add_savings totalDailySavings pushed)
      end
  end.

(** [potentialDailySavings] and [potentialWeeklySavings] (lines 745-746) *)
Definition potentialDailySavings (totalDailySavings : number) : string :=
  toFixed totalDailySavings 2.

Definition potentialWeeklySavings (totalDailySavings : number) : string :=
  toFixed (totalDailySavings * 7)%float 2.

End PausePoorPerformers.

(** ** Definitions used by the statements *)

(** The order of two positive finite numbers [m1 * 2^e1] and [m2 * 2^e2]
    in canonical representation: lexicographic on exponent and mantissa. *)
Definition below (m1 : positive) (e1 : Z) (m2 : positive) (e2 : Z) : Prop :=
  e1 < e2 \/ (e1 = e2 /\ (m1 <= m2)%positive).

(** The analysis before the final override. *)
Definition before_override (metrics : object) (context : option object)
  : analysis :=
  roas_step metrics
    (frequency_step metrics
       (cpm_step metrics
          (ctr_step metrics (context_or_empty context) initial_analysis))).

(** The single-phase reading of the status: a function of the score. *)
Definition status_of_score (s : Z) : analysis_status :=
  if s <? 40 then critical
  else if s <? 60 then poor
  else if s <? 80 then needs_improvement
  else if s <? 95 then optimal
  else excellent.

(** A string that is not empty and that [parseFloat] does not parse. *)
Definition unparseable (s : string) : Prop :=
  s <> "" /\ parseFloat_string s = NaN.

(** A snapshot whose [ctr] is the string [s] is analysed as the snapshot
    whose [ctr] is the number 0. *)
Definition ctr_analysed_as_zero (s : string) : Prop :=
  analyzeMetrics [("ctr", VStr s)] None = analyzeMetrics [("ctr", VNum 0)] None.

(** No threshold other than the CTR ones is breached: cpm not above 50,
    frequency not above 5, roas absent or between 1.5 and 3. *)
Definition no_other_threshold_breached (metrics : object) : Prop :=
  gt (field_number metrics "cpm") THRESHOLDS.cpm.average = false
  /\ gt (field_number metrics "frequency") THRESHOLDS.frequency.warning = false
  /\ (truthy (get metrics "purchase_roas") = false
      \/ (PrimFloat.leb THRESHOLDS.roas.poor
            (roas_number (get metrics "purchase_roas")) = true
          /\ PrimFloat.leb (roas_number (get metrics "purchase_roas"))
               THRESHOLDS.roas.good = true)).

(** [emits r t]: the result [r] is an event list holding an event of type
    [t]. *)
Definition emits (r : option (list change)) (t : change_type) : Prop :=
  exists events e, r = Some events /\ In e events /\ c_type e = t.

(** The payload of an expired approval. *)
Definition expired_payload (approvalId : string) (a : Approvals.approval)
  : Approvals.payload :=
  Approvals.Error
    {| Approvals.error := "Approval expired";
       Approvals.error_approvalId := Some approvalId;
       Approvals.error_status := None;
       Approvals.expiredAt := Some (Approvals.expiresAt a);
       Approvals.tool := None |}.

(** The effect of one step of [analyzeMetrics] on the sizes and the score:
    at most one issue more, with a penalty between 15 and 40 points when
    there is one and none otherwise, at least as many recommendations more,
    and at most one notification more. *)
Definition step_effect (a a' : analysis) : Prop :=
  let issues_added :=
    Z.of_nat (List.length (issues a')) - Z.of_nat (List.length (issues a)) in
  let points := score a - score a' in
  0 <= issues_added <= 1
  /\ 15 * issues_added <= points <= 40 * issues_added
  /\ issues_added
     <= Z.of_nat (List.length (recommendations a'))
        - Z.of_nat (List.length (recommendations a))
  /\ 0 <= Z.of_nat (List.length (notifications a'))
          - Z.of_nat (List.length (notifications a)) <= 1.

(** The four notifications [analyzeMetrics] can push. *)
Definition notification_shape (n : notification) : Prop :=
  (n_priority n = CRITICAL /\ requiresApproval n = Some true
   /\ suggestedAction n = "PAUSE_CAMPAIGN" /\ suggestedValue n = None)
  \/ (n_priority n = SUCCESS /\ requiresApproval n = None
      /\ suggestedAction n = "INCREASE_BUDGET"
      /\ exists v, suggestedValue n = Some v /\ gt v 200 = false)
  \/ (n_priority n = URGENT /\ requiresApproval n = None
      /\ suggestedAction n = "REVIEW_TARGETING" /\ suggestedValue n = None)
  \/ (n_priority n = URGENT /\ requiresApproval n = Some true
      /\ suggestedAction n = "REFRESH_CREATIVE" /\ suggestedValue n = None).

(** Two analyses that differ at most in their notifications. *)
Definition same_but_notifications (a b : analysis) : Prop :=
  issues a = issues b /\ recommendations a = recommendations b
  /\ score a = score b /\ status a = status b.

(** What one resolution may do to a stored approval: nothing, or take it
    from pending to another status, keeping what was requested. *)
Definition resolved_from (a a' : Approvals.approval) : Prop :=
  a' = a
  \/ (Approvals.status a = Approvals.pending
      /\ Approvals.status a' <> Approvals.pending
      /\ Approvals.action a' = Approvals.action a
      /\ Approvals.data a' = Approvals.data a
      /\ Approvals.createdAt a' = Approvals.createdAt a
      /\ Approvals.expiresAt a' = Approvals.expiresAt a).

(** Equality of event types. *)
Definition change_type_eqb (a b : change_type) : bool :=
  match a, b with
  | CTR_CRASH, CTR_CRASH | CPM_SPIKE, CPM_SPIKE
  | PERFORMANCE_BOOST, PERFORMANCE_BOOST => true
  | _, _ => false
  end.

(** The try block fails without touching the state when the identifier is
    missing or a call to the API fails. *)
Definition fails_early (read : outcome object)
    (getInsights getAdSets : outcome (list object))
    (campaignId : option string) (e : string) : Prop :=
  ((campaignId = None \/ campaignId = Some "")
   /\ e = "Campaign ID is required")
  \/ (exists id, campaignId = Some id /\ id <> ""
      /\ (read = Thrown e
          \/ (exists d, read = Returned d
              /\ (getInsights = Thrown e
                  \/ (exists i, getInsights = Returned i
                      /\ getAdSets = Thrown e))))).

(** What the alerts of monitor_budget_pace look like. *)
Definition unbounded_alert (a : BudgetPace.budget_alert) : Prop :=
  BudgetPace.expectedSpend a = "0.00"
  /\ ((BudgetPace.status a = BudgetPace.OVERSPENDING
       /\ BudgetPace.pacePercentage a = "+Infinity%")
      \/ (BudgetPace.status a = BudgetPace.UNDERSPENDING
          /\ BudgetPace.pacePercentage a = "-Infinity%")).

(** A campaign with a daily budget. *)
Definition budgeted (c : SDK.Campaign) : bool :=
  truthy (get (SDK.fields c) "daily_budget").

(** What an entry of [campaignsWithIssues] says about the campaign [c]. *)
Definition entry_of (c : SDK.Campaign) (e : AccountOverview.issue_entry)
  : Prop :=
  exists metrics rest,
    SDK.getInsights c = Returned (metrics :: rest)
    /\ AccountOverview.i_name e = get (SDK.fields c) "name"
    /\ AccountOverview.i_status e = status (analyzeMetrics metrics None)
    /\ AccountOverview.i_issues e = issues (analyzeMetrics metrics None).

(** The campaign and the insights a candidate was made from. *)
Definition candidate_from (campaign : SDK.Campaign)
    (c : PausePoorPerformers.candidate) : Prop :=
  exists insights,
    SDK.getInsights campaign = Returned insights
    /\ PausePoorPerformers.id c = get (SDK.fields campaign) "id"
    /\ PausePoorPerformers.name c = get (SDK.fields campaign) "name"
    /\ PausePoorPerformers.spend c
       = field_number (AnalyzeCampaign.first_insights insights) "spend"
    /\ PausePoorPerformers.ctr c
       = field_number (AnalyzeCampaign.first_insights insights) "ctr".

(** * Properties *)

(** Threshold side conditions: the representations of two constants and
    their order. *)
Ltac by_thresholds lemma :=
  eapply lemma; [ | | | eassumption ];
  [ lazy; reflexivity | lazy; reflexivity | unfold below; lia ].

(** ** Numbers *)

(** The conversions agree with the binary64 constants of Rocq on the
    thresholds and on rounding cases. *)
Example parseFloat_string_examples :
  List.map parseFloat_string
    ["0.8"; "  1.5%"; "60"; "-0"; ".5e1"; "9007199254740993"; "5e-324";
     "2.4703282292062327e-324"; "1e400"; "-Infinity"; "abc"; ""]
  = [0.8; 1.5; 60; -0; 5; 9007199254740992; 5e-324; 0; infinity;
     neg_infinity; nan; nan]%float.
Proof. vm_compute. reflexivity. Qed.

Example Number_toString_examples :
  List.map Number_toString
    [60; 0.4; 1.3; 100 / 3; 1e21; 123456789012345680000; 0.000001; 1e-7;
     -35.00000000000001; -0; 0 / 0; 1 / 0]%float
  = ["60"; "0.4"; "1.3"; "33.333333333333336"; "1e+21";
     "123456789012345680000"; "0.000001"; "1e-7"; "-35.00000000000001";
     "0"; "NaN"; "Infinity"].
Proof. vm_compute. reflexivity. Qed.

Example toFixed_examples :
  List.map (fun x => toFixed x 2)
    [0.4; 1.005; 2.345; 0.125; -0.001; 60; 1e21; 0 / 0]%float
  = ["0.40"; "1.00"; "2.35"; "0.13"; "-0.00"; "60.00"; "1e+21"; "NaN"]
  /\ List.map (fun x => toFixed x 0) [0.5; 2.5; 34.5; 75]%float
     = ["1"; "3"; "35"; "75"].
Proof. split; vm_compute; reflexivity. Qed.

Section NumberFacts.

(** No comparison holds with NaN. *)
Lemma lt_NaN_l (t : number) : lt NaN t = false.
Proof. unfold lt. rewrite ltb_spec. reflexivity. Qed.

Lemma gt_NaN_l (t : number) : gt NaN t = false.
Proof.
  unfold gt. rewrite ltb_spec.
  change (Prim2SF NaN) with S754_nan.
  destruct (Prim2SF t); reflexivity.
Qed.

(** A number above a positive finite one is positive, finite or infinite. *)
Lemma above_positive (t c : number) (m : positive) (e : Z) :
  Prim2SF t = S754_finite false m e ->
  gt c t = true ->
  Prim2SF c = S754_infinity false \/
  exists m' e', Prim2SF c = S754_finite false m' e'.
Proof.
  unfold gt. rewrite ltb_spec. intros ->.
  destruct (Prim2SF c) as [s|s| |s m' e']; unfold SFltb; cbn;
    try discriminate.
  - destruct s; [discriminate|]. now left.
  - destruct s; [discriminate|]. right. now exists m', e'.
Qed.

(** The percentage change from a zero baseline to a number above a positive
    threshold is [+Infinity]. *)
Lemma change_from_zero (t c : number) (m : positive) (e : Z) :
  Prim2SF t = S754_finite false m e ->
  gt c t = true ->
  ((c - 0) / 0 * 100)%float = Infinity.
Proof.
  intros Ht Hc.
  apply Prim2SF_inj.
  rewrite mul_spec, div_spec, sub_spec.
  change (Prim2SF Infinity) with (S754_infinity false).
  change (Prim2SF 0) with (S754_zero false).
  destruct (above_positive t c m e Ht Hc) as [-> | (m' & e' & ->)];
    reflexivity.
Qed.

(** The percentage change from a number to itself is a zero or NaN. *)
Lemma change_to_self (x : number) :
  let c := ((x - x) / x * 100)%float in
  (exists s, Prim2SF c = S754_zero s) \/ Prim2SF c = S754_nan.
Proof.
  cbv zeta. rewrite mul_spec, div_spec, sub_spec.
  destruct (Prim2SF x) as [s|s| |s m e].
  - right. destruct s; reflexivity.
  - right. destruct s; reflexivity.
  - right. reflexivity.
  - left. unfold SF64sub, SFsub. rewrite Z.sub_diag.
    exists (xorb (xorb false s) false). reflexivity.
Qed.

Lemma change_to_self_lt (x t : number) (m : positive) (e : Z) :
  Prim2SF t = S754_finite true m e ->
  lt ((x - x) / x * 100)%float t = false.
Proof.
  intros Ht. unfold lt. rewrite ltb_spec, Ht.
  destruct (change_to_self x) as [[s ->] | ->]; reflexivity.
Qed.

Lemma change_to_self_gt (x t : number) (m : positive) (e : Z) :
  Prim2SF t = S754_finite false m e ->
  gt ((x - x) / x * 100)%float t = false.
Proof.
  intros Ht. unfold gt. rewrite ltb_spec, Ht.
  destruct (change_to_self x) as [[s ->] | ->]; reflexivity.
Qed.

(** Comparison of positive finite numbers is the lexicographic one on the
    exponent and the mantissa. *)
Lemma SFltb_positive (m1 m2 : positive) (e1 e2 : Z) :
  SFltb (S754_finite false m1 e1) (S754_finite false m2 e2) = true <->
  e1 < e2 \/ (e1 = e2 /\ (m1 < m2)%positive).
Proof.
  unfold SFltb, SFcompare.
  change (Pos.compare_cont Eq m1 m2) with (Pos.compare m1 m2).
  destruct (Z.compare_spec e1 e2) as [He|He|He].
  - destruct (Pos.compare_spec m1 m2) as [Hm|Hm|Hm]; split;
      intros H; try discriminate; try lia; auto.
  - split; auto.
  - split; [discriminate|lia].
Qed.


Lemma gt_not_lt (lo hi c : number) (m1 m2 : positive) (e1 e2 : Z) :
  Prim2SF lo = S754_finite false m1 e1 ->
  Prim2SF hi = S754_finite false m2 e2 ->
  below m1 e1 m2 e2 ->
  gt c hi = true -> lt c lo = false.
Proof.
  intros Hlo Hhi Hb Hc.
  destruct (above_positive hi c m2 e2 Hhi Hc) as [E | (m & e & E)];
    unfold lt; rewrite ltb_spec, E, Hlo; [reflexivity|].
  unfold gt in Hc. rewrite ltb_spec, E, Hhi in Hc.
  apply SFltb_positive in Hc.
  destruct (SFltb (S754_finite false m e) (S754_finite false m1 e1)) eqn:F;
    [|reflexivity].
  apply SFltb_positive in F. unfold below in Hb. lia.
Qed.

Lemma gt_weaken (lo hi c : number) (m1 m2 : positive) (e1 e2 : Z) :
  Prim2SF lo = S754_finite false m1 e1 ->
  Prim2SF hi = S754_finite false m2 e2 ->
  below m1 e1 m2 e2 ->
  gt c hi = true -> gt c lo = true.
Proof.
  intros Hlo Hhi Hb Hc.
  destruct (above_positive hi c m2 e2 Hhi Hc) as [E | (m & e & E)];
    unfold gt; rewrite ltb_spec, E, Hlo; [reflexivity|].
  unfold gt in Hc. rewrite ltb_spec, E, Hhi in Hc.
  apply SFltb_positive in Hc. apply SFltb_positive.
  unfold below in Hb. lia.
Qed.

Lemma SFcompare_antisym (a b : spec_float) :
  SFcompare b a = option_map CompOpp (SFcompare a b).
Proof.
  destruct a as [s|s| |s m e], b as [s'|s'| |s' m' e'];
    try destruct s; try destruct s'; try reflexivity; cbn;
    rewrite (Z.compare_antisym e e'); destruct (e ?= e'); cbn;
    try reflexivity;
    change Eq with (CompOpp Eq) at 1;
    rewrite <- Pos.compare_cont_antisym; cbn;
    now rewrite ?CompOpp_involutive.
Qed.

(** [a <= b] excludes [b < a]. *)
Lemma leb_not_lt (a b : number) :
  PrimFloat.leb a b = true -> lt b a = false.
Proof.
  unfold lt. rewrite leb_spec, ltb_spec. unfold SFleb, SFltb.
  rewrite (SFcompare_antisym (Prim2SF a) (Prim2SF b)).
  destruct (SFcompare (Prim2SF a) (Prim2SF b)) as [[]|]; cbn; congruence.
Qed.

Lemma parseFloat_zero : parseFloat (VNum 0) = 0%float.
Proof. vm_compute. reflexivity. Qed.

End NumberFacts.

(** ** analyzeMetrics *)

Section Analyzer.

Variable metrics : object.

(** Only the CTR step and the final override assign the status. *)
Lemma cpm_step_status (a : analysis) :
  status (cpm_step metrics a) = status a.
Proof. unfold cpm_step. repeat destruct (gt _ _); reflexivity. Qed.

Lemma frequency_step_status (a : analysis) :
  status (frequency_step metrics a) = status a.
Proof. unfold frequency_step. repeat destruct (gt _ _); reflexivity. Qed.

Lemma roas_step_status (a : analysis) :
  status (roas_step metrics a) = status a.
Proof.
  unfold roas_step. destruct (truthy _); [|reflexivity].
  destruct (lt _ _); [reflexivity|]. destruct (gt _ _); reflexivity.
Qed.

(** The penalties of the steps after the CTR step. *)
Lemma cpm_step_score (a : analysis) :
  score a - 30 <= score (cpm_step metrics a) <= score a.
Proof. unfold cpm_step. repeat destruct (gt _ _); cbn; lia. Qed.

Lemma frequency_step_score (a : analysis) :
  score a - 30 <= score (frequency_step metrics a) <= score a.
Proof. unfold frequency_step. repeat destruct (gt _ _); cbn; lia. Qed.

Lemma roas_step_score (a : analysis) :
  score a - 20 <= score (roas_step metrics a) <= score a.
Proof.
  unfold roas_step. destruct (truthy _); [|lia].
  destruct (lt _ _); [cbn; lia|]. destruct (gt _ _); cbn; lia.
Qed.

(** The status and the score after the CTR step. *)
Lemma ctr_step_status (context : object) (a : analysis) :
  status (ctr_step metrics context a) =
    let ctr := field_number metrics "ctr" in
    if lt ctr THRESHOLDS.ctr.critical then critical
    else if lt ctr THRESHOLDS.ctr.average then needs_improvement
    else status a.
Proof.
  unfold ctr_step. cbv zeta.
  destruct (lt _ THRESHOLDS.ctr.critical).
  { destruct (gt _ _); reflexivity. }
  destruct (lt _ THRESHOLDS.ctr.average); [reflexivity|].
  destruct (gt _ _); [|reflexivity].
  destruct (_ && _); reflexivity.
Qed.

Lemma ctr_step_score (context : object) (a : analysis) :
  score (ctr_step metrics context a) =
    let ctr := field_number metrics "ctr" in
    if lt ctr THRESHOLDS.ctr.critical then score a - 40
    else if lt ctr THRESHOLDS.ctr.average then score a - 25
    else score a.
Proof.
  unfold ctr_step. cbv zeta.
  destruct (lt _ THRESHOLDS.ctr.critical).
  { destruct (gt _ _); reflexivity. }
  destruct (lt _ THRESHOLDS.ctr.average); [reflexivity|].
  destruct (gt _ _); [|reflexivity].
  destruct (_ && _); reflexivity.
Qed.

Lemma final_status_score (a : analysis) : score (final_status a) = score a.
Proof.
  unfold final_status.
  repeat match goal with |- context [if ?b then _ else _] => destruct b end;
    reflexivity.
Qed.

Lemma final_status_status (a : analysis) :
  status (final_status a) =
    if score a <? 40 then critical
    else if score a <? 60 then poor
    else if score a <? 80 then needs_improvement
    else if score a >=? 95 then excellent
    else status a.
Proof.
  unfold final_status.
  repeat match goal with |- context [if ?b then _ else _] => destruct b end;
    reflexivity.
Qed.


Lemma analyzeMetrics_unfold (context : option object) :
  analyzeMetrics metrics context = final_status (before_override metrics context).
Proof. reflexivity. Qed.

Lemma before_override_status (context : option object) :
  status (before_override metrics context) =
  status (ctr_step metrics (context_or_empty context) initial_analysis).
Proof.
  unfold before_override.
  now rewrite roas_step_status, frequency_step_status, cpm_step_status.
Qed.

(** A CTR branch that assigns a status deducts 40 or 25 points, and no step
    adds points. *)
Lemma before_override_score (context : option object) :
  let a := before_override metrics context in
  score a <= 100 /\ (status a <> optimal -> score a <= 75).
Proof.
  cbv zeta. rewrite before_override_status. unfold before_override.
  set (a1 := ctr_step metrics _ _).
  pose proof (cpm_step_score a1) as H2.
  pose proof (frequency_step_score (cpm_step metrics a1)) as H3.
  pose proof (roas_step_score (frequency_step metrics (cpm_step metrics a1))) as H4.
  assert (score a1 <= 100 /\ (status a1 <> optimal -> score a1 <= 75)) as [H1 H1'].
  { unfold a1. rewrite ctr_step_status, ctr_step_score. cbv zeta.
    destruct (lt _ THRESHOLDS.ctr.critical); [cbn; lia|].
    destruct (lt _ THRESHOLDS.ctr.average); cbn; [lia|].
    split; [lia|]. intros H. now destruct H. }
  split; [lia|]. intros H. specialize (H1' H). lia.
Qed.

End Analyzer.

(** C1: the status returned by [analyzeMetrics] is decided last by the
    accumulated score: critical below 40, else poor below 60, else
    needs_improvement below 80, else excellent from 95 on; otherwise it is
    the provisional status of the CTR step, which is critical or
    needs_improvement when a CTR branch set it and optimal when none did. *)
Theorem final_status_override (metrics : object) (context : option object) :
  let a := analyzeMetrics metrics context in
  let provisional :=
    status (ctr_step metrics (context_or_empty context) initial_analysis) in
  status a =
    (if score a <? 40 then critical
     else if score a <? 60 then poor
     else if score a <? 80 then needs_improvement
     else if score a >=? 95 then excellent
     else provisional)
  /\ provisional =
       (let ctr := field_number metrics "ctr" in
        if lt ctr THRESHOLDS.ctr.critical then critical
        else if lt ctr THRESHOLDS.ctr.average then needs_improvement
        else optimal).
Proof.
  cbv zeta. split.
  - rewrite analyzeMetrics_unfold, final_status_status, final_status_score.
    now rewrite before_override_status.
  - apply ctr_step_status.
Qed.

(** C2: for [{ctr: 0.4, spend: 60}] and no context the analysis has the
    issue "Critical CTR: 0.40%", the score 60 = 100 - 40, the status
    needs_improvement (the CTR step had set critical), and one notification:
    critical, requiring approval, suggesting PAUSE_CAMPAIGN, because the
    spend 60 is above 50. *)
Theorem critical_ctr_scenario :
  let metrics := [("ctr", VNum 0.4); ("spend", VNum 60)] in
  let a := analyzeMetrics metrics None in
  In "Critical CTR: 0.40%" (issues a)
  /\ score a = 60 /\ score a = 100 - 40
  /\ status a = needs_improvement
  /\ status (ctr_step metrics [] initial_analysis) = critical
  /\ gt (field_number metrics "spend") 50 = true
  /\ exists n, notifications a = [n]
       /\ n_priority n = CRITICAL
       /\ requiresApproval n = Some true
       /\ suggestedAction n = "PAUSE_CAMPAIGN".
Proof.
  cbv zeta.
  assert (analyzeMetrics [("ctr", VNum 0.4); ("spend", VNum 60)] None =
          {| issues := ["Critical CTR: 0.40%"];
             recommendations :=
               ["🚨 Immediate action needed: Pause and revise creative"];
             notifications :=
               [{| n_priority := CRITICAL;
                   n_message :=
                     "Critical performance alert: CTR 0.40% with $60 spent";
                   requiresApproval := Some true;
                   suggestedAction := "PAUSE_CAMPAIGN";
                   suggestedValue := None |}];
             score := 60;
             status := needs_improvement |}) as ->
    by (vm_compute; reflexivity).
  cbn [issues score status notifications].
  split; [now left|].
  do 3 (split; [reflexivity|]).
  split; [vm_compute; reflexivity|].
  split; [vm_compute; reflexivity|].
  eexists. split; [reflexivity|]. cbn. auto.
Qed.


(** C9: the two-phase status of [analyzeMetrics] is the single-phase
    function of the final score: critical iff score < 40, poor iff
    40 <= score < 60, needs_improvement iff 60 <= score < 80, optimal iff
    80 <= score < 95, excellent iff score >= 95.  A provisional status set
    by a CTR branch never survives, since that branch leaves a score below
    80. *)
Theorem status_is_function_of_score (metrics : object) (context : option object) :
  let a := analyzeMetrics metrics context in
  let provisional :=
    status (ctr_step metrics (context_or_empty context) initial_analysis) in
  status a = status_of_score (score a)
  /\ (status a = critical <-> score a < 40)
  /\ (status a = poor <-> 40 <= score a < 60)
  /\ (status a = needs_improvement <-> 60 <= score a < 80)
  /\ (status a = optimal <-> 80 <= score a < 95)
  /\ (status a = excellent <-> 95 <= score a)
  /\ (provisional <> optimal -> score a < 80).
Proof.
  cbv zeta.
  rewrite analyzeMetrics_unfold, final_status_status, final_status_score.
  destruct (before_override_score metrics context) as [Hle Hprov].
  rewrite <- before_override_status.
  set (a := before_override metrics context) in *.
  assert (status a = optimal \/ score a <= 75) as Hcase.
  { destruct (status a) eqn:E; (now left) || (right; apply Hprov; discriminate). }
  unfold status_of_score.
  destruct Hcase as [Hs | Hs]; [rewrite Hs|];
    destruct (Z.ltb_spec (score a) 40), (Z.ltb_spec (score a) 60),
      (Z.ltb_spec (score a) 80), (Z.ltb_spec (score a) 95),
      (Z.geb_spec (score a) 95); try lia;
    repeat split; intros; try lia; try discriminate; try reflexivity;
    congruence.
Qed.


Section AnalyzerInputs.

Lemma field_number_falsy (metrics : object) (k : string) :
  truthy (get metrics k) = false -> field_number metrics k = 0%float.
Proof.
  intros H. unfold field_number, or_else. rewrite H. apply parseFloat_zero.
Qed.

(** A non-empty string that [parseFloat] does not parse gives NaN, not 0. *)
Lemma field_number_unparseable (metrics : object) (k s : string) :
  get metrics k = VStr s -> s <> "" -> parseFloat_string s = NaN ->
  field_number metrics k = NaN.
Proof.
  intros Hk Hs Hp. unfold field_number, or_else. rewrite Hk. cbn [truthy].
  destruct (String.eqb_spec s ""); [contradiction|]. exact Hp.
Qed.

(** Writing the number 0 into a falsy field changes no number read. *)
Lemma field_number_set_zero (metrics : object) (k k' : string) :
  truthy (get metrics k) = false ->
  field_number ((k, VNum 0) :: metrics) k' = field_number metrics k'.
Proof.
  intros H. unfold field_number. cbn [get].
  destruct (String.eqb_spec k k') as [->|]; [|reflexivity].
  unfold or_else. rewrite H. reflexivity.
Qed.

Lemma ctr_step_set_zero (metrics context : object) (k : string) (a : analysis) :
  truthy (get metrics k) = false ->
  ctr_step ((k, VNum 0) :: metrics) context a = ctr_step metrics context a.
Proof.
  intros H. unfold ctr_step.
  rewrite !field_number_set_zero by assumption.
  destruct (lt _ THRESHOLDS.ctr.critical); [|reflexivity].
  destruct (gt (field_number metrics "spend") 50) eqn:Hspend; [|reflexivity].
  cbn [get]. destruct (String.eqb_spec k "spend") as [->|]; [|reflexivity].
  rewrite (field_number_falsy _ _ H) in Hspend. discriminate Hspend.
Qed.

Lemma cpm_step_set_zero (metrics : object) (k : string) (a : analysis) :
  truthy (get metrics k) = false ->
  cpm_step ((k, VNum 0) :: metrics) a = cpm_step metrics a.
Proof.
  intros H. unfold cpm_step. now rewrite !field_number_set_zero.
Qed.

Lemma frequency_step_set_zero (metrics : object) (k : string) (a : analysis) :
  truthy (get metrics k) = false ->
  frequency_step ((k, VNum 0) :: metrics) a = frequency_step metrics a.
Proof.
  intros H. unfold frequency_step. now rewrite !field_number_set_zero.
Qed.

Lemma roas_step_set_zero (metrics : object) (k : string) (a : analysis) :
  k <> "purchase_roas" ->
  roas_step ((k, VNum 0) :: metrics) a = roas_step metrics a.
Proof.
  intros H. unfold roas_step. cbn [get].
  destruct (String.eqb_spec k "purchase_roas"); [contradiction|reflexivity].
Qed.

(** With NaN the CTR step takes no branch. *)
Lemma ctr_step_NaN (metrics context : object) (a : analysis) :
  field_number metrics "ctr" = NaN -> ctr_step metrics context a = a.
Proof.
  intros H. unfold ctr_step. rewrite H.
  now rewrite !lt_NaN_l, gt_NaN_l.
Qed.

End AnalyzerInputs.


(** C5, refuted as stated: the string "abc" is unparseable, and the
    snapshot [{ctr: "abc"}] keeps the score 100 with no issue, whereas
    [{ctr: 0}] takes the critical-CTR branch (score 60). *)
Lemma unparseable_ctr_is_not_zero :
  unparseable "abc"
  /\ score (analyzeMetrics [("ctr", VStr "abc")] None) = 100
  /\ issues (analyzeMetrics [("ctr", VStr "abc")] None) = []
  /\ score (analyzeMetrics [("ctr", VNum 0)] None) = 60
  /\ ~ ctr_analysed_as_zero "abc".
Proof.
  split; [split; [discriminate | vm_compute; reflexivity]|].
  do 3 (split; [vm_compute; reflexivity|]).
  intros H. apply (f_equal score) in H. vm_compute in H. discriminate H.
Qed.

(** C5, amended: a falsy (in particular absent) field is read as the number
    0, and the analysis is the one of the snapshot holding 0 in that field;
    the first [purchase_roas] value likewise.  A non-empty string that does
    not parse is read as NaN, for which no comparison holds: with such a
    [ctr] the CTR step changes nothing.  [analyzeMetrics] is a total
    function: no input makes it fail. *)
Theorem absent_fields_read_as_zero (metrics : object) (context : option object) :
  (forall k, truthy (get metrics k) = false ->
     field_number metrics k = 0%float
     /\ (In k ["ctr"; "cpm"; "spend"; "frequency"] ->
         analyzeMetrics ((k, VNum 0) :: metrics) context
         = analyzeMetrics metrics context))
  /\ (forall v, truthy (opt_value (index0 v)) = false ->
      roas_number v = 0%float)
  /\ (forall k s, get metrics k = VStr s -> unparseable s ->
      field_number metrics k = NaN)
  /\ (forall s a, get metrics "ctr" = VStr s -> unparseable s ->
      ctr_step metrics (context_or_empty context) a = a).
Proof.
  split; [|split; [|split]].
  - intros k H. split; [now apply field_number_falsy|].
    intros Hk. unfold analyzeMetrics.
    rewrite ctr_step_set_zero, cpm_step_set_zero, frequency_step_set_zero
      by assumption.
    rewrite roas_step_set_zero; [reflexivity|].
    cbn in Hk. intuition (subst; discriminate).
  - intros v Hv. unfold roas_number, or_else. rewrite Hv.
    apply parseFloat_zero.
  - intros k s Hk [Hs Hp]. now apply field_number_unparseable with s.
  - intros s a Hc [Hs Hp]. apply ctr_step_NaN.
    now apply field_number_unparseable with s.
Qed.

(** The theorem at the snapshot [{spend: 60}], whose [ctr] is absent, and at
    [{ctr: "abc"}]. *)
Lemma absent_fields_read_as_zero_witness :
  (field_number [("spend", VNum 60)] "ctr" = 0%float
   /\ analyzeMetrics [("ctr", VNum 0); ("spend", VNum 60)] None
      = analyzeMetrics [("spend", VNum 60)] None)
  /\ ctr_step [("ctr", VStr "abc")] [] initial_analysis = initial_analysis.
Proof.
  split.
  - destruct (absent_fields_read_as_zero [("spend", VNum 60)] None)
      as (H & _).
    destruct (H "ctr") as [H1 H2]; [reflexivity|].
    split; [exact H1 | apply H2; now left].
  - destruct (absent_fields_read_as_zero [("ctr", VStr "abc")] None)
      as (_ & _ & _ & H).
    apply (H "abc"); [reflexivity|].
    split; [discriminate | vm_compute; reflexivity].
Defined.

(** ** The scale-up recommendation *)


Section ScaleUp.

Variable metrics : object.
Hypothesis no_breach : no_other_threshold_breached metrics.

Lemma cpm_step_no_breach (a : analysis) : cpm_step metrics a = a.
Proof.
  destruct no_breach as (Hcpm & _). unfold cpm_step.
  destruct (gt _ THRESHOLDS.cpm.critical) eqn:E.
  - assert (gt (field_number metrics "cpm") THRESHOLDS.cpm.average = true)
      by (by_thresholds gt_weaken).
    congruence.
  - now rewrite Hcpm.
Qed.

Lemma frequency_step_no_breach (a : analysis) : frequency_step metrics a = a.
Proof.
  destruct no_breach as (_ & Hf & _). unfold frequency_step.
  destruct (gt _ THRESHOLDS.frequency.critical) eqn:E.
  - assert (gt (field_number metrics "frequency")
              THRESHOLDS.frequency.warning = true)
      by (by_thresholds gt_weaken).
    congruence.
  - now rewrite Hf.
Qed.

(** A ROAS between the poor and the good threshold takes no branch. *)
Lemma roas_step_no_breach (a : analysis) :
  roas_step metrics a = a.
Proof.
  destruct no_breach as (_ & _ & [Hr | [Hlo Hhi]]); unfold roas_step.
  - now rewrite Hr.
  - destruct (truthy _); [|reflexivity].
    rewrite (leb_not_lt _ _ Hlo).
    pose proof (leb_not_lt _ _ Hhi) as H. unfold lt in H.
    unfold gt. now rewrite H.
Qed.

End ScaleUp.

(** C6, refuted as stated: [ctr = 1.5] satisfies [ctr >= 1.5] with nothing
    else breached, and the analysis has no scale-up recommendation, the
    branch being [ctr > THRESHOLDS.ctr.good]. *)
Lemma scale_up_not_at_threshold :
  let metrics := [("ctr", VNum 1.5)] in
  PrimFloat.leb THRESHOLDS.ctr.good (field_number metrics "ctr") = true
  /\ no_other_threshold_breached metrics
  /\ recommendations (analyzeMetrics metrics None) = []
  /\ ~ In (scale_up_recommendation (field_number metrics "ctr"))
         (recommendations (analyzeMetrics metrics None)).
Proof.
  cbv zeta. split; [vm_compute; reflexivity|]. split.
  - split; [vm_compute; reflexivity|]. split; [vm_compute; reflexivity|].
    left. reflexivity.
  - assert (recommendations (analyzeMetrics [("ctr", VNum 1.5)] None) = [])
      as -> by (vm_compute; reflexivity).
    split; [reflexivity | intros []].
Qed.

(** C6, amended: with [ctr > 1.5] and no other threshold breached (cpm not
    above 50, frequency not above 5, roas absent or between 1.5 and 3), the
    status is not critical (it is excellent, the score being 100) and the
    recommendations include the scale-up recommendation. *)
Theorem scale_up_above_threshold (metrics : object) (context : option object) :
  gt (field_number metrics "ctr") THRESHOLDS.ctr.good = true ->
  no_other_threshold_breached metrics ->
  let a := analyzeMetrics metrics context in
  status a <> critical
  /\ status a = excellent
  /\ In (scale_up_recommendation (field_number metrics "ctr"))
        (recommendations a).
Proof.
  intros Hctr Hno. cbv zeta. unfold analyzeMetrics.
  rewrite cpm_step_no_breach, frequency_step_no_breach, roas_step_no_breach
    by assumption.
  assert (lt (field_number metrics "ctr") THRESHOLDS.ctr.critical = false)
    as H1 by (by_thresholds gt_not_lt).
  assert (lt (field_number metrics "ctr") THRESHOLDS.ctr.average = false)
    as H2 by (by_thresholds gt_not_lt).
  unfold ctr_step. rewrite H1, H2, Hctr.
  destruct (_ && _); cbn; (split; [discriminate|]); split; auto.
Qed.

(** The theorem at [{ctr: 2.4, cpm: 12}]. *)
Lemma scale_up_above_threshold_witness :
  status (analyzeMetrics [("ctr", VNum 2.4); ("cpm", VNum 12)] None) = excellent
  /\ In "🎯 Excellent CTR (2.40%) - Scale this winner"
        (recommendations
           (analyzeMetrics [("ctr", VNum 2.4); ("cpm", VNum 12)] None)).
Proof.
  destruct (scale_up_above_threshold [("ctr", VNum 2.4); ("cpm", VNum 12)] None)
    as (_ & H1 & H2).
  - vm_compute; reflexivity.
  - split; [vm_compute; reflexivity|].
    split; [vm_compute; reflexivity|]. left; reflexivity.
  - split; [exact H1|].
    replace "🎯 Excellent CTR (2.40%) - Scale this winner"
      with (scale_up_recommendation
              (field_number [("ctr", VNum 2.4); ("cpm", VNum 12)] "ctr"))
      by (vm_compute; reflexivity).
    exact H2.
Defined.

(** ** detectSignificantChanges *)


Section Detector.

Variables previous currentMetrics : metrics.

Lemma ctr_crash_inv (e : change) :
  In e (ctr_crash previous currentMetrics) ->
  c_type e = CTR_CRASH
  /\ lt (ctrChange previous currentMetrics) (-30) = true
  /\ lt (ctr currentMetrics) THRESHOLDS.ctr.average = true.
Proof.
  unfold ctr_crash. destruct (lt _ (-30)) eqn:E1; [|intros []].
  destruct (lt _ THRESHOLDS.ctr.average) eqn:E2; [|intros []].
  intros [<- | []]. auto.
Qed.

Lemma cpm_spike_inv (e : change) :
  In e (cpm_spike previous currentMetrics) ->
  c_type e = CPM_SPIKE
  /\ gt (cpmChange previous currentMetrics) 50 = true
  /\ gt (cpm currentMetrics) THRESHOLDS.cpm.average = true.
Proof.
  unfold cpm_spike. destruct (gt _ 50) eqn:E1; [|intros []].
  destruct (gt _ THRESHOLDS.cpm.average) eqn:E2; [|intros []].
  intros [<- | []]. auto.
Qed.

Lemma performance_boost_inv (e : change) :
  In e (performance_boost previous currentMetrics) ->
  c_type e = PERFORMANCE_BOOST
  /\ gt (ctrChange previous currentMetrics) 50 = true
  /\ gt (ctr currentMetrics) THRESHOLDS.ctr.good = true.
Proof.
  unfold performance_boost. destruct (gt _ 50) eqn:E1; [|intros []].
  destruct (gt _ THRESHOLDS.ctr.good) eqn:E2; [|intros []].
  intros [<- | []]. auto.
Qed.

(** Each event type comes from its own test. *)
Lemma changes_of_type (e : change) :
  In e (changes_of previous currentMetrics) ->
  match c_type e with
  | CTR_CRASH => In e (ctr_crash previous currentMetrics)
  | CPM_SPIKE => In e (cpm_spike previous currentMetrics)
  | PERFORMANCE_BOOST => In e (performance_boost previous currentMetrics)
  end.
Proof.
  unfold changes_of. rewrite !in_app_iff.
  intros [H | [H | H]].
  - now destruct (ctr_crash_inv e H) as (-> & _).
  - now destruct (cpm_spike_inv e H) as (-> & _).
  - now destruct (performance_boost_inv e H) as (-> & _).
Qed.

End Detector.

(** The result of a call on a campaign already in the state. *)
Lemma detect_known (now : Z) (campaignId : string) (currentMetrics : metrics)
    (st : gmap string campaign_state) (previous : campaign_state) :
  st !! campaignId = Some previous ->
  fst (detectSignificantChanges now campaignId currentMetrics st) =
    match changes_of (current previous) currentMetrics with
    | [] => None
    | l => Some l
    end.
Proof.
  intros H. unfold detectSignificantChanges. rewrite H. cbn.
  now destruct (changes_of _ _).
Qed.

Lemma detect_unknown (now : Z) (campaignId : string) (currentMetrics : metrics)
    (st : gmap string campaign_state) :
  st !! campaignId = None ->
  fst (detectSignificantChanges now campaignId currentMetrics st) = None.
Proof. intros H. unfold detectSignificantChanges. now rewrite H. Qed.

(** Every call stores the current metrics. *)
Lemma detect_stores (now : Z) (campaignId : string) (currentMetrics : metrics)
    (st : gmap string campaign_state) :
  exists stored,
    snd (detectSignificantChanges now campaignId currentMetrics st)
      !! campaignId = Some stored
    /\ current stored = currentMetrics.
Proof.
  unfold detectSignificantChanges.
  destruct (st !! campaignId); cbn; rewrite lookup_insert_eq;
    eexists; split; reflexivity.
Qed.

Lemma emits_known (now : Z) (campaignId : string) (currentMetrics : metrics)
    (st : gmap string campaign_state) (previous : campaign_state)
    (t : change_type) :
  st !! campaignId = Some previous ->
  emits (fst (detectSignificantChanges now campaignId currentMetrics st)) t <->
  exists e, In e (changes_of (current previous) currentMetrics) /\ c_type e = t.
Proof.
  intros H. rewrite (detect_known _ _ _ _ _ H). unfold emits.
  destruct (changes_of _ _) as [|x l].
  - split; [intros (? & ? & ? & _); discriminate | intros (? & [] & _)].
  - split.
    + intros (events & e & [= <-] & Hin & Ht). eauto.
    + intros (e & Hin & Ht). eauto.
Qed.

(** Identical metrics give no event. *)
Lemma changes_of_self (m : metrics) : changes_of m m = [].
Proof.
  unfold changes_of, ctr_crash, cpm_spike, performance_boost,
    ctrChange, cpmChange.
  rewrite (change_to_self_lt (ctr m) (-30) _ _ eq_refl).
  rewrite (change_to_self_gt (cpm m) 50 _ _ eq_refl).
  rewrite (change_to_self_gt (ctr m) 50 _ _ eq_refl).
  reflexivity.
Qed.

(** C3: once a call [detectSignificantChanges(id, m)] has stored [m] for
    [id] (as a baseline or as an update), a second call with the same
    metrics emits no CTR_CRASH, CPM_SPIKE or PERFORMANCE_BOOST event and
    returns null; so does a call on any state that holds [m] for [id]. *)
Theorem repeated_observation_is_silent (now1 now2 : Z) (campaignId : string)
    (m : metrics) (st : gmap string campaign_state) :
  let st1 := snd (detectSignificantChanges now1 campaignId m st) in
  let second := fst (detectSignificantChanges now2 campaignId m st1) in
  (exists stored, st1 !! campaignId = Some stored /\ current stored = m)
  /\ second = None
  /\ ~ emits second CTR_CRASH
  /\ ~ emits second CPM_SPIKE
  /\ ~ emits second PERFORMANCE_BOOST
  /\ (forall st' stored,
        st' !! campaignId = Some stored -> current stored = m ->
        fst (detectSignificantChanges now2 campaignId m st') = None).
Proof.
  cbv zeta.
  destruct (detect_stores now1 campaignId m st) as (stored & Hst & Hm).
  split; [eauto|].
  assert (fst (detectSignificantChanges now2 campaignId m
                 (snd (detectSignificantChanges now1 campaignId m st))) = None)
    as ->.
  { rewrite (detect_known _ _ _ _ _ Hst), Hm. now rewrite changes_of_self. }
  split; [reflexivity|].
  do 3 (split; [intros (? & ? & ? & _); discriminate|]).
  intros st' stored' Hst' Hm'.
  rewrite (detect_known _ _ _ _ _ Hst'), Hm'. now rewrite changes_of_self.
Qed.

(** C7: a CTR_CRASH event is emitted only when both hold: the CTR change is
    below -30 percent and the current ctr is below the average threshold
    0.8 (and it is emitted whenever both hold).  With a prior ctr of 2.0, a
    current ctr of 1.3 and an unchanged cpm, the change is -35 percent but
    1.3 is not below 0.8: no event, the call returns null. *)
Theorem ctr_crash_needs_both_conditions (now : Z) (campaignId : string)
    (currentMetrics : metrics) (st : gmap string campaign_state) :
  (emits (fst (detectSignificantChanges now campaignId currentMetrics st))
     CTR_CRASH <->
   exists previous,
     st !! campaignId = Some previous
     /\ lt (ctrChange (current previous) currentMetrics) (-30) = true
     /\ lt (ctr currentMetrics) THRESHOLDS.ctr.average = true)
  /\ (forall previous,
        st !! campaignId = Some previous ->
        ctr (current previous) = 2.0%float ->
        ctr currentMetrics = 1.3%float ->
        cpm currentMetrics = cpm (current previous) ->
        ctrChange (current previous) currentMetrics = (-35)%float
        /\ lt (ctrChange (current previous) currentMetrics) (-30) = true
        /\ lt (ctr currentMetrics) THRESHOLDS.ctr.average = false
        /\ fst (detectSignificantChanges now campaignId currentMetrics st)
           = None).
Proof.
  split.
  - destruct (st !! campaignId) as [previous|] eqn:Hst.
    + rewrite (emits_known _ _ _ _ _ _ Hst). split.
      * intros (e & Hin & Ht). exists previous. split; [reflexivity|].
        apply changes_of_type in Hin. rewrite Ht in Hin.
        now apply ctr_crash_inv in Hin.
      * intros (p & [= <-] & H1 & H2).
        unfold changes_of, ctr_crash. rewrite H1, H2. cbn.
        eexists. split; [left; reflexivity | reflexivity].
    + rewrite (detect_unknown _ _ _ _ Hst). split.
      * intros (? & ? & ? & _); discriminate.
      * intros (? & ? & _); discriminate.
  - intros previous Hst Hp Hc Hcpm.
    assert (ctrChange (current previous) currentMetrics = (-35)%float) as E.
    { unfold ctrChange. rewrite Hp, Hc. reflexivity. }
    rewrite (detect_known _ _ _ _ _ Hst).
    unfold changes_of, ctr_crash, performance_boost, cpm_spike, cpmChange.
    rewrite E, Hc, Hcpm.
    rewrite (change_to_self_gt (cpm (current previous)) 50 _ _ eq_refl).
    repeat split; reflexivity.
Qed.

(** The theorem at the state [{c1: {ctr: 2.0, cpm: 12}}] and the current
    metrics [{ctr: 1.3, cpm: 12}]. *)
Lemma ctr_crash_needs_both_conditions_witness :
  fst (detectSignificantChanges 1000 "c1"
         {| ctr := 1.3; cpm := 12; spend := 40; frequency := 2 |}
         {[ "c1" := {| current := {| ctr := 2.0; cpm := 12; spend := 30;
                                      frequency := 2 |};
                        lastChecked := 0; previousCtr := None;
                        previousCpm := None |} ]}) = None.
Proof.
  refine (proj2 (proj2 (proj2 (proj2
    (ctr_crash_needs_both_conditions 1000 "c1" _ _) _ _ _ _ _)))).
  - apply lookup_singleton_eq.
  - reflexivity.
  - reflexivity.
  - reflexivity.
Defined.

(** The negative zero as a prior value: the division gives [-Infinity]. *)
Lemma change_from_negative_zero :
  ((2 - (-0)) / (-0) * 100)%float = NegInfinity.
Proof. reflexivity. Qed.

(** C10: the division by the prior value is unguarded.  With a prior ctr of
    0 and a current ctr above 1.5 the change is [+Infinity] and a
    PERFORMANCE_BOOST event is emitted; with a prior cpm of 0 and a current
    cpm above 50 a CPM_SPIKE event is emitted; when the prior and the
    current value are both 0 the change is NaN and no event fires. *)
Theorem zero_baseline_is_not_guarded (now : Z) (campaignId : string)
    (currentMetrics : metrics) (st : gmap string campaign_state)
    (previous : campaign_state) :
  st !! campaignId = Some previous ->
  let result := fst (detectSignificantChanges now campaignId currentMetrics st) in
  (ctr (current previous) = 0%float ->
   gt (ctr currentMetrics) THRESHOLDS.ctr.good = true ->
   ctrChange (current previous) currentMetrics = Infinity
   /\ gt Infinity 50 = true
   /\ emits result PERFORMANCE_BOOST)
  /\ (cpm (current previous) = 0%float ->
      gt (cpm currentMetrics) THRESHOLDS.cpm.average = true ->
      cpmChange (current previous) currentMetrics = Infinity
      /\ emits result CPM_SPIKE)
  /\ (ctr (current previous) = 0%float -> ctr currentMetrics = 0%float ->
      ctrChange (current previous) currentMetrics = NaN
      /\ ~ emits result CTR_CRASH /\ ~ emits result PERFORMANCE_BOOST)
  /\ (cpm (current previous) = 0%float -> cpm currentMetrics = 0%float ->
      cpmChange (current previous) currentMetrics = NaN
      /\ ~ emits result CPM_SPIKE)
  /\ (ctr (current previous) = 0%float -> ctr currentMetrics = 0%float ->
      cpm (current previous) = 0%float -> cpm currentMetrics = 0%float ->
      result = None).
Proof.
  intros Hst. cbv zeta.
  split; [|split; [|split; [|split]]].
  - intros Hp Hc.
    assert (ctrChange (current previous) currentMetrics = Infinity) as E.
    { unfold ctrChange. rewrite Hp.
      exact (change_from_zero THRESHOLDS.ctr.good _ _ _ eq_refl Hc). }
    split; [exact E|]. split; [reflexivity|].
    apply (emits_known _ _ _ _ _ _ Hst).
    unfold changes_of, performance_boost. rewrite E, Hc.
    eexists.
    split; [rewrite !in_app_iff; right; right; left; reflexivity|].
    reflexivity.
  - intros Hp Hc.
    assert (cpmChange (current previous) currentMetrics = Infinity) as E.
    { unfold cpmChange. rewrite Hp.
      exact (change_from_zero THRESHOLDS.cpm.average _ _ _ eq_refl Hc). }
    split; [exact E|].
    apply (emits_known _ _ _ _ _ _ Hst).
    unfold changes_of, cpm_spike. rewrite E, Hc.
    eexists.
    split; [rewrite !in_app_iff; right; left; left; reflexivity|].
    reflexivity.
  - intros Hp Hc.
    assert (ctrChange (current previous) currentMetrics = NaN) as E.
    { unfold ctrChange. rewrite Hp, Hc. reflexivity. }
    split; [exact E|].
    rewrite !(emits_known _ _ _ _ _ _ Hst).
    split; intros (e & Hin & Ht); apply changes_of_type in Hin;
      rewrite Ht in Hin.
    + apply ctr_crash_inv in Hin. rewrite E in Hin.
      destruct Hin as (_ & Hin & _). discriminate Hin.
    + apply performance_boost_inv in Hin. rewrite E in Hin.
      destruct Hin as (_ & Hin & _). discriminate Hin.
  - intros Hp Hc.
    assert (cpmChange (current previous) currentMetrics = NaN) as E.
    { unfold cpmChange. rewrite Hp, Hc. reflexivity. }
    split; [exact E|].
    rewrite (emits_known _ _ _ _ _ _ Hst).
    intros (e & Hin & Ht); apply changes_of_type in Hin; rewrite Ht in Hin.
    apply cpm_spike_inv in Hin. rewrite E in Hin.
    destruct Hin as (_ & Hin & _). discriminate Hin.
  - intros Hp Hc Hp' Hc'.
    rewrite (detect_known _ _ _ _ _ Hst).
    unfold changes_of, ctr_crash, cpm_spike, performance_boost,
      ctrChange, cpmChange.
    rewrite Hp, Hc, Hp', Hc'. reflexivity.
Qed.

(** The theorem at the state [{c1: {ctr: 0, cpm: 0}}] and the current
    metrics [{ctr: 2, cpm: 80}]. *)
Lemma zero_baseline_is_not_guarded_witness :
  let result :=
    fst (detectSignificantChanges 1000 "c1"
           {| ctr := 2; cpm := 80; spend := 40; frequency := 2 |}
           {[ "c1" := {| current := {| ctr := 0; cpm := 0; spend := 0;
                                        frequency := 0 |};
                          lastChecked := 0; previousCtr := None;
                          previousCpm := None |} ]}) in
  emits result PERFORMANCE_BOOST /\ emits result CPM_SPIKE.
Proof.
  cbv zeta.
  destruct (zero_baseline_is_not_guarded 1000 "c1"
              {| ctr := 2; cpm := 80; spend := 40; frequency := 2 |}
              {[ "c1" := {| current := {| ctr := 0; cpm := 0; spend := 0;
                                           frequency := 0 |};
                             lastChecked := 0; previousCtr := None;
                             previousCpm := None |} ]} _
              (lookup_singleton_eq _ _)) as (H1 & H2 & _).
  split.
  - apply H1; reflexivity.
  - apply H2; reflexivity.
Defined.

(** ** Approvals and the tool boundary *)

Section ProcessApproval.

Import Approvals.

Lemma toUpperCase_nonempty (s : string) : s <> "" -> toUpperCase s <> "".
Proof. destruct s; [congruence | discriminate]. Qed.


(** The try block on a pending approval resolved after its expiry. *)
Lemma process_approval_try_expired (update : string -> option string)
    (now : Z) (approvalId action : string) (approvals : gmap string approval)
    (a : approval) :
  approvalId <> "" -> action <> "" ->
  approvals !! approvalId = Some a ->
  status a = pending ->
  now > expiresAt a ->
  process_approval_try update now (Some approvalId) (Some action) approvals
  = (Returned (expired_payload approvalId a),
     <[approvalId := set_approval_status expired a]> approvals).
Proof.
  intros Hid Hact Hlook Hst Hnow. unfold process_approval_try. cbn.
  destruct (String.eqb_spec approvalId ""); [contradiction|].
  destruct (String.eqb_spec (toUpperCase action) "") as [E|_];
    [now apply toUpperCase_nonempty in E|].
  cbn. rewrite Hlook, Hst. cbn.
  destruct (Z.gtb_spec now (expiresAt a)); [reflexivity | lia].
Qed.

End ProcessApproval.

(** C4: resolving a pending approval through [process_approval] strictly
    after its [expiresAt] completes the try block with the "Approval
    expired" error payload, which is what the handler returns once
    [saveState] has resolved, and sets the status of the stored approval to
    expired: it is no longer pending. *)
Theorem expired_approval_is_marked (disk : fs)
    (update : string -> option string) (now : Z) (approvalId action : string)
    (s : Approvals.server) (a : Approvals.approval) :
  approvalId <> "" -> action <> "" ->
  Approvals.pendingApprovals s !! approvalId = Some a ->
  Approvals.status a = Approvals.pending ->
  now > Approvals.expiresAt a ->
  let r := Approvals.process_approval disk update now
             (Some approvalId) (Some action) s in
  let payload := expired_payload approvalId a in
  fst (Approvals.process_approval_try update now (Some approvalId)
         (Some action) (Approvals.pendingApprovals s)) = Returned payload
  /\ (exists e, payload = Approvals.Error e
               /\ Approvals.error e = "Approval expired")
  /\ (writeFile disk (loadState disk) = None -> fst r = Returned payload)
  /\ exists a',
       Approvals.pendingApprovals (snd r) !! approvalId = Some a'
       /\ Approvals.status a' = Approvals.expired
       /\ Approvals.status a' <> Approvals.pending
       /\ a' = Approvals.set_approval_status Approvals.expired a.
Proof.
  intros Hid Hact Hlook Hst Hnow. cbv zeta.
  unfold Approvals.process_approval.
  rewrite (process_approval_try_expired update now approvalId action _ a)
    by assumption.
  cbn [fst snd Approvals.pendingApprovals].
  split; [reflexivity|]. split; [eexists; split; reflexivity|]. split.
  - intros Hw. unfold saveState. rewrite Hw. reflexivity.
  - eexists. rewrite lookup_insert_eq.
    split; [reflexivity|]. repeat split. discriminate.
Qed.

(** The theorem on an approval created at time 0 and rejected three hours
    later, with a state file that can be written. *)
Lemma expired_approval_is_marked_witness :
  let created :=
    snd (Approvals.createApprovalRequest 0 "PAUSE_CAMPAIGNS"
           {| Approvals.campaigns := [];
              Approvals.estimatedSavings := "0.00" |} ∅) in
  let r :=
    Approvals.process_approval
      {| readFile := None; writeFile := fun _ => None |}
      (fun _ => None) (3 * 60 * 60 * 1000) (Some "APR0") (Some "reject")
      {| Approvals.campaignState := ∅;
         Approvals.pendingApprovals := created |} in
  (exists e, fst r = Returned (Approvals.Error e)
             /\ Approvals.error e = "Approval expired")
  /\ exists a', Approvals.pendingApprovals (snd r) !! "APR0" = Some a'
               /\ Approvals.status a' = Approvals.expired.
Proof.
  cbv zeta.
  destruct (expired_approval_is_marked
              {| readFile := None; writeFile := fun _ => None |}
              (fun _ => None) (3 * 60 * 60 * 1000) "APR0" "reject"
              {| Approvals.campaignState := ∅;
                 Approvals.pendingApprovals :=
                   snd (Approvals.createApprovalRequest 0 "PAUSE_CAMPAIGNS"
                          {| Approvals.campaigns := [];
                             Approvals.estimatedSavings := "0.00" |} ∅) |}
              {| Approvals.action := "PAUSE_CAMPAIGNS";
                 Approvals.data := {| Approvals.campaigns := [];
                                      Approvals.estimatedSavings := "0.00" |};
                 Approvals.createdAt := 0;
                 Approvals.expiresAt := 2 * 60 * 60 * 1000;
                 Approvals.status := Approvals.pending;
                 Approvals.processedAt := None |})
    as (_ & (e & He & Herr) & Hret & (a' & Hl & Hs & _)).
  - discriminate.
  - discriminate.
  - apply lookup_insert_eq.
  - reflexivity.
  - reflexivity.
  - split.
    + exists e. rewrite <- He. split; [apply Hret; reflexivity | exact Herr].
    + exists a'. split; assumption.
Defined.

(** C8, on the code: [saveState] has no handler and is awaited in the
    finally block, so a failed write makes every tool call of this shape
    throw, whatever its try and catch blocks completed with.  For
    [process_approval] rejecting a pending approval while the state file
    cannot be written, the handler throws the write error instead of
    returning its response, and the HTTP wrapper answers 500 with that
    message; the approval has been marked rejected all the same.  With a
    writable file the same call returns its response. *)
Theorem save_failure_escapes_the_tool_call :
  (forall (A : Type) (try_block : outcome A) (catch : string -> A)
          (disk : fs) (campaignState : gmap string campaign_state)
          (message : string),
     writeFile disk campaignState = Some message ->
     try_catch_finally try_block catch (saveState disk campaignState)
     = Thrown message)
  /\ let approvals :=
       snd (Approvals.createApprovalRequest 0 "PAUSE_CAMPAIGNS"
              {| Approvals.campaigns := [];
                 Approvals.estimatedSavings := "0.00" |} ∅) in
     let s := {| Approvals.campaignState := ∅;
                 Approvals.pendingApprovals := approvals |} in
     let failing := {| readFile := None;
                       writeFile := fun _ => Some "EACCES: permission denied" |} in
     let working := {| readFile := None; writeFile := fun _ => None |} in
     let call disk :=
       Approvals.process_approval disk (fun _ => None) 1000
         (Some "APR0") (Some "REJECT") s in
     fst (call failing) = Thrown "EACCES: permission denied"
     /\ http_tool (fst (call failing))
        = (500, ErrorMessage "EACCES: permission denied")
     /\ Approvals.status <$> (Approvals.pendingApprovals (snd (call failing))
                               !! "APR0") = Some Approvals.rejected
     /\ exists r, fst (call working) = Returned (Approvals.Response r)
                  /\ http_tool (fst (call working))
                     = (200, Result (Approvals.Response r)).
Proof.
  split.
  - intros A try_block catch disk campaignState message H.
    unfold saveState. rewrite H. reflexivity.
  - cbv zeta. split; [vm_compute; reflexivity|].
    split; [vm_compute; reflexivity|].
    split; [vm_compute; reflexivity|].
    eexists. split; vm_compute; reflexivity.
Qed.

(** * Further properties of the modelled functions *)

(** ** analyzeMetrics: score, issues and notifications *)

Section AnalyzerInvariants.

Variable metrics : object.

Lemma step_effect_refl (a : analysis) : step_effect a a.
Proof. unfold step_effect. cbv zeta. lia. Qed.

Ltac step_effect_branches :=
  repeat match goal with
         | |- context [if ?b then _ else _] => destruct b
         end;
  unfold step_effect; cbn; rewrite ?length_app; cbn; lia.

Lemma ctr_step_effect (context : object) (a : analysis) :
  step_effect a (ctr_step metrics context a).
Proof. unfold ctr_step. step_effect_branches. Qed.

Lemma cpm_step_effect (a : analysis) : step_effect a (cpm_step metrics a).
Proof. unfold cpm_step. step_effect_branches. Qed.

Lemma frequency_step_effect (a : analysis) :
  step_effect a (frequency_step metrics a).
Proof. unfold frequency_step. step_effect_branches. Qed.

Lemma roas_step_effect (a : analysis) : step_effect a (roas_step metrics a).
Proof. unfold roas_step. step_effect_branches. Qed.

(** The final override changes the status only. *)
Lemma final_status_fields (a : analysis) :
  issues (final_status a) = issues a
  /\ recommendations (final_status a) = recommendations a
  /\ notifications (final_status a) = notifications a.
Proof.
  unfold final_status.
  repeat match goal with |- context [if ?b then _ else _] => destruct b end;
    auto.
Qed.

Lemma status_excellent_iff (context : option object) :
  status (analyzeMetrics metrics context) = excellent
  <-> 95 <= score (analyzeMetrics metrics context).
Proof.
  rewrite analyzeMetrics_unfold, final_status_status, final_status_score.
  destruct (before_override_score metrics context) as [Hle Hprov].
  set (a := before_override metrics context) in *.
  destruct (Z.ltb_spec (score a) 40), (Z.ltb_spec (score a) 60),
    (Z.ltb_spec (score a) 80), (Z.geb_spec (score a) 95); try lia;
    split; intros Hx; try lia; try discriminate; try reflexivity.
  destruct (status a) eqn:E; try discriminate.
  assert (score a <= 75) by (apply Hprov; discriminate). lia.
Qed.

End AnalyzerInvariants.

(** The sizes and the score of an analysis. *)
Lemma analysis_counts (metrics : object) (context : option object) :
  let a := analyzeMetrics metrics context in
  let n := Z.of_nat (List.length (issues a)) in
  15 * n <= 100 - score a <= 40 * n
  /\ -20 <= score a <= 100
  /\ n <= 4
  /\ n <= Z.of_nat (List.length (recommendations a))
  /\ Z.of_nat (List.length (notifications a)) <= 3.
Proof.
  cbv zeta. rewrite analyzeMetrics_unfold, final_status_score.
  destruct (final_status_fields (before_override metrics context))
    as (-> & -> & ->).
  unfold before_override.
  set (a1 := ctr_step metrics _ initial_analysis).
  set (a2 := cpm_step metrics a1).
  set (a3 := frequency_step metrics a2).
  pose proof (ctr_step_effect metrics (context_or_empty context)
                initial_analysis) as H1.
  pose proof (cpm_step_effect metrics a1) as H2.
  pose proof (frequency_step_effect metrics a2) as H3.
  pose proof (roas_step_effect metrics a3) as H4.
  pose proof (ctr_step_score metrics (context_or_empty context)
                initial_analysis) as S1.
  pose proof (cpm_step_score metrics a1) as S2.
  pose proof (frequency_step_score metrics a2) as S3.
  pose proof (roas_step_score metrics a3) as S4.
  fold a1 in H1, S1. fold a2 in H2, S2 |- *. fold a3 in H3, S3 |- *.
  assert (score a1 >= 60) as S1'.
  { rewrite S1. cbv zeta. repeat destruct (lt _ _); cbn; lia. }
  unfold step_effect in *. cbn in H1. cbv zeta in *.
  assert (Z.of_nat (List.length (notifications (roas_step metrics a3)))
          = Z.of_nat (List.length (notifications a3))) as N4.
  { unfold roas_step.
    repeat match goal with |- context [if ?b then _ else _] => destruct b end;
      reflexivity. }
  lia.
Qed.

(** X1: the score of an analysis is 100 minus between 15 and 40 points per
    issue: it lies between -20 and 100, there are at most four issues, at
    least one recommendation per issue and at most three notifications. *)
Theorem score_counts_issues (metrics : object) (context : option object) :
  let a := analyzeMetrics metrics context in
  let n := Z.of_nat (List.length (issues a)) in
  15 * n <= 100 - score a <= 40 * n
  /\ -20 <= score a <= 100
  /\ n <= 4
  /\ n <= Z.of_nat (List.length (recommendations a))
  /\ Z.of_nat (List.length (notifications a)) <= 3.
Proof. exact (analysis_counts metrics context). Qed.

(** X2: an analysis is excellent exactly when it has no issue, that is when
    its score is 100; any issue brings the score to 85 or less. *)
Theorem excellent_iff_no_issue (metrics : object) (context : option object) :
  let a := analyzeMetrics metrics context in
  (status a = excellent <-> issues a = [])
  /\ (issues a = [] <-> score a = 100)
  /\ (issues a <> [] -> score a <= 85).
Proof.
  cbv zeta.
  pose proof (analysis_counts metrics context) as H. cbv zeta in H.
  rewrite status_excellent_iff.
  destruct (issues (analyzeMetrics metrics context)) as [|i l]; cbn in H.
  - repeat split; intros; try lia; try reflexivity; congruence.
  - repeat split; intros; try lia; try discriminate.
Qed.

Section Ordering.

(** [<] on numbers is asymmetric. *)
Lemma lt_asym (a b : number) : lt a b = true -> lt b a = false.
Proof.
  unfold lt. rewrite !ltb_spec. unfold SFltb.
  rewrite (SFcompare_antisym (Prim2SF a) (Prim2SF b)).
  destruct (SFcompare (Prim2SF a) (Prim2SF b)) as [[]|]; cbn; congruence.
Qed.

Lemma lt_irrefl (a : number) : lt a a = false.
Proof.
  destruct (lt a a) eqn:E; [|reflexivity].
  pose proof (lt_asym a a E). congruence.
Qed.

(** [Math.min(a, b)] is never above [b]. *)
Lemma Math_min_not_above (a b : number) : gt (Math_min a b) b = false.
Proof.
  unfold Math_min.
  destruct (isNaN a || isNaN b); [apply gt_NaN_l|].
  destruct (lt a b) eqn:E1; [exact (lt_asym a b E1)|].
  destruct (lt b a) eqn:E2; [exact (lt_irrefl b)|].
  destruct (Prim2SF a) as [[]| | |]; first [exact E2 | exact (lt_irrefl b)].
Qed.

(** A number below a negative one is not above a positive one. *)
Lemma lt_negative_not_gt_positive (c lo hi : number)
    (m1 m2 : positive) (e1 e2 : Z) :
  Prim2SF lo = S754_finite true m1 e1 ->
  Prim2SF hi = S754_finite false m2 e2 ->
  lt c lo = true -> gt c hi = false.
Proof.
  unfold lt, gt. rewrite !ltb_spec. intros -> ->.
  destruct (Prim2SF c) as [s|s| |s m e]; try destruct s; cbn;
    congruence.
Qed.

End Ordering.

Section NotificationShapes.

Variable metrics : object.

Ltac shape_known :=
  unfold notification_shape; cbn;
  first [ left; repeat split; reflexivity
        | right; right; left; repeat split; reflexivity
        | right; right; right; repeat split; reflexivity ].

Ltac shapes :=
  repeat match goal with
         | |- context [if ?b then _ else _] => destruct b
         end;
  cbn; rewrite ?Forall_app; try assumption;
  (split; [assumption|]); constructor; [shape_known | constructor].

Lemma ctr_step_shapes (context : object) (a : analysis) :
  Forall notification_shape (notifications a) ->
  Forall notification_shape (notifications (ctr_step metrics context a)).
Proof.
  intros H. unfold ctr_step.
  repeat match goal with
         | |- context [if ?b then _ else _] => destruct b
         end;
    cbn; rewrite ?Forall_app; try assumption;
    (split; [assumption|]); (constructor; [|constructor]).
  - shape_known.
  - right. left. cbn. repeat split. eexists. split; [reflexivity|].
    apply Math_min_not_above.
Qed.

Lemma cpm_step_shapes (a : analysis) :
  Forall notification_shape (notifications a) ->
  Forall notification_shape (notifications (cpm_step metrics a)).
Proof. intros H. unfold cpm_step. shapes. Qed.

Lemma frequency_step_shapes (a : analysis) :
  Forall notification_shape (notifications a) ->
  Forall notification_shape (notifications (frequency_step metrics a)).
Proof. intros H. unfold frequency_step. shapes. Qed.

Lemma roas_step_notifications (a : analysis) :
  notifications (roas_step metrics a) = notifications a.
Proof.
  unfold roas_step.
  repeat match goal with |- context [if ?b then _ else _] => destruct b end;
    reflexivity.
Qed.

End NotificationShapes.

(** X3: every notification of an analysis is one of four: the critical
    PAUSE_CAMPAIGN and the urgent REFRESH_CREATIVE, which require approval,
    the urgent REVIEW_TARGETING, and the INCREASE_BUDGET success alert,
    which requires none and whose suggested value is never above 200. *)
Theorem notifications_have_known_shapes (metrics : object)
    (context : option object) (n : notification) :
  In n (notifications (analyzeMetrics metrics context)) ->
  notification_shape n
  /\ (requiresApproval n = Some true <->
      suggestedAction n = "PAUSE_CAMPAIGN"
      \/ suggestedAction n = "REFRESH_CREATIVE")
  /\ (forall v, suggestedValue n = Some v ->
      suggestedAction n = "INCREASE_BUDGET" /\ requiresApproval n = None
      /\ gt v 200 = false).
Proof.
  intros Hin.
  assert (Forall notification_shape
            (notifications (analyzeMetrics metrics context))) as HF.
  { rewrite analyzeMetrics_unfold.
    destruct (final_status_fields (before_override metrics context))
      as (_ & _ & ->).
    unfold before_override. rewrite roas_step_notifications.
    apply frequency_step_shapes, cpm_step_shapes, ctr_step_shapes.
    constructor. }
  rewrite List.Forall_forall in HF. specialize (HF n Hin).
  split; [exact HF|].
  destruct HF as [H | [H | [H | H]]].
  - destruct H as (_ & Ha & Hs & Hv). rewrite Ha, Hs, Hv.
    split; [split; auto | discriminate].
  - destruct H as (_ & Ha & Hs & v & Hv & Hle). rewrite Ha, Hs, Hv.
    split; [split; [discriminate | intros [|]; discriminate]|].
    intros v' [= <-]. auto.
  - destruct H as (_ & Ha & Hs & Hv). rewrite Ha, Hs, Hv.
    split; [split; [discriminate | intros [|]; discriminate] | discriminate].
  - destruct H as (_ & Ha & Hs & Hv). rewrite Ha, Hs, Hv.
    split; [split; auto | discriminate].
Qed.

(** The theorem on the notification of a winner with a daily budget of 60. *)
Lemma notifications_have_known_shapes_witness :
  exists n,
    notifications (analyzeMetrics [("ctr", VNum 2.4)]
                     (Some [("campaignBudget", VStr "60")])) = [n]
    /\ suggestedAction n = "INCREASE_BUDGET"
    /\ suggestedValue n = Some 120%float
    /\ requiresApproval n = None.
Proof.
  eexists. split; [vm_compute; reflexivity|].
  destruct (notifications_have_known_shapes [("ctr", VNum 2.4)]
              (Some [("campaignBudget", VStr "60")])
              {| n_priority := SUCCESS;
                 n_message := "High performer alert: 2.40% CTR - Ready to scale";
                 requiresApproval := None;
                 suggestedAction := "INCREASE_BUDGET";
                 suggestedValue := Some 120%float |}) as (_ & _ & H).
  - vm_compute. left. reflexivity.
  - destruct (H 120%float eq_refl) as (H1 & H2 & _). auto.
Defined.

Section ContextEffect.

Variable metrics : object.

Lemma same_but_notifications_refl (a : analysis) : same_but_notifications a a.
Proof. unfold same_but_notifications. auto. Qed.

Ltac same_branches :=
  intros (Hi & Hr & Hs & Ht);
  repeat match goal with
         | |- context [if ?b then _ else _] => destruct b
         end;
  unfold same_but_notifications; cbn; rewrite ?Hi, ?Hr, ?Hs, ?Ht; auto.

Lemma ctr_step_context (context context' : object) (a : analysis) :
  same_but_notifications (ctr_step metrics context a)
    (ctr_step metrics context' a).
Proof.
  unfold ctr_step.
  destruct (lt _ THRESHOLDS.ctr.critical).
  { destruct (gt _ _); apply same_but_notifications_refl. }
  destruct (lt _ THRESHOLDS.ctr.average);
    [apply same_but_notifications_refl|].
  destruct (gt _ THRESHOLDS.ctr.good); [|apply same_but_notifications_refl].
  do 2 destruct (_ && _); unfold same_but_notifications; cbn; auto.
Qed.

Lemma cpm_step_same (a b : analysis) :
  same_but_notifications a b ->
  same_but_notifications (cpm_step metrics a) (cpm_step metrics b).
Proof. unfold cpm_step. same_branches. Qed.

Lemma frequency_step_same (a b : analysis) :
  same_but_notifications a b ->
  same_but_notifications (frequency_step metrics a) (frequency_step metrics b).
Proof. unfold frequency_step. same_branches. Qed.

Lemma roas_step_same (a b : analysis) :
  same_but_notifications a b ->
  same_but_notifications (roas_step metrics a) (roas_step metrics b).
Proof. unfold roas_step. same_branches. Qed.

Lemma final_status_same (a b : analysis) :
  same_but_notifications a b ->
  same_but_notifications (final_status a) (final_status b).
Proof.
  intros (Hi & Hr & Hs & Ht). unfold final_status. rewrite Hs.
  repeat match goal with |- context [if ?b then _ else _] => destruct b end;
    unfold same_but_notifications; cbn; auto.
Qed.

End ContextEffect.

(** X4: the context changes nothing but the notifications: issues,
    recommendations, score and status are those of the analysis without
    context; and it changes nothing at all unless the ctr is above the good
    threshold. *)
Theorem context_only_adds_notifications (metrics : object)
    (context : option object) :
  same_but_notifications (analyzeMetrics metrics context)
    (analyzeMetrics metrics None)
  /\ (gt (field_number metrics "ctr") THRESHOLDS.ctr.good = false ->
      analyzeMetrics metrics context = analyzeMetrics metrics None).
Proof.
  split.
  - unfold analyzeMetrics.
    apply final_status_same, roas_step_same, frequency_step_same,
      cpm_step_same, ctr_step_context.
  - intros H. unfold analyzeMetrics.
    assert (forall c, ctr_step metrics c initial_analysis
                      = ctr_step metrics [] initial_analysis) as E.
    { intros c. unfold ctr_step. rewrite H. reflexivity. }
    now rewrite (E (context_or_empty context)), (E (context_or_empty None)).
Qed.

(** ** detectSignificantChanges: state and events *)

(** X5: a call stores the current metrics under the campaign id with the
    time of the call and the prior ctr and cpm (none on a first
    observation), and leaves every other campaign as it was; a first
    observation returns null whatever the metrics. *)
Theorem detect_updates_one_campaign (now : Z) (campaignId : string)
    (currentMetrics : metrics) (st : gmap string campaign_state) :
  let r := detectSignificantChanges now campaignId currentMetrics st in
  snd r !! campaignId
    = Some {| current := currentMetrics; lastChecked := now;
              previousCtr := (fun p => ctr (current p)) <$> st !! campaignId;
              previousCpm := (fun p => cpm (current p)) <$> st !! campaignId |}
  /\ (forall other, other <> campaignId -> snd r !! other = st !! other)
  /\ (st !! campaignId = None -> fst r = None).
Proof.
  cbv zeta. unfold detectSignificantChanges.
  destruct (st !! campaignId) as [previous|]; cbn;
    rewrite lookup_insert_eq; (split; [reflexivity|]);
    (split; [|auto; discriminate]);
    intros other Ho; now rewrite lookup_insert_ne.
Qed.

Lemma emits_Some (l : list change) (t : change_type) :
  emits (Some l) t <-> exists e, In e l /\ c_type e = t.
Proof.
  unfold emits. split.
  - intros (events & e & [= <-] & H). eauto.
  - intros (e & H). eauto.
Qed.

Lemma emits_None (t : change_type) : ~ emits None t.
Proof. intros (? & ? & ? & _). discriminate. Qed.

(** X6: one call never reports both a CTR crash and a performance boost, so
    it reports at most two events; and it never returns an empty list. *)
Theorem crash_and_boost_exclude_each_other (now : Z) (campaignId : string)
    (currentMetrics : metrics) (st : gmap string campaign_state) :
  let result := fst (detectSignificantChanges now campaignId currentMetrics st) in
  ~ (emits result CTR_CRASH /\ emits result PERFORMANCE_BOOST)
  /\ result <> Some []
  /\ (forall events, result = Some events ->
      (1 <= List.length events <= 2)%nat).
Proof.
  cbv zeta.
  destruct (st !! campaignId) as [previous|] eqn:Hst.
  2:{ rewrite (detect_unknown _ _ _ _ Hst).
      split; [intros [H _]; now apply emits_None in H|].
      split; [discriminate|]. intros ? [=]. }
  rewrite (detect_known _ _ _ _ _ Hst).
  unfold changes_of, ctr_crash, cpm_spike, performance_boost.
  set (c := ctrChange (current previous) currentMetrics).
  assert (lt c (-30) = true -> gt c 50 = false) as Hex
    by (apply (lt_negative_not_gt_positive c (-30) 50 _ _ _ _ eq_refl eq_refl)).
  destruct (lt c (-30)) eqn:E1; [rewrite (Hex eq_refl)|]; cbn [andb];
    repeat match goal with
           | |- context [if ?b then _ else _] => destruct b
           end; cbn;
    (split; [|split; [discriminate | intros events [= <-]; cbn; lia]]);
    try (intros [H _]; now apply emits_None in H);
    rewrite !emits_Some; cbn;
    intros [(e1 & Hi1 & Ht1) (e2 & Hi2 & Ht2)];
    repeat match goal with
           | H : _ \/ _ |- _ => destruct H
           | H : False |- _ => destruct H
           end; subst; discriminate.
Qed.

(** ** Approvals: creation, resolution and the state machine *)

Section ApprovalIds.

Lemma string_of_Z_inj (a b : Z) :
  0 <= a -> 0 <= b -> string_of_Z a = string_of_Z b -> a = b.
Proof.
  intros Ha Hb H. unfold string_of_Z in H.
  assert (forall n, N.to_uint n <> Decimal.Nil) as Hnil.
  { intros [|p]; [discriminate | apply DecimalPos.Unsigned.to_uint_nonnil]. }
  pose proof (NilZero.usu _ (Hnil (Z.to_N a))) as Ea.
  pose proof (NilZero.usu _ (Hnil (Z.to_N b))) as Eb.
  rewrite H, Eb in Ea. injection Ea as Ea.
  apply DecimalN.Unsigned.to_uint_inj in Ea. lia.
Qed.

End ApprovalIds.

Section ApprovalMachine.

Import Approvals.



Lemma resolved_from_set (s : approval_status) (a : approval) :
  status a = pending -> s <> pending ->
  resolved_from a (set_approval_status s a).
Proof. intros H Hs. right. cbn. repeat split; auto. Qed.

Lemma resolved_from_processed (s : approval_status) (t : Z) (a : approval) :
  status a = pending -> s <> pending ->
  resolved_from a (set_processedAt t (set_approval_status s a)).
Proof. intros H Hs. right. cbn. repeat split; auto. Qed.

Lemma approval_status_eqb_pending (s : approval_status) :
  approval_status_eqb s pending = true <-> s = pending.
Proof. destruct s; cbn; split; congruence. Qed.

End ApprovalMachine.

(** X7: resolving never creates or deletes an approval and touches no other
    approval than the one named; that one can only leave the pending status,
    and keeps its action, data, creation and expiry times. *)
Theorem resolution_only_closes_pending (update : string -> option string)
    (now : Z) (approvalId action : option string)
    (approvals : gmap string Approvals.approval) (k : string) :
  let approvals' :=
    snd (Approvals.process_approval_try update now approvalId action approvals) in
  match approvals !! k, approvals' !! k with
  | None, None => True
  | Some a, Some a' =>
      resolved_from a a' /\ (a' <> a -> approvalId = Some k)
  | _, _ => False
  end.
Proof.
  cbv zeta. unfold Approvals.process_approval_try.
  assert (match approvals !! k, approvals !! k with
          | None, None => True
          | Some a, Some a' =>
              resolved_from a a' /\ (a' <> a -> approvalId = Some k)
          | _, _ => False
          end) as Hsame.
  { destruct (approvals !! k); [|exact I].
    split; [now left | congruence]. }
  destruct approvalId as [id|], (option_map Approvals.toUpperCase action)
    as [act|]; cbn [snd]; try exact Hsame.
  destruct (_ || _); [exact Hsame|].
  destruct (approvals !! id) as [a|] eqn:Hid; [|exact Hsame].
  destruct (Approvals.approval_status_eqb (Approvals.status a)
              Approvals.pending) eqn:Hst; cbn [negb]; [|exact Hsame].
  apply approval_status_eqb_pending in Hst.
  assert (forall a', resolved_from a a' ->
            match approvals !! k, <[id := a']> approvals !! k with
            | None, None => True
            | Some a0, Some a0' =>
                resolved_from a0 a0' /\ (a0' <> a0 -> Some id = Some k)
            | _, _ => False
            end) as Hins.
  { intros a' Ha'. destruct (decide (id = k)) as [->|Hne].
    - rewrite lookup_insert_eq, Hid. auto.
    - rewrite lookup_insert_ne by assumption.
      destruct (approvals !! k); [|exact I].
      split; [now left | congruence]. }
  destruct (now >? Approvals.expiresAt a).
  { apply Hins, resolved_from_set; [assumption | discriminate]. }
  destruct (String.eqb act "APPROVE").
  { cbn [snd]. apply Hins, resolved_from_processed;
      [assumption | discriminate]. }
  destruct (String.eqb act "REJECT"); cbn [snd]; [|exact Hsame].
  apply Hins, resolved_from_processed; [assumption | discriminate].
Qed.

(** X8: a request is stored pending under the identifier it returns, expires
    two hours after its creation and leaves the other approvals alone.  The
    identifier is "APR" followed by the time: two requests get the same
    identifier exactly when they are made in the same millisecond, and then
    the second one replaces the first in the map. *)
Theorem request_identifiers (now : Z) (action : string)
    (data : Approvals.approval_data)
    (approvals : gmap string Approvals.approval) :
  let r := Approvals.createApprovalRequest now action data approvals in
  let id := Approvals.approvalId (fst r) in
  snd r !! id
    = Some {| Approvals.action := action; Approvals.data := data;
              Approvals.createdAt := now;
              Approvals.expiresAt := now + 7200000;
              Approvals.status := Approvals.pending;
              Approvals.processedAt := None |}
  /\ Approvals.request_expiresAt (fst r) = now + 7200000
  /\ id <> ""
  /\ (forall other, other <> id -> snd r !! other = approvals !! other)
  /\ (forall now' action' data' approvals',
        0 <= now -> 0 <= now' ->
        (Approvals.approvalId
           (fst (Approvals.createApprovalRequest now' action' data' approvals'))
         = id <-> now' = now))
  /\ (forall action' data',
        let r' := Approvals.createApprovalRequest now action' data' (snd r) in
        Approvals.action <$> (snd r' !! id) = Some action'
        /\ Approvals.data <$> (snd r' !! id) = Some data'
        /\ dom (snd r') = dom (snd r)).
Proof.
  cbv zeta. unfold Approvals.createApprovalRequest. cbn [fst snd Approvals.approvalId
    Approvals.request_expiresAt].
  split; [now rewrite lookup_insert_eq|]. split; [reflexivity|].
  split; [discriminate|].
  split; [intros other Ho; now rewrite lookup_insert_ne|].
  split.
  - intros now' action' data' approvals' Hnow Hnow'.
    split; [|now intros ->].
    intros E. apply string_of_Z_inj; [assumption..|].
    now injection E.
  - intros action' data'. rewrite lookup_insert_eq. cbn.
    split; [reflexivity|]. split; [reflexivity|].
    now rewrite insert_insert_eq, !dom_insert_L.
Qed.

(** X9: a request followed by an approval or a rejection of its identifier:
    resolved within two hours of the creation, the two-hour instant
    included, the approval gets the decided status and the time of the
    decision; resolved later it is marked expired, whatever the decision. *)
Theorem request_then_decision (update : string -> option string)
    (created decided : Z) (action decision : string)
    (data : Approvals.approval_data)
    (approvals : gmap string Approvals.approval) :
  Approvals.toUpperCase decision = "APPROVE"
  \/ Approvals.toUpperCase decision = "REJECT" ->
  let request :=
    Approvals.createApprovalRequest created action data approvals in
  let id := Approvals.approvalId (fst request) in
  let resolved :=
    snd (Approvals.process_approval_try update decided (Some id)
           (Some decision) (snd request)) in
  (decided <= created + 7200000 ->
   Approvals.status <$> (resolved !! id)
     = Some (if String.eqb (Approvals.toUpperCase decision) "APPROVE"
             then Approvals.approved else Approvals.rejected)
   /\ Approvals.processedAt <$> (resolved !! id) = Some (Some decided))
  /\ (decided > created + 7200000 ->
      Approvals.status <$> (resolved !! id) = Some Approvals.expired
      /\ Approvals.processedAt <$> (resolved !! id) = Some None).
Proof.
  intros Hd. cbv zeta.
  unfold Approvals.createApprovalRequest, Approvals.process_approval_try.
  cbn [fst snd Approvals.approvalId option_map].
  assert (String.eqb (Approvals.toUpperCase decision) "" = false) as ->
    by (destruct Hd as [-> | ->]; reflexivity).
  change (String.eqb ("APR" ++ string_of_Z created) "") with false.
  cbn [orb]. rewrite lookup_insert_eq.
  cbn [Approvals.status Approvals.approval_status_eqb negb Approvals.expiresAt
       Approvals.action].
  change (2 * 60 * 60 * 1000) with 7200000.
  destruct (Z.gtb_spec decided (created + 7200000)) as [Hgt|Hle].
  - split; [lia|]. intros _. cbn [snd]. now rewrite lookup_insert_eq.
  - split; [|lia]. intros _.
    destruct Hd as [-> | ->]; cbn [String.eqb Ascii.eqb Bool.eqb].
    + destruct (String.eqb action "PAUSE_CAMPAIGNS"); cbn [snd];
        now rewrite lookup_insert_eq.
    + cbn [snd]. now rewrite lookup_insert_eq.
Qed.

(** The theorem on a request made at time 1000 and rejected exactly two
    hours later. *)
Lemma request_then_decision_witness :
  let request :=
    Approvals.createApprovalRequest 1000 "PAUSE_CAMPAIGNS"
      {| Approvals.campaigns := []; Approvals.estimatedSavings := "0.00" |} ∅ in
  Approvals.status <$>
    (snd (Approvals.process_approval_try (fun _ => None) 7201000
            (Some "APR1000") (Some "reject") (snd request)) !! "APR1000")
  = Some Approvals.rejected.
Proof.
  cbv zeta.
  destruct (request_then_decision (fun _ => None) 1000 7201000
              "PAUSE_CAMPAIGNS" "reject"
              {| Approvals.campaigns := []; Approvals.estimatedSavings := "0.00" |}
              ∅ (or_intror eq_refl)) as [H _].
  destruct (H ltac:(lia)) as [H1 _]. exact H1.
Defined.

(** X10: only an approval reaches the collaborator: with any other decision
    word, and for an approval that is unknown, already processed, expired or
    not a PAUSE_CAMPAIGNS request, the outcome and the map do not depend on
    what updating a campaign would do. *)
Theorem only_approval_calls_the_collaborator
    (update update' : string -> option string) (now : Z)
    (approvalId action : option string)
    (approvals : gmap string Approvals.approval) :
  option_map Approvals.toUpperCase action <> Some "APPROVE"
  \/ (forall id a, approvalId = Some id -> approvals !! id = Some a ->
        Approvals.status a <> Approvals.pending
        \/ now > Approvals.expiresAt a
        \/ Approvals.action a <> "PAUSE_CAMPAIGNS") ->
  Approvals.process_approval_try update now approvalId action approvals
  = Approvals.process_approval_try update' now approvalId action approvals.
Proof.
  intros H. unfold Approvals.process_approval_try.
  destruct approvalId as [id|], (option_map Approvals.toUpperCase action)
    as [act|]; try reflexivity.
  destruct (_ || _); [reflexivity|].
  destruct (approvals !! id) as [a|] eqn:Hid; [|reflexivity].
  destruct (Approvals.approval_status_eqb (Approvals.status a)
              Approvals.pending) eqn:Hst; cbn [negb]; [|reflexivity].
  apply approval_status_eqb_pending in Hst.
  destruct (Z.gtb_spec now (Approvals.expiresAt a)) as [Hgt|Hle];
    [reflexivity|].
  destruct (String.eqb_spec act "APPROVE") as [->|Hact]; [|reflexivity].
  destruct (String.eqb_spec (Approvals.action a) "PAUSE_CAMPAIGNS")
    as [Hp|Hp]; [|reflexivity].
  destruct H as [H | H]; [congruence|].
  destruct (H id a eq_refl Hid) as [H' | [H' | H']]; [congruence | lia | congruence].
Qed.

(** The theorem on a rejection. *)
Lemma only_approval_calls_the_collaborator_witness :
  Approvals.process_approval_try (fun _ => None) 5 (Some "APR1")
    (Some "reject") ∅
  = Approvals.process_approval_try (fun _ => Some "network error") 5
      (Some "APR1") (Some "reject") ∅.
Proof.
  apply only_approval_calls_the_collaborator. left. discriminate.
Defined.

Section PauseResults.

Import Approvals.

Lemma filter_partition_length {A : Type} (f : A -> bool) (l : list A) :
  (List.length (List.filter f l)
   + List.length (List.filter (fun x => negb (f x)) l))%nat
  = List.length l.
Proof.
  induction l as [|x l IH]; [reflexivity|].
  cbn. destruct (f x); cbn; lia.
Qed.

Lemma pause_campaigns_ids (update : string -> option string)
    (l : list campaign_ref) :
  List.map campaignId (pause_campaigns update l) = List.map id l.
Proof.
  unfold pause_campaigns. rewrite List.map_map.
  apply List.map_ext. intros c. now destruct (update (id c)).
Qed.

Lemma pause_campaigns_success (update : string -> option string)
    (l : list campaign_ref) (x : pause_result) :
  In x (pause_campaigns update l) ->
  (success x = true <-> update (campaignId x) = None)
  /\ result_error x = update (campaignId x)
  /\ result_status x = (if success x then "PAUSED" else "FAILED").
Proof.
  unfold pause_campaigns. rewrite in_map_iff. intros (c & <- & _).
  destruct (update (id c)) eqn:E; cbn; rewrite E; repeat split;
    congruence.
Qed.

End PauseResults.

(** X11: approving a pending, unexpired PAUSE_CAMPAIGNS request updates the
    campaigns of the request in their order, one result each: a result is a
    success exactly when the update of its campaign did not fail, and a
    failure carries the error.  The paused and the failed ones add up to the
    number requested, and the approval becomes approved even when updates
    failed. *)
Theorem approval_pauses_each_campaign (update : string -> option string)
    (now : Z) (approvalId decision : string)
    (approvals : gmap string Approvals.approval) (a : Approvals.approval) :
  approvalId <> "" ->
  Approvals.toUpperCase decision = "APPROVE" ->
  approvals !! approvalId = Some a ->
  Approvals.status a = Approvals.pending ->
  now <= Approvals.expiresAt a ->
  Approvals.action a = "PAUSE_CAMPAIGNS" ->
  exists r s,
    Approvals.process_approval_try update now (Some approvalId)
      (Some decision) approvals
    = (Returned (Approvals.Response r),
       <[approvalId := Approvals.set_processedAt now
                         (Approvals.set_approval_status Approvals.approved a)]>
         approvals)
    /\ List.map Approvals.campaignId (Approvals.results r)
       = List.map Approvals.id (Approvals.campaigns (Approvals.data a))
    /\ (forall x, In x (Approvals.results r) ->
        (Approvals.success x = true <-> update (Approvals.campaignId x) = None)
        /\ Approvals.result_error x = update (Approvals.campaignId x)
        /\ Approvals.result_status x
           = (if Approvals.success x then "PAUSED" else "FAILED"))
    /\ Approvals.response_summary r = Some s
    /\ Approvals.totalRequested s
       = List.length (Approvals.campaigns (Approvals.data a))
    /\ (Approvals.successfullyPaused s + Approvals.failed s)%nat
       = Approvals.totalRequested s.
Proof.
  intros Hid Hdec Hlook Hst Hnow Hact.
  unfold Approvals.process_approval_try. cbn [option_map].
  rewrite Hdec. destruct (String.eqb_spec approvalId ""); [contradiction|].
  cbn [orb String.eqb]. rewrite Hlook, Hst. cbn [Approvals.approval_status_eqb negb].
  destruct (Z.gtb_spec now (Approvals.expiresAt a)); [lia|].
  rewrite Hact. cbn [String.eqb Ascii.eqb Bool.eqb].
  eexists. eexists. split; [reflexivity|].
  cbn [Approvals.results Approvals.response_summary Approvals.totalRequested
       Approvals.successfullyPaused Approvals.failed].
  split; [apply pause_campaigns_ids|].
  split; [apply pause_campaigns_success|].
  split; [reflexivity|].
  cbn [Approvals.totalRequested Approvals.successfullyPaused Approvals.failed].
  split; [reflexivity|].
  rewrite filter_partition_length. unfold Approvals.pause_campaigns.
  apply List.length_map.
Qed.

(** The theorem on a request for two campaigns, the second of which cannot
    be updated. *)
Lemma approval_pauses_each_campaign_witness :
  let a := {| Approvals.action := "PAUSE_CAMPAIGNS";
              Approvals.data :=
                {| Approvals.campaigns :=
                     [{| Approvals.id := "c1"; Approvals.name := "One" |};
                      {| Approvals.id := "c2"; Approvals.name := "Two" |}];
                   Approvals.estimatedSavings := "30.00" |};
              Approvals.createdAt := 0; Approvals.expiresAt := 7200000;
              Approvals.status := Approvals.pending;
              Approvals.processedAt := None |} in
  let update c := if String.eqb c "c2" then Some "(#100) Invalid parameter"
                  else None in
  exists r,
    fst (Approvals.process_approval_try update 5000 (Some "APR0")
           (Some "approve") {[ "APR0" := a ]})
    = Returned (Approvals.Response r)
    /\ List.map Approvals.success (Approvals.results r) = [true; false].
Proof.
  cbv zeta.
  edestruct (approval_pauses_each_campaign
               (fun c => if String.eqb c "c2"
                         then Some "(#100) Invalid parameter" else None)
               5000 "APR0" "approve"
               {[ "APR0" :=
                    {| Approvals.action := "PAUSE_CAMPAIGNS";
                       Approvals.data :=
                         {| Approvals.campaigns :=
                              [{| Approvals.id := "c1";
                                  Approvals.name := "One" |};
                               {| Approvals.id := "c2";
                                  Approvals.name := "Two" |}];
                            Approvals.estimatedSavings := "30.00" |};
                       Approvals.createdAt := 0;
                       Approvals.expiresAt := 7200000;
                       Approvals.status := Approvals.pending;
                       Approvals.processedAt := None |} ]})
    as (r & s & H & _);
    [ discriminate | reflexivity | apply lookup_singleton_eq | reflexivity
    | cbn; lia | reflexivity | ].
  exists r. rewrite H. split; [reflexivity|].
  vm_compute in H. injection H as <-. reflexivity.
Defined.


(** X13: an unknown identifier is answered "Approval not found or expired"
    and an approval that is no longer pending "Approval already processed"
    with its status, also after its expiry time (the status is tested
    first); both leave the map as it is. *)
Theorem unknown_and_processed_approvals (update : string -> option string)
    (now : Z) (approvalId decision : string)
    (approvals : gmap string Approvals.approval) :
  approvalId <> "" -> decision <> "" ->
  let r := Approvals.process_approval_try update now (Some approvalId)
             (Some decision) approvals in
  (approvals !! approvalId = None ->
   r = (Returned (Approvals.Error
          {| Approvals.error := "Approval not found or expired";
             Approvals.error_approvalId := Some approvalId;
             Approvals.error_status := None; Approvals.expiredAt := None;
             Approvals.tool := None |}), approvals))
  /\ (forall a, approvals !! approvalId = Some a ->
      Approvals.status a <> Approvals.pending ->
      r = (Returned (Approvals.Error
             {| Approvals.error := "Approval already processed";
                Approvals.error_approvalId := Some approvalId;
                Approvals.error_status := Some (Approvals.status a);
                Approvals.expiredAt := None; Approvals.tool := None |}),
           approvals)).
Proof.
  intros Hid Hdec. cbv zeta. unfold Approvals.process_approval_try.
  cbn [option_map].
  destruct (String.eqb_spec approvalId ""); [contradiction|].
  destruct (String.eqb_spec (Approvals.toUpperCase decision) "") as [E|_];
    [now apply toUpperCase_nonempty in E|].
  cbn [orb]. split.
  - now intros ->.
  - intros a -> Hst.
    destruct (Approvals.approval_status_eqb (Approvals.status a)
                Approvals.pending) eqn:E; [|reflexivity].
    now apply approval_status_eqb_pending in E.
Qed.

(** The theorem on an approval rejected twice, the second time after its
    expiry. *)
Lemma unknown_and_processed_approvals_witness :
  let created :=
    snd (Approvals.createApprovalRequest 0 "PAUSE_CAMPAIGNS"
           {| Approvals.campaigns := [];
              Approvals.estimatedSavings := "0.00" |} ∅) in
  let once :=
    snd (Approvals.process_approval_try (fun _ => None) 1000 (Some "APR0")
           (Some "REJECT") created) in
  exists e,
    fst (Approvals.process_approval_try (fun _ => None) 9000000 (Some "APR0")
           (Some "APPROVE") once) = Returned (Approvals.Error e)
    /\ Approvals.error e = "Approval already processed"
    /\ Approvals.error_status e = Some Approvals.rejected.
Proof.
  cbv zeta.
  edestruct (unknown_and_processed_approvals (fun _ => None) 9000000 "APR0"
               "APPROVE"
               (snd (Approvals.process_approval_try (fun _ => None) 1000
                       (Some "APR0") (Some "REJECT")
                       (snd (Approvals.createApprovalRequest 0
                               "PAUSE_CAMPAIGNS"
                               {| Approvals.campaigns := [];
                                  Approvals.estimatedSavings := "0.00" |} ∅)))))
    as [_ H]; [discriminate | discriminate |].
  eexists.
  rewrite (H {| Approvals.action := "PAUSE_CAMPAIGNS";
                Approvals.data := {| Approvals.campaigns := [];
                                     Approvals.estimatedSavings := "0.00" |};
                Approvals.createdAt := 0; Approvals.expiresAt := 7200000;
                Approvals.status := Approvals.rejected;
                Approvals.processedAt := Some 1000 |}).
  - split; [reflexivity|]. split; reflexivity.
  - vm_compute. reflexivity.
  - discriminate.
Defined.



(** X15: with a state file that can be written the handler never throws:
    every error of its try block, missing arguments included, comes back as
    a payload naming the tool.  Whatever happens, the campaign state it
    leaves in memory is what it loaded from the file, the empty state when
    the file could not be read. *)
Theorem process_approval_returns_a_payload (disk : fs)
    (update : string -> option string) (now : Z)
    (approvalId action : option string) (s : Approvals.server) :
  let r := Approvals.process_approval disk update now approvalId action s in
  Approvals.campaignState (snd r) = loadState disk
  /\ (readFile disk = None -> Approvals.campaignState (snd r) = ∅)
  /\ (writeFile disk (loadState disk) = None ->
      (exists p, fst r = Returned p)
      /\ (approvalId = None \/ approvalId = Some "" \/ action = None
          \/ action = Some "" ->
          fst r = Returned (Approvals.tool_error "process_approval"
                              "Approval ID and action are required")
          /\ Approvals.pendingApprovals (snd r)
             = Approvals.pendingApprovals s)).
Proof.
  cbv zeta. unfold Approvals.process_approval.
  destruct (Approvals.process_approval_try update now approvalId action
              (Approvals.pendingApprovals s)) as [completion approvals] eqn:E.
  cbn [fst snd Approvals.campaignState Approvals.pendingApprovals].
  split; [reflexivity|].
  split; [intros H; unfold loadState; now rewrite H|].
  intros Hw. unfold saveState. rewrite Hw. cbn [try_catch_finally].
  split; [destruct completion; eauto|].
  intros Hmissing.
  assert (Approvals.process_approval_try update now approvalId action
            (Approvals.pendingApprovals s)
          = (Thrown "Approval ID and action are required",
             Approvals.pendingApprovals s)) as E'.
  { unfold Approvals.process_approval_try.
    destruct Hmissing as [-> | [-> | [-> | ->]]]; cbn [option_map].
    - reflexivity.
    - destruct action; reflexivity.
    - now destruct approvalId.
    - destruct approvalId as [i|]; [|reflexivity].
      cbn. now rewrite orb_true_r. }
  rewrite E' in E. injection E as <- <-. auto.
Qed.

(** The theorem on a call without decision. *)
Lemma process_approval_returns_a_payload_witness :
  fst (Approvals.process_approval
         {| readFile := None; writeFile := fun _ => None |} (fun _ => None) 0
         (Some "APR0") None
         {| Approvals.campaignState := ∅; Approvals.pendingApprovals := ∅ |})
  = Returned (Approvals.tool_error "process_approval"
                "Approval ID and action are required").
Proof.
  destruct (process_approval_returns_a_payload
              {| readFile := None; writeFile := fun _ => None |}
              (fun _ => None) 0 (Some "APR0") None
              {| Approvals.campaignState := ∅;
                 Approvals.pendingApprovals := ∅ |}) as (_ & _ & H).
  destruct (H eq_refl) as [_ H'].
  destruct H' as [H' _]; [right; right; left; reflexivity | exact H'].
Defined.

(** ** formatWhatsAppMessage and analyze_campaign *)

(** X16: every message starts with the header, the glyph of the priority
    followed by " *Facebook Ads Alert*" and an empty line.  Each of the five
    priorities has a glyph of its own in the table, so that the fallback
    glyph stands for a missing priority only.  A type that is not one of the
    three known gives the header alone, and the only failure is a campaign
    alert without its metrics object. *)
Theorem message_starts_with_header (d : WhatsApp.data) (type : string) :
  (forall text, WhatsApp.formatWhatsAppMessage d type = Returned text ->
     exists body, text = WhatsApp.header d ++ body)
  /\ (type <> "performance_summary" -> type <> "approval_request" ->
      type <> "campaign_alert" ->
      WhatsApp.formatWhatsAppMessage d type = Returned (WhatsApp.header d))
  /\ (forall e, WhatsApp.formatWhatsAppMessage d type = Thrown e ->
      type = "campaign_alert" /\ WhatsApp.metrics d = None)
  /\ (forall p, WhatsApp.priority d = Some p ->
      exists glyph,
        WhatsApp.emoji (NOTIFICATION_PRIORITY p) = VStr glyph
        /\ glyph <> "📊"
        /\ (forall q, WhatsApp.emoji (NOTIFICATION_PRIORITY q) = VStr glyph ->
            q = p)
        /\ WhatsApp.header d = glyph ++ " *Facebook Ads Alert*" ++ nl ++ nl)
  /\ (WhatsApp.priority d = None ->
      WhatsApp.header d = "📊 *Facebook Ads Alert*" ++ nl ++ nl).
Proof.
  assert (forall x : string, x = String.append x "") as Hnil
    by (induction x as [|c x IH];
        [reflexivity
        | change (String c x = String c (String.append x "")); f_equal;
          exact IH]).
  unfold WhatsApp.formatWhatsAppMessage.
  split; [|split; [|split; [|split]]].
  - intros text.
    destruct (String.eqb type "performance_summary");
      [intros [= <-]; eauto|].
    destruct (String.eqb type "approval_request"); [intros [= <-]; eauto|].
    destruct (String.eqb type "campaign_alert").
    + destruct (WhatsApp.metrics d); [intros [= <-]; eauto | discriminate].
    + intros [= <-]. exists "". apply Hnil.
  - intros H1 H2 H3.
    destruct (String.eqb_spec type "performance_summary"); [contradiction|].
    destruct (String.eqb_spec type "approval_request"); [contradiction|].
    destruct (String.eqb_spec type "campaign_alert"); [contradiction|].
    reflexivity.
  - intros e.
    destruct (String.eqb type "performance_summary"); [discriminate|].
    destruct (String.eqb type "approval_request"); [discriminate|].
    destruct (String.eqb_spec type "campaign_alert"); [|discriminate].
    destruct (WhatsApp.metrics d); [discriminate | auto].
  - intros p Hp. unfold WhatsApp.header, WhatsApp.priority_key. rewrite Hp.
    destruct p; eexists; (split; [reflexivity|]); (split; [discriminate|]);
      (split; [intros []; (reflexivity || discriminate) | reflexivity]).
  - intros Hp. unfold WhatsApp.header, WhatsApp.priority_key.
    now rewrite Hp.
Qed.

Section AlertSelection.

Import AnalyzeCampaign.

Lemma fired_iff (l : list change) (t : change_type) :
  (exists e, In e l /\ c_type e = t)
  <-> existsb (fun e => change_type_eqb (c_type e) t) l = true.
Proof.
  rewrite existsb_exists. split; intros (e & Hin & H); exists e;
    (split; [assumption|]); destruct (c_type e), t; cbn in *; congruence.
Qed.

(** The event the alert reports, by the tests that fired: the crash if any,
    otherwise the boost if any, otherwise the spike. *)
Lemma mostUrgentChange_of_changes (previous currentMetrics : metrics)
    (first : change) (rest : list change) :
  changes_of previous currentMetrics = first :: rest ->
  let u := mostUrgentChange first rest in
  let fired t :=
    exists e, In e (first :: rest) /\ c_type e = t in
  In u (first :: rest)
  /\ (c_type u = CTR_CRASH <-> fired CTR_CRASH)
  /\ (c_type u = PERFORMANCE_BOOST <->
      ~ fired CTR_CRASH /\ fired PERFORMANCE_BOOST)
  /\ (c_type u = CPM_SPIKE <->
      ~ fired CTR_CRASH /\ ~ fired PERFORMANCE_BOOST)
  /\ c_priority u
     = match c_type u with
       | CTR_CRASH => CRITICAL
       | CPM_SPIKE => URGENT
       | PERFORMANCE_BOOST => SUCCESS
       end.
Proof.
  cbv zeta. rewrite !fired_iff.
  unfold changes_of, ctr_crash, cpm_spike, performance_boost.
  repeat match goal with
         | |- context [if ?b then _ else _] => destruct b
         end; cbn [app]; intros [= <- <-];
    unfold mostUrgentChange; cbn;
    intuition congruence.
Qed.

End AlertSelection.

Section AnalyzeCampaignFacts.

Import AnalyzeCampaign.

(** What a report says about the call that produced it. *)
Lemma analyze_campaign_try_report (disk : fs) (now : Z)
    (read : outcome object) (getInsights getAdSets : outcome (list object))
    (campaignId : option string) (st st' : gmap string campaign_state)
    (r : report) :
  analyze_campaign_try disk now read getInsights getAdSets campaignId st
  = (Returned (Report r), st') ->
  exists id campaignData insights adSets,
    campaignId = Some id /\ id <> ""
    /\ read = Returned campaignData
    /\ getInsights = Returned insights
    /\ getAdSets = Returned adSets
    /\ (let metrics := first_insights insights in
        let detected :=
          detectSignificantChanges now id (parsed_metrics metrics) st in
        changes r = fst detected /\ st' = snd detected
        /\ campaign_alert campaignData metrics (fst detected)
           = Returned (whatsappNotification r)
        /\ r_analysis r = campaign_analysis campaignData metrics
        /\ AnalyzeCampaign.id (campaign r) = id).
Proof.
  unfold analyze_campaign_try.
  destruct campaignId as [id|]; [|discriminate].
  destruct (String.eqb_spec id ""); [discriminate|].
  destruct read as [campaignData|]; [|discriminate].
  destruct getInsights as [insights|]; [|discriminate].
  destruct getAdSets as [adSets|]; [|discriminate].
  destruct (detectSignificantChanges now id _ st) as [ch st1] eqn:Ed.
  destruct (campaign_alert campaignData _ ch) as [al|] eqn:En; [|discriminate].
  destruct (saveState disk st1); [|discriminate].
  intros [= <- <-]. exists id, campaignData, insights, adSets.
  cbv zeta. rewrite Ed. cbn. auto 10.
Qed.

Lemma campaign_alert_None (campaignData metrics : object) :
  campaign_alert campaignData metrics None = Returned None.
Proof. reflexivity. Qed.

Lemma campaign_alert_Some (campaignData metrics : object)
    (first : change) (rest : list change) :
  exists a,
    campaign_alert campaignData metrics (Some (first :: rest))
    = Returned (Some a)
    /\ alert_type a = "campaign_alert"
    /\ alert_priority a = c_priority (mostUrgentChange first rest).
Proof. unfold campaign_alert. cbn. eexists. split; [reflexivity|]. auto. Qed.

End AnalyzeCampaignFacts.

(** X17: the report of analyze_campaign carries an alert exactly when
    changes were detected, never on the first analysis of a campaign.  The
    alert is the one of the CTR crash when there is one (priority
    critical); otherwise of the performance boost when there is one
    (priority success), also when a CPM spike, of priority urgent, was
    detected with it; otherwise of the CPM spike. *)
Theorem alert_reports_crash_then_boost (disk : fs) (now : Z)
    (read : outcome object) (getInsights getAdSets : outcome (list object))
    (campaignId : option string) (st st' : gmap string campaign_state)
    (r : AnalyzeCampaign.report) :
  AnalyzeCampaign.analyze_campaign_try disk now read getInsights getAdSets
    campaignId st = (Returned (AnalyzeCampaign.Report r), st') ->
  (AnalyzeCampaign.whatsappNotification r = None
   <-> AnalyzeCampaign.changes r = None)
  /\ (forall id, campaignId = Some id -> st !! id = None ->
      AnalyzeCampaign.changes r = None)
  /\ (forall a, AnalyzeCampaign.whatsappNotification r = Some a ->
      AnalyzeCampaign.alert_type a = "campaign_alert"
      /\ (AnalyzeCampaign.alert_priority a = CRITICAL
          <-> emits (AnalyzeCampaign.changes r) CTR_CRASH)
      /\ (AnalyzeCampaign.alert_priority a = SUCCESS
          <-> ~ emits (AnalyzeCampaign.changes r) CTR_CRASH
              /\ emits (AnalyzeCampaign.changes r) PERFORMANCE_BOOST)
      /\ (AnalyzeCampaign.alert_priority a = URGENT
          <-> ~ emits (AnalyzeCampaign.changes r) CTR_CRASH
              /\ ~ emits (AnalyzeCampaign.changes r) PERFORMANCE_BOOST)).
Proof.
  intros H.
  destruct (analyze_campaign_try_report _ _ _ _ _ _ _ _ _ H)
    as (id & campaignData & insights & adSets & -> & Hid & _ & _ & _ & Hr).
  cbv zeta in Hr. destruct Hr as (Hch & _ & Hal & _).
  rewrite <- Hch in Hal.
  assert (forall id', Some id = Some id' -> st !! id' = None ->
            AnalyzeCampaign.changes r = None) as Hfirst.
  { intros id' [= <-] Hnone. rewrite Hch. now apply detect_unknown. }
  destruct (AnalyzeCampaign.changes r) as [[|first rest]|] eqn:Ec.
  - (* an empty list is never returned *)
    exfalso. destruct (st !! id) as [previous|] eqn:Hst.
    + rewrite (detect_known _ _ _ _ _ Hst) in Hch.
      destruct (changes_of _ _); discriminate.
    + now rewrite (detect_unknown _ _ _ _ Hst) in Hch.
  - destruct (campaign_alert_Some campaignData (AnalyzeCampaign.first_insights insights)
                first rest) as (a & Ha & Ht & Hp).
    rewrite Ha in Hal. injection Hal as Hal.
    split; [rewrite <- Hal; split; discriminate|].
    split; [exact Hfirst|].
    intros a' Ha'. rewrite <- Hal in Ha'. injection Ha' as <-.
    split; [exact Ht|]. rewrite Hp.
    destruct (st !! id) as [previous|] eqn:Hst;
      [|now rewrite (detect_unknown _ _ _ _ Hst) in Hch].
    rewrite (detect_known _ _ _ _ _ Hst) in Hch.
    assert (changes_of (current previous)
              (AnalyzeCampaign.parsed_metrics
                 (AnalyzeCampaign.first_insights insights)) = first :: rest)
      as Hl by (destruct (changes_of _ _); congruence).
    destruct (mostUrgentChange_of_changes _ _ _ _ Hl)
      as (_ & H1 & H2 & H3 & H4).
    cbv zeta in *. rewrite !emits_Some. rewrite H4.
    destruct (c_type (AnalyzeCampaign.mostUrgentChange first rest));
      intuition congruence.
  - cbn in Hal. injection Hal as <-.
    split; [split; reflexivity|]. split; [exact Hfirst|]. discriminate.
Qed.

(** The theorem on a second analysis where the ctr went from 1 to 3 and the
    cpm from 20 to 80: spike and boost are detected, the alert is the
    boost's. *)
Lemma alert_reports_crash_then_boost_witness :
  let st : gmap string campaign_state :=
    {[ "c1" := {| current := {| ctr := 1; cpm := 20; spend := 5;
                                 frequency := 1 |};
                   lastChecked := 0; previousCtr := None;
                   previousCpm := None |} ]} in
  let result :=
    AnalyzeCampaign.analyze_campaign_try
      {| readFile := None; writeFile := fun _ => None |} 1000
      (Returned [("name", VStr "Spring"); ("status", VStr "ACTIVE")])
      (Returned [[("ctr", VStr "3"); ("cpm", VStr "80"); ("spend", VStr "9")]])
      (Returned []) (Some "c1") st in
  exists r a,
    fst result = Returned (AnalyzeCampaign.Report r)
    /\ AnalyzeCampaign.whatsappNotification r = Some a
    /\ emits (AnalyzeCampaign.changes r) CPM_SPIKE
    /\ AnalyzeCampaign.alert_priority a = SUCCESS.
Proof.
  cbv zeta.
  destruct (AnalyzeCampaign.analyze_campaign_try _ _ _ _ _ _ _)
    as [completion st'] eqn:E.
  assert (exists r a, completion = Returned (AnalyzeCampaign.Report r)
                      /\ AnalyzeCampaign.whatsappNotification r = Some a
                      /\ emits (AnalyzeCampaign.changes r) CPM_SPIKE
                      /\ emits (AnalyzeCampaign.changes r) PERFORMANCE_BOOST
                      /\ ~ emits (AnalyzeCampaign.changes r) CTR_CRASH)
    as (r & a & -> & Ha & Hs & Hb & Hc).
  { vm_compute in E. injection E as <- _.
    eexists. eexists. split; [reflexivity|]. split; [reflexivity|].
    cbn [AnalyzeCampaign.changes].
    rewrite !emits_Some. cbn [In].
    split; [eexists; split; [left; reflexivity | reflexivity]|].
    split; [eexists; split; [right; left; reflexivity | reflexivity]|].
    intros (e & [<- | [<- | []]] & He); discriminate He. }
  exists r, a. split; [reflexivity|]. split; [exact Ha|]. split; [exact Hs|].
  destruct (alert_reports_crash_then_boost _ _ _ _ _ _ _ _ _ E)
    as (_ & _ & H).
  destruct (H a Ha) as (_ & _ & Hsucc & _). apply Hsucc. auto.
Defined.

Section AnalyzeCampaignOutcomes.

Import AnalyzeCampaign.

Lemma analyze_campaign_try_fails_early (disk : fs) (now : Z)
    (read : outcome object) (getInsights getAdSets : outcome (list object))
    (campaignId : option string) (st : gmap string campaign_state)
    (e : string) :
  fails_early read getInsights getAdSets campaignId e ->
  analyze_campaign_try disk now read getInsights getAdSets campaignId st
  = (Thrown e, st).
Proof.
  unfold analyze_campaign_try.
  intros [[[-> | ->] ->] | (id & -> & Hid & H)]; try reflexivity.
  destruct (String.eqb_spec id ""); [contradiction|].
  destruct H as [-> | (d & -> & [-> | (i & -> & ->)])]; reflexivity.
Qed.

End AnalyzeCampaignOutcomes.

(** X18: analyze_campaign answers a missing or empty campaign identifier
    with the error "Campaign ID is required" and a failed call to the Ads
    API with the error of that call, both as payloads naming the tool; in
    these cases the campaign state stays the one loaded from the file (no
    baseline is stored), and the approvals are never touched. *)
Theorem analyze_campaign_early_failures (disk : fs) (now : Z)
    (read : outcome object) (getInsights getAdSets : outcome (list object))
    (campaignId : option string) (s : Approvals.server) (e : string) :
  fails_early read getInsights getAdSets campaignId e ->
  writeFile disk (loadState disk) = None ->
  let r := AnalyzeCampaign.analyze_campaign disk now read getInsights
             getAdSets campaignId s in
  fst r = Returned (AnalyzeCampaign.Error e "analyze_campaign")
  /\ Approvals.campaignState (snd r) = loadState disk
  /\ Approvals.pendingApprovals (snd r) = Approvals.pendingApprovals s.
Proof.
  intros Hf Hw. cbv zeta. unfold AnalyzeCampaign.analyze_campaign.
  rewrite (analyze_campaign_try_fails_early _ _ _ _ _ _ _ _ Hf).
  cbn. unfold saveState. rewrite Hw. auto.
Qed.

(** The theorem on a call whose insights cannot be fetched. *)
Lemma analyze_campaign_early_failures_witness :
  fst (AnalyzeCampaign.analyze_campaign
         {| readFile := None; writeFile := fun _ => None |} 1000
         (Returned [("name", VStr "Spring")])
         (Thrown "(#17) User request limit reached") (Returned [])
         (Some "c1")
         {| Approvals.campaignState := ∅; Approvals.pendingApprovals := ∅ |})
  = Returned (AnalyzeCampaign.Error "(#17) User request limit reached"
                "analyze_campaign").
Proof.
  refine (proj1 (analyze_campaign_early_failures
                   {| readFile := None; writeFile := fun _ => None |} 1000
                   (Returned [("name", VStr "Spring")])
                   (Thrown "(#17) User request limit reached") (Returned [])
                   (Some "c1")
                   {| Approvals.campaignState := ∅;
                      Approvals.pendingApprovals := ∅ |}
                   "(#17) User request limit reached" _ eq_refl)).
  right. exists "c1". split; [reflexivity|]. split; [discriminate|].
  right. eexists. split; [reflexivity|]. left. reflexivity.
Defined.

Section CampaignAnalysis.

Import AnalyzeCampaign.

Lemma score_below_60 (metrics : object) (context : option object) :
  score (analyzeMetrics metrics context) < 60
  <-> status (analyzeMetrics metrics context) = critical
      \/ status (analyzeMetrics metrics context) = poor.
Proof.
  rewrite analyzeMetrics_unfold, final_status_status, final_status_score.
  destruct (before_override_score metrics context) as [Hle Hprov].
  set (a := before_override metrics context) in *.
  destruct (Z.ltb_spec (score a) 40), (Z.ltb_spec (score a) 60),
    (Z.ltb_spec (score a) 80), (Z.geb_spec (score a) 95); try lia;
    split; intros Hx; try lia; auto;
    try (destruct Hx; discriminate).
  all: destruct (status a) eqn:E;
    try (destruct Hx; discriminate);
    assert (score a <= 75) by (apply Hprov; discriminate); lia.
Qed.

End CampaignAnalysis.

(** X19: the analysis of a report is the one of [analyzeMetrics] for the
    first insights row, with the campaign budget as context; the advice to
    consider pausing is put before its recommendations exactly when the
    campaign is ACTIVE and the status of the analysis is critical or poor.
    Issues, notifications, score and status are never changed. *)
Theorem report_analysis_and_pause_advice (campaignData metrics : object) :
  let plain :=
    analyzeMetrics metrics
      (Some [("campaignBudget", get campaignData "daily_budget");
             ("campaignName", get campaignData "name")]) in
  let reported := AnalyzeCampaign.campaign_analysis campaignData metrics in
  issues reported = issues plain
  /\ notifications reported = notifications plain
  /\ score reported = score plain
  /\ status reported = status plain
  /\ (get campaignData "status" = VStr "ACTIVE"
      /\ (status plain = critical \/ status plain = poor) ->
      recommendations reported
      = "⚠️ Consider pausing for immediate optimization"
        :: recommendations plain)
  /\ (~ (get campaignData "status" = VStr "ACTIVE"
         /\ (status plain = critical \/ status plain = poor)) ->
      reported = plain).
Proof.
  cbv zeta. unfold AnalyzeCampaign.campaign_analysis.
  set (plain := analyzeMetrics metrics _).
  pose proof (score_below_60 metrics
                (Some [("campaignBudget", get campaignData "daily_budget");
                       ("campaignName", get campaignData "name")])) as Hs.
  fold plain in Hs.
  assert (AnalyzeCampaign.is_string (get campaignData "status") "ACTIVE" = true
          <-> get campaignData "status" = VStr "ACTIVE") as Hact.
  { unfold AnalyzeCampaign.is_string.
    destruct (get campaignData "status") as [| | | |s'| |];
      try (split; intros; discriminate).
    destruct (String.eqb_spec s' "ACTIVE"); split; congruence. }
  destruct (AnalyzeCampaign.is_string _ _) eqn:Ea;
    destruct (Z.ltb_spec (score plain) 60) as [Hlt|Hge]; cbn [andb];
    cbn; repeat split; try reflexivity; intros Hx.
  - exfalso. apply Hx. split; [now apply Hact | now apply Hs].
  - destruct Hx as [_ Hx]. apply Hs in Hx. lia.
  - destruct Hx as [Hx _]. apply Hact in Hx. discriminate.
  - destruct Hx as [Hx _]. apply Hact in Hx. discriminate.
Qed.

(** X20: a report is returned only after the state was written: the state
    that was saved holds, for the analysed campaign, the ctr, cpm, spend and
    frequency parsed from the first insights row (0 for a value that is
    missing, all 0 when the API returned no row) and the time of the call,
    and holds every other campaign as before. *)
Theorem report_follows_saved_baseline (disk : fs) (now : Z)
    (read : outcome object) (getInsights getAdSets : outcome (list object))
    (campaignId : option string) (st st' : gmap string campaign_state)
    (r : AnalyzeCampaign.report) :
  AnalyzeCampaign.analyze_campaign_try disk now read getInsights getAdSets
    campaignId st = (Returned (AnalyzeCampaign.Report r), st') ->
  exists id insights stored,
    campaignId = Some id
    /\ getInsights = Returned insights
    /\ writeFile disk st' = None
    /\ st' !! id = Some stored
    /\ current stored
       = AnalyzeCampaign.parsed_metrics (AnalyzeCampaign.first_insights insights)
    /\ lastChecked stored = now
    /\ (insights = [] ->
        current stored
        = {| ctr := 0; cpm := 0; spend := 0; frequency := 0 |})
    /\ (forall other, other <> id -> st' !! other = st !! other).
Proof.
  unfold AnalyzeCampaign.analyze_campaign_try.
  destruct campaignId as [id|]; [|discriminate].
  destruct (String.eqb_spec id ""); [discriminate|].
  destruct read as [campaignData|]; [|discriminate].
  destruct getInsights as [insights|]; [|discriminate].
  destruct getAdSets as [adSets|]; [|discriminate].
  destruct (detectSignificantChanges now id _ st) as [ch st1] eqn:Ed.
  destruct (AnalyzeCampaign.campaign_alert campaignData _ ch) as [al|];
    [|discriminate].
  unfold saveState. destruct (writeFile disk st1) eqn:Ew; [discriminate|].
  intros [= <- <-].
  assert (st1 = snd (detectSignificantChanges now id
                       (AnalyzeCampaign.parsed_metrics
                          (AnalyzeCampaign.first_insights insights)) st))
    as Hst by now rewrite Ed.
  clear Ed. exists id, insights.
  assert (exists stored, st1 !! id = Some stored
            /\ current stored
               = AnalyzeCampaign.parsed_metrics
                   (AnalyzeCampaign.first_insights insights)
            /\ lastChecked stored = now) as (stored & Hs & Hc & Hl).
  { rewrite Hst. unfold detectSignificantChanges.
    destruct (st !! id); cbn [snd]; rewrite lookup_insert_eq; eauto. }
  exists stored. repeat (split; [assumption || reflexivity|]).
  split.
  - intros ->. rewrite Hc. vm_compute. reflexivity.
  - intros other Ho. rewrite Hst. unfold detectSignificantChanges.
    destruct (st !! id); cbn [snd]; now rewrite lookup_insert_ne.
Qed.

(** The theorem on the first analysis of a campaign. *)
Lemma report_follows_saved_baseline_witness :
  let result :=
    AnalyzeCampaign.analyze_campaign_try
      {| readFile := None; writeFile := fun _ => None |} 1000
      (Returned [("name", VStr "Spring"); ("status", VStr "PAUSED")])
      (Returned [[("ctr", VStr "1.2"); ("cpm", VStr "14")]])
      (Returned []) (Some "c1") ∅ in
  exists stored,
    snd result !! "c1" = Some stored /\ lastChecked stored = 1000.
Proof.
  cbv zeta.
  destruct (AnalyzeCampaign.analyze_campaign_try _ _ _ _ _ _ _)
    as [completion st'] eqn:E.
  assert (exists r, completion = Returned (AnalyzeCampaign.Report r))
    as [r ->].
  { vm_compute in E. injection E as <- _. eexists. reflexivity. }
  destruct (report_follows_saved_baseline _ _ _ _ _ _ _ _ _ E)
    as (id & insights & stored & Hid & _ & _ & Hs & _ & Hl & _).
  injection Hid as <-. exists stored. split; assumption.
Defined.

(** X21: over HTTP, analyze_campaign is answered with status 200 and a
    payload, a report or an error, whatever the Ads API does, as long as
    the state file can be written; when it cannot, the answer is the status
    500 with the error of the write, also when the analysis itself
    succeeded or had an error of its own to report. *)
Theorem analyze_campaign_fails_only_on_the_save (disk : fs) (now : Z)
    (read : outcome object) (getInsights getAdSets : outcome (list object))
    (campaignId : option string) (s : Approvals.server) :
  let execution :=
    fst (AnalyzeCampaign.analyze_campaign disk now read getInsights getAdSets
           campaignId s) in
  ((forall st, writeFile disk st = None) ->
   exists p, execution = Returned p
             /\ http_tool execution = (200, Result p))
  /\ (forall e, (forall st, writeFile disk st = Some e) ->
      execution = Thrown e
      /\ http_tool execution = (500, ErrorMessage e)).
Proof.
  cbv zeta. unfold AnalyzeCampaign.analyze_campaign.
  destruct (AnalyzeCampaign.analyze_campaign_try _ _ _ _ _ _ _)
    as [completion st'].
  cbn [fst]. unfold saveState. split.
  - intros Hw. rewrite Hw. destruct completion as [p|e]; cbn; eauto.
  - intros e Hw. rewrite Hw. destruct completion; cbn; auto.
Qed.

(** ** monitor_budget_pace *)

Section PaceFacts.

Import BudgetPace.

(** The progress of the day that the handler computes from the reset
    clock. *)
Lemma progress_after_reset (clock : Date) :
  let now := setHours 0 0 0 0 clock in
  ((getHours now + getMinutes now / 60) / 24)%float = 0%float
  /\ (getHours now / 24)%float = 0%float.
Proof. split; reflexivity. Qed.

Ltac float_case :=
  apply Prim2SF_inj;
  repeat first [rewrite mul_spec | rewrite div_spec | rewrite sub_spec];
  repeat match goal with H : Prim2SF _ = _ |- _ => rewrite H end;
  reflexivity.

(** With no progress of the day the pace is not a finite number. *)
Lemma pace_without_progress (d s : number) :
  let e := (d * 0)%float in
  let p := ((s / e - 1) * 100)%float in
  p = NaN
  \/ ((e = 0%float \/ e = PrimFloat.neg_zero)
      /\ (p = Infinity \/ p = NegInfinity)).
Proof.
  cbv zeta.
  destruct (Prim2SF d) as [[]|[]| |[] m e] eqn:Ed;
    destruct (Prim2SF s) as [[]|[]| |[] m' e'] eqn:Es;
    first [ left; float_case
          | right; split; [first [left; float_case | right; float_case]
                          | first [left; float_case | right; float_case]] ].
Qed.

Lemma times_zero (d : number) :
  let e := (d * 0)%float in
  e = 0%float \/ e = PrimFloat.neg_zero \/ e = NaN.
Proof.
  cbv zeta.
  destruct (Prim2SF d) as [[]|[]| |[] m e] eqn:Ed;
    first [ left; float_case | right; left; float_case
          | right; right; float_case ].
Qed.

Lemma over_zero (s : number) :
  let q := (s / 0)%float in
  q = Infinity \/ q = NegInfinity \/ q = NaN.
Proof.
  cbv zeta.
  destruct (Prim2SF s) as [[]|[]| |[] m e] eqn:Es;
    first [ left; float_case | right; left; float_case
          | right; right; float_case ].
Qed.



(** [|p| > t] fails for a pace that is NaN. *)
Lemma alert_needs_a_number (t : number) : gt (Math_abs NaN) t = false.
Proof.
  unfold gt, Math_abs. rewrite ltb_spec, abs_spec.
  change (Prim2SF NaN) with S754_nan.
  now destruct (Prim2SF t) as [[]|[]| |[] m e].
Qed.

Lemma pace_alert_after_reset (alertThreshold : number) (clock : Date)
    (campaign : object) (insights : list object) (a : budget_alert) :
  In a (pace_alert alertThreshold (setHours 0 0 0 0 clock) campaign insights) ->
  unbounded_alert a.
Proof.
  unfold pace_alert.
  destruct (progress_after_reset clock) as [-> _].
  set (s := parseFloat (or_else (first_spend insights) (VNum 0))).
  set (d := parseFloat (get campaign "daily_budget")).
  destruct (pace_without_progress d s) as [-> | [He Hp]].
  - now rewrite alert_needs_a_number.
  - destruct (gt (Math_abs _) alertThreshold); [|intros []].
    intros [<- | []]. unfold unbounded_alert.
    cbn [expectedSpend status pacePercentage].
    split; [destruct He as [-> | ->]; reflexivity|].
    destruct Hp as [-> | ->]; [left | right]; split; reflexivity.
Qed.

Lemma alerts_loop_In (alertThreshold : number) (now : Date)
    (campaigns : list SDK.Campaign) :
  forall (pushed result : list budget_alert),
    alerts_loop alertThreshold now campaigns pushed = Returned result ->
    forall a, In a result ->
      In a pushed
      \/ exists c insights,
           In c campaigns
           /\ SDK.getInsights c = Returned insights
           /\ In a (pace_alert alertThreshold now (SDK.fields c) insights).
Proof.
  induction campaigns as [|c rest IH]; intros pushed result.
  - intros [= <-] a Ha. now left.
  - cbn [alerts_loop].
    destruct (negb (truthy (get (SDK.fields c) "daily_budget"))).
    + intros H a Ha. destruct (IH _ _ H a Ha) as [? | (c' & i & ? & ?)];
        [now left | right; exists c', i; cbn; tauto].
    + destruct (SDK.getInsights c) as [insights|] eqn:Ei; [|discriminate].
      intros H a Ha. destruct (IH _ _ H a Ha) as [Hin | (c' & i & ? & ?)].
      * apply in_app_or in Hin. destruct Hin as [? | ?]; [now left|].
        right. exists c, insights. cbn. tauto.
      * right. exists c', i. cbn. tauto.
Qed.

(** What a response says about the call that gave it. *)
Lemma monitor_budget_pace_try_response (clock : Date) (read : outcome object)
    (getCampaigns : outcome (list SDK.Campaign))
    (getInsights : outcome (list object)) (alertThreshold : number)
    (p : payload) :
  monitor_budget_pace_try clock read getCampaigns getInsights alertThreshold
  = Returned p ->
  exists r campaigns rows,
    p = Response r
    /\ getCampaigns = Returned campaigns
    /\ getInsights = Returned rows
    /\ alerts_loop alertThreshold (setHours 0 0 0 0 clock) campaigns []
       = Returned (alerts r)
    /\ campaignsAnalyzed r = List.length campaigns
    /\ alertsFound r = List.length (alerts r)
    /\ whatsappNotification r = budget_notification_of (account r) (alerts r).
Proof.
  unfold monitor_budget_pace_try.
  destruct read; [|discriminate].
  destruct getCampaigns as [campaigns|]; [|discriminate].
  destruct (alerts_loop _ _ campaigns []) as [l|] eqn:El; [|discriminate].
  destruct getInsights as [rows|]; [|discriminate].
  intros [= <-]. eexists. exists campaigns, rows.
  split; [reflexivity|]. cbn. auto 10.
Qed.

Lemma alerts_after_reset (clock : Date) (read : outcome object)
    (getCampaigns : outcome (list SDK.Campaign))
    (getInsights : outcome (list object)) (alertThreshold : number)
    (r : response) :
  monitor_budget_pace_try clock read getCampaigns getInsights alertThreshold
  = Returned (Response r) ->
  forall a, In a (alerts r) -> unbounded_alert a.
Proof.
  intros H a Ha.
  destruct (monitor_budget_pace_try_response _ _ _ _ _ _ H)
    as (r' & campaigns & rows & [= <-] & _ & _ & Hl & _).
  destruct (alerts_loop_In _ _ _ _ _ Hl a Ha) as [[] | (c & i & _ & _ & Hin)].
  now apply pace_alert_after_reset in Hin.
Qed.

Lemma pace_alert_length (alertThreshold : number) (now : Date)
    (campaign : object) (insights : list object) :
  (List.length (pace_alert alertThreshold now campaign insights) <= 1)%nat.
Proof. unfold pace_alert. destruct (gt _ _); cbn; lia. Qed.

(** The loop ends when the insights of the campaigns with a budget can be
    fetched, with at most one alert for each of them. *)
Lemma alerts_loop_total (alertThreshold : number) (now : Date)
    (campaigns : list SDK.Campaign) :
  (forall c, In c campaigns -> budgeted c = true ->
     exists insights, SDK.getInsights c = Returned insights) ->
  forall pushed, exists result,
    alerts_loop alertThreshold now campaigns pushed = Returned result
    /\ (List.length result
        <= List.length pushed + List.length (List.filter budgeted campaigns))%nat.
Proof.
  induction campaigns as [|c rest IH]; intros Hall pushed.
  - exists pushed. split; [reflexivity | cbn; lia].
  - cbn [alerts_loop List.filter]. fold (budgeted c).
    assert (forall c', In c' rest -> budgeted c' = true ->
              exists insights, SDK.getInsights c' = Returned insights) as Hrest
      by (intros c' Hin; apply Hall; now right).
    destruct (budgeted c) eqn:Eb; cbn [negb].
    + destruct (Hall c (or_introl eq_refl) Eb) as [insights ->].
      destruct (IH Hrest
                  (pushed
                   ++ pace_alert alertThreshold now (SDK.fields c) insights)%list)
        as (result & -> & Hlen).
      exists result. split; [reflexivity|].
      rewrite length_app in Hlen.
      pose proof (pace_alert_length alertThreshold now (SDK.fields c) insights).
      cbn [List.length]. lia.
    + apply (IH Hrest).
Qed.

Lemma overspending_partition (l : list budget_alert) :
  (List.length (List.filter (fun a => is_overspending (status a)) l)
   + List.length
       (List.filter (fun a => negb (is_overspending (status a))) l))%nat
  = List.length l.
Proof.
  induction l as [|a l IH]; [reflexivity|].
  cbn. destruct (is_overspending (status a)); cbn; lia.
Qed.

End PaceFacts.

(** X22: the pace is computed after the clock was set back to the start of
    the day, so the answer does not depend on the time of the call: the
    expected spend of every alert is 0.00 and its pace is +Infinity% (an
    overspending) or -Infinity% (an underspending); for the account the
    expected spend is 0.00 or NaN, and the pacing and the projection for the
    end of the day are infinite or NaN. *)
Theorem pace_is_taken_at_the_start_of_the_day (clock : BudgetPace.Date)
    (read : outcome object) (getCampaigns : outcome (list SDK.Campaign))
    (getInsights : outcome (list object)) (alertThreshold : number) :
  let result :=
    BudgetPace.monitor_budget_pace_try clock read getCampaigns getInsights
      alertThreshold in
  (forall clock',
     BudgetPace.monitor_budget_pace_try clock' read getCampaigns getInsights
       alertThreshold = result)
  /\ (forall r, result = Returned (BudgetPace.Response r) ->
      (forall a, In a (BudgetPace.alerts r) ->
         BudgetPace.expectedSpend a = "0.00"
         /\ ((BudgetPace.status a = BudgetPace.OVERSPENDING
              /\ BudgetPace.pacePercentage a = "+Infinity%")
             \/ (BudgetPace.status a = BudgetPace.UNDERSPENDING
                 /\ BudgetPace.pacePercentage a = "-Infinity%")))
      /\ In (BudgetPace.expectedSpendByNow (BudgetPace.account r))
           ["0.00"; "NaN"]
      /\ In (BudgetPace.pacing (BudgetPace.account r))
           ["+Infinity%"; "-Infinity%"; "NaN%"]
      /\ In (BudgetPace.projectedDayEndSpend (BudgetPace.account r))
           ["Infinity"; "-Infinity"; "NaN"]).
Proof.
  cbv zeta. split; [reflexivity|]. intros r H.
  split; [exact (alerts_after_reset _ _ _ _ _ _ H)|].
  revert H. unfold BudgetPace.monitor_budget_pace_try.
  destruct read; [|discriminate].
  destruct getCampaigns as [campaigns|]; [|discriminate].
  destruct (BudgetPace.alerts_loop _ _ campaigns []); [|discriminate].
  destruct getInsights as [rows|]; [|discriminate].
  intros [= <-].
  cbn [BudgetPace.account BudgetPace.expectedSpendByNow BudgetPace.pacing
       BudgetPace.projectedDayEndSpend BudgetPace.getHours
       BudgetPace.setHours].
  change (0 / 24)%float with 0%float.
  set (total := List.fold_left _ campaigns _).
  set (s := parseFloat _).
  split; [|split].
  - destruct (times_zero total) as [-> | [-> | ->]]; cbn; auto.
  - destruct (pace_without_progress total s) as [-> | [_ [-> | ->]]];
      cbn; auto.
  - destruct (over_zero s) as [-> | [-> | ->]]; cbn; auto.
Qed.





(** X25: when the calls on the account succeed and the insights of every
    campaign with a daily budget can be fetched, the tool answers with a
    response, whatever the insights of the campaigns without daily budget
    would give: these are never requested.  The response counts all the
    campaigns as analysed and has at most one alert for each campaign with a
    budget; the alerts are split into overspending and underspending. *)
Theorem budget_pace_answers_and_counts (clock : BudgetPace.Date)
    (accountInfo : object) (campaigns : list SDK.Campaign)
    (rows : list object) (alertThreshold : number) :
  (forall c, In c campaigns ->
     truthy (get (SDK.fields c) "daily_budget") = true ->
     exists insights, SDK.getInsights c = Returned insights) ->
  exists r,
    BudgetPace.monitor_budget_pace_try clock (Returned accountInfo)
      (Returned campaigns) (Returned rows) alertThreshold
    = Returned (BudgetPace.Response r)
    /\ BudgetPace.campaignsAnalyzed r = List.length campaigns
    /\ BudgetPace.alertsFound r = List.length (BudgetPace.alerts r)
    /\ (BudgetPace.overspending (BudgetPace.summary r)
        + BudgetPace.underspending (BudgetPace.summary r))%nat
       = BudgetPace.alertsFound r
    /\ (BudgetPace.alertsFound r
        <= List.length
             (List.filter
                (fun c => truthy (get (SDK.fields c) "daily_budget"))
                campaigns))%nat.
Proof.
  intros Hall. unfold BudgetPace.monitor_budget_pace_try.
  destruct (alerts_loop_total alertThreshold
              (BudgetPace.setHours 0 0 0 0 clock) campaigns Hall [])
    as (result & -> & Hlen).
  eexists. split; [reflexivity|].
  cbn [BudgetPace.campaignsAnalyzed BudgetPace.alertsFound BudgetPace.alerts
       BudgetPace.summary BudgetPace.overspending BudgetPace.underspending].
  split; [reflexivity|]. split; [reflexivity|].
  split; [apply overspending_partition | exact Hlen].
Qed.

(** The theorem on a campaign without daily budget whose insights cannot be
    fetched. *)
Lemma budget_pace_answers_and_counts_witness :
  exists r,
    BudgetPace.monitor_budget_pace_try
      {| BudgetPace.getHours := 9; BudgetPace.getMinutes := 15;
         BudgetPace.getSeconds := 0; BudgetPace.getMilliseconds := 0 |}
      (Returned [])
      (Returned [{| SDK.fields := [("name", VStr "Three")];
                    SDK.getInsights := Thrown "(#17) User request limit reached" |}])
      (Returned []) 20
    = Returned (BudgetPace.Response r)
    /\ BudgetPace.campaignsAnalyzed r = 1%nat
    /\ BudgetPace.alertsFound r = 0%nat.
Proof.
  destruct (budget_pace_answers_and_counts
              {| BudgetPace.getHours := 9; BudgetPace.getMinutes := 15;
                 BudgetPace.getSeconds := 0;
                 BudgetPace.getMilliseconds := 0 |}
              []
              [{| SDK.fields := [("name", VStr "Three")];
                  SDK.getInsights :=
                    Thrown "(#17) User request limit reached" |}]
              [] 20) as (r & H & Hc & _ & _ & Hle).
  - intros c [<- | []]. discriminate.
  - exists r. split; [exact H|]. split; [exact Hc|]. cbn in Hle. lia.
Defined.

(** X26: monitor_budget_pace leaves the campaign state as loaded from the
    file and does not touch the approvals.  With a state file that can be
    written it never throws, a failure of a call on the account coming back
    as an error payload that names the tool; when the file cannot be
    written, the error of the write is thrown instead of any answer. *)
Theorem budget_pace_errors_and_state (disk : fs) (clock : BudgetPace.Date)
    (read : outcome object) (getCampaigns : outcome (list SDK.Campaign))
    (getInsights : outcome (list object)) (alertThreshold : number)
    (s : Approvals.server) :
  let r := BudgetPace.monitor_budget_pace disk clock read getCampaigns
             getInsights alertThreshold s in
  Approvals.campaignState (snd r) = loadState disk
  /\ Approvals.pendingApprovals (snd r) = Approvals.pendingApprovals s
  /\ (writeFile disk (loadState disk) = None ->
      (exists p, fst r = Returned p)
      /\ (forall e, read = Thrown e ->
          fst r = Returned (BudgetPace.Error e "monitor_budget_pace"))
      /\ (forall accountInfo e,
          read = Returned accountInfo -> getCampaigns = Thrown e ->
          fst r = Returned (BudgetPace.Error e "monitor_budget_pace")))
  /\ (forall e, writeFile disk (loadState disk) = Some e -> fst r = Thrown e).
Proof.
  cbv zeta. unfold BudgetPace.monitor_budget_pace, saveState.
  cbn [fst snd Approvals.campaignState Approvals.pendingApprovals].
  split; [reflexivity|]. split; [reflexivity|]. split.
  - intros ->. split; [|split].
    + destruct (BudgetPace.monitor_budget_pace_try _ _ _ _ _); cbn; eauto.
    + intros e ->. reflexivity.
    + intros accountInfo e -> ->. reflexivity.
  - intros e ->.
    destruct (BudgetPace.monitor_budget_pace_try _ _ _ _ _); reflexivity.
Qed.

(** ** get_account_overview *)

Section OverviewFacts.

Import AccountOverview.

Lemma campaign_issue_entry (c : SDK.Campaign) (insights : list object)
    (e : issue_entry) :
  SDK.getInsights c = Returned insights ->
  In e (campaign_issue (SDK.fields c) insights) ->
  entry_of c e
  /\ (i_status e = critical \/ i_status e = poor)
  /\ (2 <= List.length (i_issues e))%nat.
Proof.
  intros Hi. unfold campaign_issue.
  destruct insights as [|metrics rest]; [intros []|].
  pose proof (score_below_60 metrics None) as Hs.
  pose proof (analysis_counts metrics None) as Hc. cbv zeta in Hc.
  cbv zeta.
  destruct (status (analyzeMetrics metrics None)) eqn:Es;
    try solve [intros []]; intros [<- | []]; cbn [i_status i_issues i_name];
    (split; [exists metrics, rest; cbn; rewrite Es; auto|]);
    (split; [auto|]);
    assert (score (analyzeMetrics metrics None) < 60) by (apply Hs; auto);
    lia.
Qed.

Lemma campaign_issue_length (campaign : object) (insights : list object) :
  (List.length (campaign_issue campaign insights) <= 1)%nat.
Proof.
  unfold campaign_issue. destruct insights; [cbn; lia|].
  destruct (status _); cbn; lia.
Qed.

Lemma issues_loop_In (campaigns : list SDK.Campaign) :
  forall (pushed result : list issue_entry),
    issues_loop campaigns pushed = Returned result ->
    (List.length result <= List.length pushed + List.length campaigns)%nat
    /\ forall e, In e result ->
         In e pushed
         \/ exists c insights,
              In c campaigns
              /\ SDK.getInsights c = Returned insights
              /\ In e (campaign_issue (SDK.fields c) insights).
Proof.
  induction campaigns as [|c rest IH]; intros pushed result.
  - intros [= <-]. split; [cbn; lia | now left].
  - cbn [issues_loop].
    destruct (SDK.getInsights c) as [insights|] eqn:Ei; [|discriminate].
    intros H. destruct (IH _ _ H) as [Hlen Hin].
    rewrite length_app in Hlen.
    pose proof (campaign_issue_length (SDK.fields c) insights).
    split; [cbn [List.length]; lia|].
    intros e He. destruct (Hin e He) as [Hp | (c' & i & ? & ?)].
    + apply in_app_or in Hp. destruct Hp as [? | ?]; [now left|].
      right. exists c, insights. cbn. tauto.
    + right. exists c', i. cbn. tauto.
Qed.

Lemma issues_loop_total (campaigns : list SDK.Campaign) :
  (forall c, In c campaigns ->
     exists insights, SDK.getInsights c = Returned insights) ->
  forall pushed, exists result, issues_loop campaigns pushed = Returned result.
Proof.
  induction campaigns as [|c rest IH]; intros Hall pushed.
  - now exists pushed.
  - cbn [issues_loop].
    destruct (Hall c (or_introl eq_refl)) as [insights ->].
    apply IH. intros c' Hin. apply Hall. now right.
Qed.

(** What an overview says about the call that gave it. *)
Lemma get_account_overview_try_overview (read : outcome object)
    (getInsights : outcome (list object))
    (getCampaigns : outcome (list SDK.Campaign))
    (dateRange sendNotification : value) (r : overview) :
  get_account_overview_try read getInsights getCampaigns dateRange
    sendNotification = Returned (Overview r) ->
  exists accountInfo insights all,
    read = Returned accountInfo
    /\ getInsights = Returned insights
    /\ getCampaigns = Returned all
    /\ issues_loop (firstn 10 all) [] = Returned (campaignsWithIssues r)
    /\ count (activeCampaigns r) = List.length all
    /\ withIssues (activeCampaigns r) = List.length (campaignsWithIssues r)
    /\ List.length (campaigns (activeCampaigns r))
       = List.length (firstn 10 all)
    /\ overview_notification_of sendNotification dateRange (performance r)
         (o_analysis r) (campaignsWithIssues r)
       = Returned (whatsappNotification r).
Proof.
  unfold get_account_overview_try.
  destruct read as [accountInfo|]; [|discriminate].
  destruct getInsights as [insights|]; [|discriminate].
  destruct getCampaigns as [all|]; [|discriminate].
  destruct (issues_loop (firstn 10 all) []) as [l|] eqn:El; [|discriminate].
  destruct (overview_notification_of _ _ _ _ l) as [n|] eqn:En;
    [|discriminate].
  intros [= <-]. exists accountInfo, insights, all.
  cbn [campaignsWithIssues activeCampaigns count withIssues campaigns
       performance o_analysis whatsappNotification].
  rewrite length_map. auto 10.
Qed.

End OverviewFacts.

(** X27: the overview looks for issues in the first ten campaigns only.  An
    entry of campaignsWithIssues is one of these campaigns, with the status
    and the issues of the analysis of its first insights row; its status is
    critical or poor, which takes at least two issues: a campaign with a
    single issue, a critically low CTR included, is not listed. *)
Theorem overview_lists_campaigns_with_two_issues (read : outcome object)
    (getInsights : outcome (list object))
    (getCampaigns : outcome (list SDK.Campaign))
    (dateRange sendNotification : value) (r : AccountOverview.overview) :
  AccountOverview.get_account_overview_try read getInsights getCampaigns
    dateRange sendNotification = Returned (AccountOverview.Overview r) ->
  exists all,
    getCampaigns = Returned all
    /\ AccountOverview.count (AccountOverview.activeCampaigns r)
       = List.length all
    /\ AccountOverview.withIssues (AccountOverview.activeCampaigns r)
       = List.length (AccountOverview.campaignsWithIssues r)
    /\ (List.length (AccountOverview.campaignsWithIssues r) <= 10)%nat
    /\ (List.length
          (AccountOverview.campaigns (AccountOverview.activeCampaigns r))
        <= 10)%nat
    /\ (forall e, In e (AccountOverview.campaignsWithIssues r) ->
        (exists c, In c (firstn 10 all) /\ entry_of c e)
        /\ (AccountOverview.i_status e = critical
            \/ AccountOverview.i_status e = poor)
        /\ (2 <= List.length (AccountOverview.i_issues e))%nat).
Proof.
  intros H.
  destruct (get_account_overview_try_overview _ _ _ _ _ _ H)
    as (accountInfo & insights & all & _ & _ & -> & Hl & Hc & Hw & Hn & _).
  exists all. split; [reflexivity|]. split; [exact Hc|]. split; [exact Hw|].
  destruct (issues_loop_In _ _ _ Hl) as [Hlen Hin].
  cbn [List.length] in Hlen.
  assert (List.length (firstn 10 all) <= 10)%nat
    by (rewrite length_firstn; lia).
  split; [lia|]. split; [lia|].
  intros e He. destruct (Hin e He) as [[] | (c & i & Hc' & Hi & Hce)].
  destruct (campaign_issue_entry c i e Hi Hce) as (? & ? & ?). eauto.
Qed.

(** The theorem on an account with one campaign, of CTR 0.2 and CPM 120. *)
Lemma overview_lists_campaigns_with_two_issues_witness :
  let result :=
    AccountOverview.get_account_overview_try
      (Returned [("name", VStr "Shop"); ("account_status", VNum 1)])
      (Returned [])
      (Returned
         [{| SDK.fields := [("name", VStr "One")];
             SDK.getInsights :=
               Returned [[("ctr", VStr "0.2"); ("cpm", VStr "120")]] |}])
      VUndefined (VBool false) in
  exists r e,
    result = Returned (AccountOverview.Overview r)
    /\ AccountOverview.campaignsWithIssues r = [e]
    /\ (2 <= List.length (AccountOverview.i_issues e))%nat.
Proof.
  cbv zeta.
  destruct (AccountOverview.get_account_overview_try _ _ _ _ _)
    as [[e t|r]|e] eqn:E; try (vm_compute in E; discriminate E).
  destruct (overview_lists_campaigns_with_two_issues _ _ _ _ _ _ E)
    as (all & _ & _ & _ & _ & _ & Hall).
  assert (exists e, AccountOverview.campaignsWithIssues r = [e]) as [e He].
  { vm_compute in E. injection E as <-. eexists. reflexivity. }
  exists r, e. split; [reflexivity|]. split; [exact He|].
  apply Hall. rewrite He. now left.
Defined.

(** X28: the overview carries a notification exactly when one was asked for
    or a campaign has issues.  Its priority only counts the campaigns with
    issues, urgent for more than three and info otherwise: it is never
    critical, whatever the status of the campaigns. *)
Theorem overview_notification_counts_campaigns (read : outcome object)
    (getInsights : outcome (list object))
    (getCampaigns : outcome (list SDK.Campaign))
    (dateRange sendNotification : value) (r : AccountOverview.overview) :
  AccountOverview.get_account_overview_try read getInsights getCampaigns
    dateRange sendNotification = Returned (AccountOverview.Overview r) ->
  (AccountOverview.whatsappNotification r = None
   <-> truthy sendNotification = false
       /\ AccountOverview.campaignsWithIssues r = [])
  /\ (forall n, AccountOverview.whatsappNotification r = Some n ->
      AccountOverview.type n = "performance_summary"
      /\ (AccountOverview.priority n = URGENT
          <-> (3 < List.length (AccountOverview.campaignsWithIssues r))%nat)
      /\ (AccountOverview.priority n = INFO
          <-> (List.length (AccountOverview.campaignsWithIssues r) <= 3)%nat)
      /\ exists body,
           AccountOverview.message n
           = ToString (WhatsApp.emoji
                         (NOTIFICATION_PRIORITY (AccountOverview.priority n)))
             ++ " *Facebook Ads Alert*" ++ nl ++ nl
             ++ "*Account Performance Summary*" ++ nl ++ body).
Proof.
  intros H.
  destruct (get_account_overview_try_overview _ _ _ _ _ _ H)
    as (accountInfo & insights & all & _ & _ & _ & _ & _ & _ & _ & Hn).
  revert Hn. unfold AccountOverview.overview_notification_of.
  set (l := AccountOverview.campaignsWithIssues r).
  destruct (truthy sendNotification) eqn:Et; cbn [orb].
  - cbn [WhatsApp.formatWhatsAppMessage String.eqb Ascii.eqb Bool.eqb].
    intros [= <-]. split; [split; [discriminate | intros [? _]; discriminate]|].
    intros n [= <-]. cbn [AccountOverview.type AccountOverview.priority
                          AccountOverview.message].
    split; [reflexivity|].
    destruct (Nat.ltb_spec 3 (List.length l)).
    + split; [tauto|]. split; [split; [discriminate | lia]|].
      eexists. reflexivity.
    + split; [split; [discriminate | lia]|]. split; [tauto|].
      eexists. reflexivity.
  - destruct (Nat.ltb_spec 0 (List.length l)) as [Hpos|Hz].
    + cbn [WhatsApp.formatWhatsAppMessage String.eqb Ascii.eqb Bool.eqb].
      intros [= <-].
      split; [split; [discriminate|];
              intros [_ Hx]; rewrite Hx in Hpos; cbn in Hpos; lia|].
      intros n [= <-]. cbn [AccountOverview.type AccountOverview.priority
                            AccountOverview.message].
      split; [reflexivity|].
      destruct (Nat.ltb_spec 3 (List.length l)).
      * split; [tauto|]. split; [split; [discriminate | lia]|].
        eexists. reflexivity.
      * split; [split; [discriminate | lia]|]. split; [tauto|].
        eexists. reflexivity.
    + intros [= <-]. split; [|discriminate].
      split; [|reflexivity]. intros _. split; [reflexivity|].
      destruct l; [reflexivity | cbn in Hz; lia].
Qed.

(** The theorem on an account without campaigns, for a call that asks for
    the notification. *)
Lemma overview_notification_counts_campaigns_witness :
  let result :=
    AccountOverview.get_account_overview_try
      (Returned [("name", VStr "Shop"); ("currency", VStr "EUR")])
      (Returned [[("spend", VStr "12.5"); ("ctr", VStr "1.1")]])
      (Returned []) (VStr "last_30d") (VBool true) in
  exists r n,
    result = Returned (AccountOverview.Overview r)
    /\ AccountOverview.whatsappNotification r = Some n
    /\ AccountOverview.priority n = INFO.
Proof.
  cbv zeta.
  destruct (AccountOverview.get_account_overview_try _ _ _ _ _)
    as [[e t|r]|e] eqn:E; try (vm_compute in E; discriminate E).
  destruct (overview_notification_counts_campaigns _ _ _ _ _ _ E)
    as [_ Hn].
  assert (AccountOverview.campaignsWithIssues r = []
          /\ exists n, AccountOverview.whatsappNotification r = Some n)
    as (Hl & n & Hsome).
  { vm_compute in E. injection E as <-. split; [reflexivity|].
    eexists. reflexivity. }
  exists r, n. split; [reflexivity|]. split; [exact Hsome|].
  apply (Hn n Hsome). rewrite Hl. cbn. lia.
Defined.

(** X29: get_account_overview asks for the insights of the first ten
    campaigns only: when the calls on the account succeed and these insights
    can be fetched, it answers with an overview, whatever the insights of
    the other campaigns would give, provided the state file can be written;
    when it cannot, the error of the write is thrown instead.  The campaign
    state it leaves is the one loaded from the file, and the approvals are
    not touched. *)
Theorem overview_asks_for_ten_campaigns (disk : fs) (accountInfo : object)
    (insights : list object) (all : list SDK.Campaign)
    (dateRange sendNotification : value) (s : Approvals.server) :
  (forall c, In c (firstn 10 all) ->
     exists campaignInsights, SDK.getInsights c = Returned campaignInsights) ->
  let r := AccountOverview.get_account_overview disk (Returned accountInfo)
             (Returned insights) (Returned all) dateRange sendNotification
             s in
  Approvals.campaignState (snd r) = loadState disk
  /\ Approvals.pendingApprovals (snd r) = Approvals.pendingApprovals s
  /\ (writeFile disk (loadState disk) = None ->
      exists o, fst r = Returned (AccountOverview.Overview o))
  /\ (forall e, writeFile disk (loadState disk) = Some e ->
      fst r = Thrown e).
Proof.
  intros Hall. cbv zeta.
  unfold AccountOverview.get_account_overview, saveState.
  cbn [fst snd Approvals.campaignState Approvals.pendingApprovals].
  split; [reflexivity|]. split; [reflexivity|].
  assert (exists o,
            AccountOverview.get_account_overview_try (Returned accountInfo)
              (Returned insights) (Returned all) dateRange sendNotification
            = Returned (AccountOverview.Overview o)) as [o ->].
  { unfold AccountOverview.get_account_overview_try.
    destruct (issues_loop_total _ Hall []) as [l ->].
    unfold AccountOverview.overview_notification_of.
    cbn [WhatsApp.formatWhatsAppMessage String.eqb Ascii.eqb Bool.eqb].
    destruct (_ || _); eexists; reflexivity. }
  split.
  - intros ->. exists o. reflexivity.
  - intros e ->. reflexivity.
Qed.

(** The theorem on an account with eleven campaigns, the last of which
    cannot be analysed. *)
Lemma overview_asks_for_ten_campaigns_witness :
  let good := {| SDK.fields := [("name", VStr "Good")];
                 SDK.getInsights := Returned [] |} in
  let bad := {| SDK.fields := [("name", VStr "Bad")];
                SDK.getInsights := Thrown "(#100) Invalid parameter" |} in
  exists o,
    fst (AccountOverview.get_account_overview
           {| readFile := None; writeFile := fun _ => None |}
           (Returned []) (Returned [])
           (Returned (List.repeat good 10 ++ [bad])%list)
           VUndefined VUndefined
           {| Approvals.campaignState := ∅; Approvals.pendingApprovals := ∅ |})
    = Returned (AccountOverview.Overview o).
Proof.
  cbv zeta.
  refine (proj1 (proj2 (proj2
            (overview_asks_for_ten_campaigns
               {| readFile := None; writeFile := fun _ => None |} [] []
               (List.repeat {| SDK.fields := [("name", VStr "Good")];
                               SDK.getInsights := Returned [] |} 10
                ++ [{| SDK.fields := [("name", VStr "Bad")];
                       SDK.getInsights := Thrown "(#100) Invalid parameter" |}])%list
               VUndefined VUndefined
               {| Approvals.campaignState := ∅;
                  Approvals.pendingApprovals := ∅ |} _))) eq_refl).
  cbn [List.repeat firstn app]. intros c Hc.
  repeat (destruct Hc as [<- | Hc]; [eexists; reflexivity|]).
  destruct Hc.
Defined.

(** ** The candidates of pause_poor_performers *)

Section Candidates.

Import PausePoorPerformers.

(** A comparison that holds has two numbers as operands. *)
Lemma lt_numbers (a b : number) :
  lt a b = true -> isNaN a = false /\ isNaN b = false.
Proof.
  unfold lt, isNaN. intros H. rewrite ltb_spec in H. rewrite !FloatAxioms.eqb_spec.
  assert (forall x, x <> S754_nan -> negb (SFeqb x x) = false) as Hrefl.
  { intros [[]|[]| |[] m e] Hx; try reflexivity; try congruence;
      unfold SFeqb, SFcompare;
      rewrite Z.compare_refl, Pos.compare_refl; reflexivity. }
  destruct (Prim2SF a) as [sa|sa| |sa ma ea];
    destruct (Prim2SF b) as [sb|sb| |sb mb eb];
    try (destruct sa; discriminate H); try (destruct sb; discriminate H);
    try discriminate H; split; apply Hrefl; discriminate.
Qed.

Lemma candidate_of_facts (ctrThreshold minSpend : number)
    (campaign : SDK.Campaign) (insights : list object) (c : candidate) :
  SDK.getInsights campaign = Returned insights ->
  In c (candidate_of ctrThreshold minSpend (SDK.fields campaign) insights) ->
  candidate_from campaign c
  /\ gt (spend c) minSpend = true /\ lt (ctr c) ctrThreshold = true
  /\ estimatedDailySavings c = dailyBudget c.
Proof.
  intros Hi. unfold candidate_of. cbv zeta.
  destruct (gt _ minSpend) eqn:Es; cbn [andb]; [|intros []].
  destruct (lt _ ctrThreshold) eqn:Ec; [|intros []].
  intros [<- | []]. cbn [spend ctr estimatedDailySavings dailyBudget].
  split; [exists insights; cbn; auto|]. auto.
Qed.

Lemma candidate_of_length (ctrThreshold minSpend : number)
    (campaign : object) (insights : list object) :
  (List.length (candidate_of ctrThreshold minSpend campaign insights) <= 1)%nat.
Proof. unfold candidate_of. cbv zeta. destruct (_ && _); cbn; lia. Qed.

Lemma add_savings_app (total : number) (l1 l2 : list candidate) :
  add_savings total (l1 ++ l2) = add_savings (add_savings total l1) l2.
Proof. unfold add_savings. apply fold_left_app. Qed.

Lemma candidates_loop_facts (ctrThreshold minSpend : number)
    (campaigns : list SDK.Campaign) :
  forall (pushed result : list candidate) (savings total : number),
    candidates_loop ctrThreshold minSpend campaigns pushed savings
    = Returned (result, total) ->
    exists added,
      result = (pushed ++ added)%list
      /\ total = add_savings savings added
      /\ (List.length added <= List.length campaigns)%nat
      /\ forall c, In c added ->
           exists campaign insights,
             In campaign campaigns
             /\ SDK.getInsights campaign = Returned insights
             /\ In c (candidate_of ctrThreshold minSpend
                        (SDK.fields campaign) insights).
Proof.
  induction campaigns as [|campaign rest IH];
    intros pushed result savings total.
  - intros [= <- <-]. exists []. rewrite app_nil_r.
    split; [reflexivity|]. split; [reflexivity|]. split; [cbn; lia|].
    intros c [].
  - cbn [candidates_loop].
    destruct (SDK.getInsights campaign) as [insights|] eqn:Ei; [|discriminate].
    cbv zeta. intros H.
    destruct (IH _ _ _ _ H) as (added & -> & -> & Hlen & Hin).
    exists (candidate_of ctrThreshold minSpend (SDK.fields campaign) insights
            ++ added)%list.
    split; [now rewrite app_assoc|].
    split; [now rewrite add_savings_app|].
    pose proof (candidate_of_length ctrThreshold minSpend
                  (SDK.fields campaign) insights).
    split; [rewrite length_app; cbn [List.length]; lia|].
    intros c Hc. apply in_app_or in Hc. destruct Hc as [Hc | Hc].
    + exists campaign, insights. cbn. auto.
    + destruct (Hin c Hc) as (c' & i & ? & ? & ?). exists c', i. cbn. auto.
Qed.

End Candidates.

(** X30: the candidates for a pause are campaigns whose spend is above
    minSpend and whose CTR is below the threshold, both strictly and as
    numbers: a campaign whose spend or CTR is not a number is never a
    candidate, and there is no candidate at all when a criterion is not a
    number.  There is at most one candidate for each campaign, and the total
    of the savings is the sum of the daily budgets of the candidates, added
    in their order. *)
Theorem candidates_are_strictly_below_threshold
    (ctrThreshold minSpend : number) (campaigns : list SDK.Campaign)
    (result : list PausePoorPerformers.candidate) (total : number) :
  PausePoorPerformers.candidates_loop ctrThreshold minSpend campaigns [] 0
  = Returned (result, total) ->
  (List.length result <= List.length campaigns)%nat
  /\ total = PausePoorPerformers.add_savings 0 result
  /\ (forall c, In c result ->
      (exists campaign, In campaign campaigns /\ candidate_from campaign c)
      /\ gt (PausePoorPerformers.spend c) minSpend = true
      /\ lt (PausePoorPerformers.ctr c) ctrThreshold = true
      /\ isNaN (PausePoorPerformers.spend c) = false
      /\ isNaN (PausePoorPerformers.ctr c) = false
      /\ isNaN minSpend = false /\ isNaN ctrThreshold = false
      /\ PausePoorPerformers.estimatedDailySavings c
         = PausePoorPerformers.dailyBudget c).
Proof.
  intros H.
  destruct (candidates_loop_facts _ _ _ _ _ _ _ H)
    as (added & -> & -> & Hlen & Hin).
  cbn [app]. split; [exact Hlen|]. split; [reflexivity|].
  intros c Hc. destruct (Hin c Hc) as (campaign & insights & Hcm & Hi & Hof).
  destruct (candidate_of_facts _ _ _ _ _ Hi Hof) as (Hfrom & Hs & Hct & He).
  destruct (lt_numbers _ _ Hs) as [? ?].
  destruct (lt_numbers _ _ Hct) as [? ?].
  split; [eauto|]. auto 10.
Qed.

(** The theorem on three campaigns, for the criteria 0.5 and 10: the first
    one has a CTR of 0.3 for a spend of 40, the CTR of the second one is
    exactly 0.5, and the third one has no insights. *)
Lemma candidates_are_strictly_below_threshold_witness :
  let campaigns :=
    [{| SDK.fields := [("id", VStr "c1"); ("daily_budget", VStr "25")];
        SDK.getInsights := Returned [[("ctr", VStr "0.3"); ("spend", VStr "40")]] |};
     {| SDK.fields := [("id", VStr "c2"); ("daily_budget", VStr "30")];
        SDK.getInsights := Returned [[("ctr", VStr "0.5"); ("spend", VStr "40")]] |};
     {| SDK.fields := [("id", VStr "c3")];
        SDK.getInsights := Returned [] |}] in
  exists c total,
    PausePoorPerformers.candidates_loop 0.5 10 campaigns [] 0
    = Returned ([c], total)
    /\ PausePoorPerformers.id c = VStr "c1"
    /\ PausePoorPerformers.potentialDailySavings total = "25.00"
    /\ lt (PausePoorPerformers.ctr c) 0.5 = true.
Proof.
  cbv zeta.
  destruct (PausePoorPerformers.candidates_loop _ _ _ _ _)
    as [[result total]|e] eqn:E; [|vm_compute in E; discriminate E].
  destruct (candidates_are_strictly_below_threshold _ _ _ _ _ E)
    as (_ & _ & Hall).
  assert (exists c, result = [c]
                    /\ PausePoorPerformers.id c = VStr "c1"
                    /\ PausePoorPerformers.potentialDailySavings total
                       = "25.00") as (c & -> & Hid & Hs).
  { vm_compute in E. injection E as <- <-. eexists.
    split; [reflexivity|]. split; [reflexivity|]. vm_compute. reflexivity. }
  exists c, total. split; [reflexivity|]. split; [exact Hid|].
  split; [exact Hs|]. apply (Hall c). now left.
Defined.
